(** * rentRide backend: booking pricing, availability and status transitions

    A shallow embedding of [home/models.py] (the [Booking] model: [clean],
    [duration_hours], [calculate_total], [save]) and of the booking views of
    [home/views.py] ([perform_create], the update and the deletion that the
    [ModelViewSet] gives to bookings and vehicles, [checkout], [cancel],
    [approve], [reject], the payment webhook, [quote], [availability], the
    [available_only] step of the vehicle search), with the parts of Python's
    [decimal] and [datetime] modules and of Django's model validation that
    these functions run through. *)

From Stdlib Require Import ZArith QArith Qabs Qpower Lia Lqa Bool List Ascii
  String DecimalString Sorted.
From stdpp Require Import gmap strings.

Local Open Scope Z_scope.

(** ** Exceptions and results *)

(** One entry of the error dictionary of a Django [ValidationError]. *)
Inductive verror : Type :=
| NaiveTimestamp          (* "start_at and end_at must be timezone-aware." *)
| InvalidWindow           (* clean(): "Start time must be before end time." *)
| InvalidChoice (field : string) (* "Value ... is not a valid choice." *)
| NotUnique (field : string)     (* "... with this ... already exists." *)
| NullField (field : string)     (* a foreign key that points nowhere *)
| BlankField (field : string)    (* "This field cannot be blank." *)
| FieldError (field : string).   (* any other field validator *)

(** The Python exceptions that the modelled code can raise. *)
Inductive exn : Type :=
| TypeError                       (* naive and aware datetimes mixed *)
| InvalidOperation                (* decimal: quantize out of precision *)
| DivisionByZero
| ValidationError (errs : list verror)
| PermissionDenied
| DoesNotExist
| MultipleObjectsReturned
| ValueError.                     (* parse_datetime: no valid date or time *)

Inductive result (A : Type) : Type :=
| Ok (a : A)
| Raise (e : exn).
Arguments Ok {A} a.
Arguments Raise {A} e.

#[global] Instance result_ret : MRet result := fun A a => Ok a.
#[global] Instance result_bind : MBind result := fun A B k r =>
  match r with
  | Ok a => k a
  | Raise e => Raise e
  end.

(** ** Python's [decimal] module (default context) *)

Module Dec.

(** A finite [Decimal]: [coef * 10 ^ dexp].  The coefficient carries the
    sign; the sign of a zero is not tracked (Python compares [-0] and [0]
    equal). *)
Record Decimal : Type := mkDec { coef : Z; dexp : Z }.

(** [getcontext().prec] of the default context; its rounding is
    [ROUND_HALF_EVEN].  The exponent limits [Emin], [Emax] (-999999 and
    999999) are not modelled: the operations below never signal [Overflow]
    or [Underflow].  The money fields of the models (at most twelve digits,
    two decimal places) keep every exponent far from the limits; a statement
    about decimals of any exponent says so. *)
Definition prec : Z := 28.

Fixpoint digits_fuel (fuel : nat) (n : Z) : Z :=
  match fuel with
  | O => 1
  | S f => if n <? 10 then 1 else 1 + digits_fuel f (n / 10)
  end.

(** [len(self._int)]: the number of decimal digits of [|n|] (1 for 0). *)
Definition ndigits (n : Z) : Z :=
  digits_fuel (Z.to_nat (Z.log2 (Z.abs n))) (Z.abs n).

(** [n / d] rounded to the nearest integer, ties to the even one
    ([ROUND_HALF_EVEN]); [d > 0]. *)
Definition round_half_even (n d : Z) : Z :=
  let q := n / d in
  let r := n mod d in
  if 2 * r <? d then q
  else if d <? 2 * r then q + 1
  else if Z.even q then q else q + 1.

(** [n / d] rounded to the nearest integer, ties away from zero
    ([ROUND_HALF_UP]); [d > 0]. *)
Definition round_half_up (n d : Z) : Z :=
  let q := n / d in
  let r := n mod d in
  if 2 * r <? d then q
  else if d <? 2 * r then q + 1
  else if 0 <=? n then q + 1 else q.

(** [Decimal._fix]: round to at most [prec] digits. *)
Definition fix_ (a : Decimal) : Decimal :=
  let len := ndigits (coef a) in
  if len <=? prec then a
  else
    let digits := len - prec in
    let c := round_half_even (coef a) (10 ^ digits) in
    if ndigits c <=? prec then mkDec c (dexp a + digits)
    else mkDec (c / 10) (dexp a + digits + 1).

(** [Decimal.__mul__] *)
Definition mul (a b : Decimal) : Decimal :=
  fix_ (mkDec (coef a * coef b) (dexp a + dexp b)).

(** [Decimal.__add__] *)
Definition add (a b : Decimal) : Decimal :=
  let e := Z.min (dexp a) (dexp b) in
  fix_ (mkDec (coef a * 10 ^ (dexp a - e) + coef b * 10 ^ (dexp b - e)) e).

(** The loop of [__truediv__] for an exact quotient: drop trailing zeros
    while the exponent is below the ideal one. *)
Fixpoint strip_zeros (fuel : nat) (c e ideal : Z) : Decimal :=
  match fuel with
  | O => mkDec c e
  | S f =>
      if (e <? ideal) && (c mod 10 =? 0)
      then strip_zeros f (c / 10) (e + 1) ideal
      else mkDec c e
  end.

(** [Decimal.__truediv__] *)
Definition div (a b : Decimal) : result Decimal :=
  if coef b =? 0 then
    Raise (if coef a =? 0 then InvalidOperation else DivisionByZero)
  else if coef a =? 0 then Ok (mkDec 0 (dexp a - dexp b))
  else
    let sgn := Z.sgn (coef a) * Z.sgn (coef b) in
    let x := Z.abs (coef a) in
    let y := Z.abs (coef b) in
    let shift := ndigits y - ndigits x + prec + 1 in
    let e := dexp a - dexp b - shift in
    let n := if 0 <=? shift then x * 10 ^ shift else x in
    let d := if 0 <=? shift then y else y * 10 ^ (- shift) in
    let q := n / d in
    let r := n mod d in
    if r =? 0 then
      let s := strip_zeros (Z.to_nat (dexp a - dexp b - e)) q e (dexp a - dexp b) in
      Ok (fix_ (mkDec (sgn * coef s) (dexp s)))
    else
      let q' := if q mod 5 =? 0 then q + 1 else q in
      Ok (fix_ (mkDec (sgn * q') e)).

(** [Decimal._rescale] to exponent [e], rounding half-even. *)
Definition rescale (a : Decimal) (e : Z) : Decimal :=
  if e <=? dexp a then mkDec (coef a * 10 ^ (dexp a - e)) e
  else mkDec (round_half_even (coef a) (10 ^ (e - dexp a))) e.

(** [Decimal.quantize(Decimal(1).scaleb(e))] *)
Definition quantize (a : Decimal) (e : Z) : result Decimal :=
  if coef a =? 0 then Ok (mkDec 0 e)
  else if prec <? ndigits (coef a) + dexp a - e then Raise InvalidOperation
  else
    let ans := rescale a e in
    if prec <? ndigits (coef ans) then Raise InvalidOperation else Ok ans.

(** The value of a decimal as a rational. *)
Definition value (a : Decimal) : Q :=
  (inject_Z (coef a) * Qpower 10 (dexp a))%Q.

End Dec.

Import Dec.

(** ** Python floats, as far as [timedelta.total_seconds] needs them *)

Module Float.

(** A finite binary64 number [mant * 2 ^ expo]. *)
Record float : Type := mkFloat { mant : Z; expo : Z }.

Definition scaled (a d e : Z) : Z * Z :=
  if 0 <=? e then (a, d * 2 ^ e) else (a * 2 ^ (- e), d).

(** [n / d] on Python integers ([d > 0]): the quotient correctly rounded to
    53 bits, ties to even.  The quotients formed below lie between 1e-6 and
    1e14, inside the normal range of binary64, so neither subnormal numbers
    nor overflow are modelled. *)
Definition true_divide (n d : Z) : float :=
  if n =? 0 then mkFloat 0 0
  else
    let a := Z.abs n in
    let e0 := Z.log2 a - Z.log2 d - 53 in
    let '(n0, d0) := scaled a d e0 in
    let e := if n0 / d0 <? 2 ^ 53 then e0 else e0 + 1 in
    let '(n1, d1) := scaled a d e in
    mkFloat (Z.sgn n * round_half_even n1 d1) e.

(** Lowest terms of [m / 2 ^ k], as [float.as_integer_ratio] returns them. *)
Fixpoint lowest_terms (fuel : nat) (m k : Z) : Z * Z :=
  match fuel with
  | O => (m, k)
  | S f =>
      if (0 <? k) && Z.even m then lowest_terms f (m / 2) (k - 1) else (m, k)
  end.

(** [Decimal(f)] for a float [f] ([Decimal.from_float]): the exact binary
    value, written in base ten. *)
Definition to_Decimal (f : float) : Decimal :=
  if 0 <=? expo f then mkDec (mant f * 2 ^ expo f) 0
  else
    let '(m, k) := lowest_terms (Z.to_nat (- expo f)) (mant f) (- expo f) in
    mkDec (m * 5 ^ k) (- k).

End Float.

(** ** [datetime] and [timedelta] *)

(** A [datetime]: microseconds since the epoch (of the UTC instant when the
    value is aware, of the wall clock when it is naive), and whether it
    carries a time zone. *)
Record datetime : Type := mkDatetime { micros : Z; aware : bool }.

(** A [timedelta], in microseconds. *)
Definition timedelta : Type := Z.

(** [timezone.is_naive] *)
Definition is_naive (d : datetime) : bool := negb (aware d).

(** [a - b] on datetimes; mixing naive and aware raises [TypeError]. *)
Definition datetime_sub (a b : datetime) : result timedelta :=
  if Bool.eqb (aware a) (aware b) then Ok (micros a - micros b)
  else Raise TypeError.

(** [a >= b] on datetimes. *)
Definition datetime_ge (a b : datetime) : result bool :=
  if Bool.eqb (aware a) (aware b) then Ok (micros b <=? micros a)
  else Raise TypeError.

(** [timedelta.total_seconds]: microseconds / 10**6, a float. *)
Definition total_seconds (delta : timedelta) : Float.float :=
  Float.true_divide delta (10 ^ 6).

(** ** The models of [home/models.py] *)

Record Vehicle : Type := mkVehicle {
  owner : nat;
  vehicle_pickup_location : string;
  hourly_rate : Decimal;
  daily_rate : Decimal;
  weekly_rate : Decimal;
  vehicle_delivery_fee : Decimal;
  is_active : bool
}.

Definition STATUS_PENDING : string := "pending".
Definition STATUS_CONFIRMED : string := "confirmed".
Definition STATUS_CANCELLED : string := "cancelled".
Definition STATUS_CHOICES : list string :=
  [STATUS_PENDING; STATUS_CONFIRMED; STATUS_CANCELLED].

Definition UNIT_HOURLY : string := "hourly".
Definition UNIT_DAILY : string := "daily".
Definition UNIT_WEEKLY : string := "weekly".
Definition UNIT_CHOICES : list string := [UNIT_HOURLY; UNIT_DAILY; UNIT_WEEKLY].

Record Booking : Type := mkBooking {
  booking_id : string;
  customer : nat;
  vehicle : nat;
  start_at : datetime;
  end_at : datetime;
  pickup_location : string;
  dropoff_location : string;
  delivery_fee : Decimal;
  pricing_unit : string;
  total_price : Decimal;
  status : string
}.

Definition set_status (s : string) (b : Booking) : Booking :=
  mkBooking (booking_id b) (customer b) (vehicle b) (start_at b) (end_at b)
    (pickup_location b) (dropoff_location b) (delivery_fee b) (pricing_unit b)
    (total_price b) s.

Definition set_total_price (p : Decimal) (b : Booking) : Booking :=
  mkBooking (booking_id b) (customer b) (vehicle b) (start_at b) (end_at b)
    (pickup_location b) (dropoff_location b) (delivery_fee b) (pricing_unit b)
    p (status b).

Definition set_booking_id (i : string) (b : Booking) : Booking :=
  mkBooking i (customer b) (vehicle b) (start_at b) (end_at b)
    (pickup_location b) (dropoff_location b) (delivery_fee b) (pricing_unit b)
    (total_price b) (status b).

(** [Booking.clean] *)
Definition clean (b : Booking) : result unit :=
  ge ← datetime_ge (start_at b) (end_at b);
  if ge : bool then Raise (ValidationError [InvalidWindow]) else Ok tt.

(** [Booking.duration_hours] *)
Definition duration_hours (b : Booking) : result Decimal :=
  delta ← datetime_sub (end_at b) (start_at b);
  div (Float.to_Decimal (total_seconds delta)) (mkDec 3600 0).

(** [Booking.calculate_total]; [v] is the row [self.vehicle]. *)
Definition calculate_total (v : Vehicle) (b : Booking) : result Decimal :=
  hours ← duration_hours b;
  if String.eqb (pricing_unit b) UNIT_HOURLY then
    base ← quantize (mul hours (hourly_rate v)) (-2);
    quantize (add base (delivery_fee b)) (-2)
  else if String.eqb (pricing_unit b) UNIT_DAILY then
    d ← div hours (mkDec 24 0);
    days ← quantize d (-2);
    base ← quantize (mul days (daily_rate v)) (-2);
    quantize (add base (delivery_fee b)) (-2)
  else
    w ← div hours (mkDec (24 * 7) 0);
    weeks ← quantize w (-2);
    base ← quantize (mul weeks (weekly_rate v)) (-2);
    quantize (add base (delivery_fee b)) (-2).

(** ** Booking identifiers *)

(** The fields of [timezone.now()] that [strftime] reads. *)
Record clock : Type := mkClock {
  year : Z; month : Z; day : Z; hour : Z; minute : Z; second : Z
}.

Definition digit_char (n : Z) : ascii :=
  ascii_of_nat (48 + Z.to_nat (n mod 10)).

(** [n] in decimal, zero-padded to [width] digits. *)
Fixpoint zero_padded (width : nat) (n : Z) : string :=
  match width with
  | O => EmptyString
  | S w => (zero_padded w (n / 10) ++ String (digit_char n) EmptyString)%string
  end.

(** [timestamp.strftime("%Y%m%d%H%M%S")] *)
Definition strftime_YmdHMS (t : clock) : string :=
  (zero_padded 4 (year t) ++ zero_padded 2 (month t) ++ zero_padded 2 (day t)
   ++ zero_padded 2 (hour t) ++ zero_padded 2 (minute t)
   ++ zero_padded 2 (second t))%string.

(** [string.ascii_uppercase + string.digits] *)
Definition ID_ALPHABET : list ascii :=
  list_ascii_of_string "ABCDEFGHIJKLMNOPQRSTUVWXYZ0123456789".

(** [random.choices(population, k=k)]: the [i]-th character is the one at
    the index that the generator draws at step [i]. *)
Definition random_choices (population : list ascii) (k : nat)
    (draw : nat -> nat) : list ascii :=
  map (fun i => nth (draw i mod length population)%nat population "A"%char)
      (seq 0 k).

(** What a call of [save] reads from the outside world. *)
Record env : Type := mkEnv {
  now : clock;          (* timezone.now() *)
  draw : nat -> nat     (* the random generator: index drawn at step i *)
}.

(** The identifier that [save] builds: [f"BK{date_part}{rand}"]. *)
Definition generate_id (w : env) : string :=
  ("BK" ++ strftime_YmdHMS (now w)
   ++ string_of_list_ascii (random_choices ID_ALPHABET 5 (draw w)))%string.

(** ** The tables *)

Definition PAYMENT_PENDING : string := "pending".
Definition PAYMENT_SUCCESS : string := "success".
Definition PAYMENT_FAILED : string := "failed".

Record Payment : Type := mkPayment {
  payment_booking : nat;
  provider : string;
  reference_id : string;
  payment_status : string;
  amount : Decimal
}.

Record DB : Type := mkDB {
  vehicles : gmap nat Vehicle;
  bookings : gmap nat Booking;
  payments : gmap nat Payment;
  profiles : gmap nat string;   (* user id to [UserProfile.role] *)
  next_booking : nat;           (* next auto-increment keys *)
  next_payment : nat
}.

Definition with_bookings (m : gmap nat Booking) (n : nat) (db : DB) : DB :=
  mkDB (vehicles db) m (payments db) (profiles db) n (next_payment db).

Definition with_payments (m : gmap nat Payment) (n : nat) (db : DB) : DB :=
  mkDB (vehicles db) (bookings db) m (profiles db) (next_booking db) n.

Definition with_vehicles (m : gmap nat Vehicle) (db : DB) : DB :=
  mkDB m (bookings db) (payments db) (profiles db) (next_booking db)
    (next_payment db).

(** [queryset.filter(...)] as the list of matching rows with their keys. *)
Definition filter_rows {A} (f : nat -> A -> bool) (m : gmap nat A)
    : list (nat * A) :=
  List.filter (fun kv => f (fst kv) (snd kv)) (map_to_list m).

(** [queryset.filter(...).exists()] *)
Definition exists_row {A} (f : nat -> A -> bool) (m : gmap nat A) : bool :=
  existsb (fun kv => f (fst kv) (snd kv)) (map_to_list m).

Definition in_choices (s : string) (choices : list string) : bool :=
  existsb (String.eqb s) choices.

(** The lookup shared by [perform_create], [availability], [get_is_booked]:
    [filter(vehicle=veh, start_at__lt=e, end_at__gt=s,
            status__in=[STATUS_PENDING, STATUS_CONFIRMED])]. *)
Definition overlap_lookup (veh : nat) (s e : datetime) (b : Booking) : bool :=
  (vehicle b =? veh)%nat
  && (micros (start_at b) <? micros e)
  && (micros s <? micros (end_at b))
  && in_choices (status b) [STATUS_PENDING; STATUS_CONFIRMED].

Section Backend.

(** Django's validators of the fields that the code below does not look at
    (lengths of the character fields, digits of the decimal fields, the
    customer key): the errors they report for a booking. *)
Variable field_validators : Booking -> list verror.

Definition is_booking_id_error (e : verror) : bool :=
  match e with
  | FieldError f | InvalidChoice f | NullField f | NotUnique f
  | BlankField f => String.eqb f "booking_id"
  | _ => false
  end.

(** [Field.validate] of a character field with choices that may not be
    blank. *)
Definition validate_choice (field value : string) (choices : list string)
    : list verror :=
  if String.eqb value "" then [BlankField field]
  else if in_choices value choices then []
  else [InvalidChoice field].

(** [Model.clean_fields]: the choices of [pricing_unit] and [status], the
    vehicle key, and the remaining validators. *)
Definition clean_fields (db : DB) (b : Booking) : list verror :=
  validate_choice "pricing_unit" (pricing_unit b) UNIT_CHOICES
  ++ validate_choice "status" (status b) STATUS_CHOICES
  ++ (match vehicles db !! vehicle b with
      | Some _ => []
      | None => [NullField "vehicle"]
      end)
  ++ field_validators b.

(** [Model.validate_unique] for [booking_id] ([unique=True]); [pk] is the key
    of the row being saved, if it has one. *)
Definition validate_unique (db : DB) (pk : option nat) (b : Booking)
    : list verror :=
  if exists_row (fun k r => String.eqb (booking_id r) (booking_id b)
                            && negb (bool_decide (Some k = pk)))
       (bookings db)
  then [NotUnique "booking_id"] else [].

(** [Model.full_clean]: field errors, then [clean], then the unique check
    (skipped for a field that already failed); all errors are raised
    together. *)
Definition full_clean (db : DB) (pk : option nat) (b : Booking)
    : result unit :=
  let fe := clean_fields db b in
  match clean b with
  | Raise (ValidationError ce) =>
      Raise (ValidationError
               (fe ++ ce ++ if existsb is_booking_id_error fe then []
                            else validate_unique db pk b))
  | Raise e => Raise e
  | Ok _ =>
      match fe ++ (if existsb is_booking_id_error fe then []
                   else validate_unique db pk b) with
      | [] => Ok tt
      | errs => Raise (ValidationError errs)
      end
  end.

(** [Booking.save]: returns the table after the write, the key of the row
    and the saved instance. *)
Definition save (w : env) (pk : option nat) (b : Booking) (db : DB)
    : result (DB * nat * Booking) :=
  if is_naive (start_at b) || is_naive (end_at b) then
    Raise (ValidationError [NaiveTimestamp])
  else
    let b1 := if String.eqb (booking_id b) "" then set_booking_id (generate_id w) b
              else b in
    _ ← full_clean db pk b1;
    v ← match vehicles db !! vehicle b1 with
        | Some v => Ok v
        | None => Raise DoesNotExist
        end;
    total ← calculate_total v b1;
    let b2 := set_total_price total b1 in
    match pk with
    | Some k => Ok (with_bookings (<[k := b2]> (bookings db)) (next_booking db) db, k, b2)
    | None =>
        let k := next_booking db in
        Ok (with_bookings (<[k := b2]> (bookings db)) (S k) db, k, b2)
    end.

(** ** The views of [home/views.py] *)

Inductive response : Type :=
| Detail (code : nat) (detail : string)
| Created (pk : nat) (b : Booking)
| Quote (vehicle_id : nat) (total : Decimal)   (* total_price: str(total) *)
| BookedSlots (vehicle_id : nat) (slots : list (datetime * datetime * string))
| Updated (pk : nat) (b : Booking)             (* 200 with the booking *)
| NoContent.                                   (* 204 *)

(** A view maps the tables to the tables after the request and either a
    response or the exception that left the view. *)
Definition view : Type := DB -> DB * result response.

(** [permissions._has_role] *)
Definition has_role (db : DB) (user : nat) (role : string) : bool :=
  match profiles db !! user with
  | Some r => String.eqb r role
  | None => false
  end.

Definition ROLE_CUSTOMER : string := "customer".
Definition ROLE_OWNER : string := "owner".

(** The validated data of a booking request. *)
Record booking_data : Type := mkData {
  d_booking_id : string;
  d_vehicle : nat;
  d_start_at : datetime;
  d_end_at : datetime;
  d_pickup_location : string;
  d_dropoff_location : string;
  d_delivery_fee : option Decimal;
  d_pricing_unit : string
}.

(** [BookingViewSet.perform_create] *)
Definition perform_create (w : env) (user : nat) (d : booking_data) : view :=
  fun db =>
  if negb (has_role db user ROLE_CUSTOMER) then (db, Raise PermissionDenied)
  else
    match vehicles db !! d_vehicle d with
    | None => (db, Raise DoesNotExist)
    | Some v =>
        let pickup :=
          if String.eqb (d_pickup_location d) "" then vehicle_pickup_location v
          else d_pickup_location d in
        let fee :=
          match d_delivery_fee d with
          | None => vehicle_delivery_fee v
          | Some f => f
          end in
        let overlap :=
          exists_row (fun _ => overlap_lookup (d_vehicle d) (d_start_at d) (d_end_at d))
            (bookings db) in
        if overlap then (db, Raise PermissionDenied)
        else
          let b := mkBooking (d_booking_id d) user (d_vehicle d) (d_start_at d)
                     (d_end_at d) pickup (d_dropoff_location d) fee
                     (d_pricing_unit d) (mkDec 0 (-2)) STATUS_PENDING in
          match save w None b db with
          | Ok (db', k, b') => (db', Ok (Created k b'))
          | Raise e => (db, Raise e)
          end
    end.

(** [get_object] of [BookingViewSet]: the customer's own booking. *)
Definition get_customer_booking (db : DB) (user pk : nat) : option Booking :=
  match bookings db !! pk with
  | Some b => if (customer b =? user)%nat then Some b else None
  | None => None
  end.

(** [get_object] of [OwnerBookingViewSet]: a booking of the owner's vehicle. *)
Definition get_owner_booking (db : DB) (user pk : nat) : option Booking :=
  match bookings db !! pk with
  | Some b =>
      match vehicles db !! vehicle b with
      | Some v => if (owner v =? user)%nat then Some b else None
      | None => None
      end
  | None => None
  end.

Definition save_and_respond (w : env) (pk : nat) (b : Booking) (r : response)
    : view :=
  fun db =>
  match save w (Some pk) b db with
  | Ok (db', _, _) => (db', Ok r)
  | Raise e => (db, Raise e)
  end.

(** [BookingViewSet.cancel] *)
Definition cancel (w : env) (user pk : nat) : view :=
  fun db =>
  if negb (has_role db user ROLE_CUSTOMER) then (db, Raise PermissionDenied)
  else
    match get_customer_booking db user pk with
    | None => (db, Raise DoesNotExist)
    | Some booking =>
        if String.eqb (status booking) STATUS_CANCELLED then
          (db, Ok (Detail 400 "Booking already cancelled."))
        else
          save_and_respond w pk (set_status STATUS_CANCELLED booking)
            (Detail 200 "Booking cancelled.") db
    end.

(** [OwnerBookingViewSet.approve] *)
Definition approve (w : env) (user pk : nat) : view :=
  fun db =>
  if negb (has_role db user ROLE_OWNER) then (db, Raise PermissionDenied)
  else
    match get_owner_booking db user pk with
    | None => (db, Raise DoesNotExist)
    | Some booking =>
        save_and_respond w pk (set_status STATUS_CONFIRMED booking)
          (Detail 200 "Booking confirmed.") db
    end.

(** [OwnerBookingViewSet.reject] *)
Definition reject (w : env) (user pk : nat) : view :=
  fun db =>
  if negb (has_role db user ROLE_OWNER) then (db, Raise PermissionDenied)
  else
    match get_owner_booking db user pk with
    | None => (db, Raise DoesNotExist)
    | Some booking =>
        save_and_respond w pk (set_status STATUS_CANCELLED booking)
          (Detail 200 "Booking rejected.") db
    end.

(** The validated data of a booking update ([PUT] or [PATCH]): the writable
    fields of [BookingSerializer] that the request gives ([customer],
    [status] and [total_price] are read-only). *)
Record booking_patch : Type := mkPatch {
  p_booking_id : option string;
  p_vehicle : option nat;
  p_start_at : option datetime;
  p_end_at : option datetime;
  p_pickup_location : option string;
  p_dropoff_location : option string;
  p_delivery_fee : option Decimal;
  p_pricing_unit : option string
}.

(** [ModelSerializer.update] before it saves: every given field is set on
    the instance. *)
Definition apply_patch (p : booking_patch) (b : Booking) : Booking :=
  mkBooking (default (booking_id b) (p_booking_id p)) (customer b)
    (default (vehicle b) (p_vehicle p)) (default (start_at b) (p_start_at p))
    (default (end_at b) (p_end_at p))
    (default (pickup_location b) (p_pickup_location p))
    (default (dropoff_location b) (p_dropoff_location p))
    (default (delivery_fee b) (p_delivery_fee p))
    (default (pricing_unit b) (p_pricing_unit p)) (total_price b) (status b).

(** [BookingViewSet.update] and [partial_update], which the [ModelViewSet]
    provides: the customer's own booking is fetched, the serializer sets the
    given fields and saves the instance; [perform_update] is not
    overridden, so no conflict check runs. *)
Definition update_booking (w : env) (user pk : nat) (p : booking_patch)
    : view :=
  fun db =>
  if negb (has_role db user ROLE_CUSTOMER) then (db, Raise PermissionDenied)
  else
    match get_customer_booking db user pk with
    | None => (db, Raise DoesNotExist)
    | Some booking =>
        let unknown_vehicle :=
          match p_vehicle p with
          | Some vid =>
              match vehicles db !! vid with
              | Some _ => false
              | None => true
              end
          | None => false
          end in
        if unknown_vehicle then (db, Raise DoesNotExist)
        else
          match save w (Some pk) (apply_patch p booking) db with
          | Ok (db', k, b') => (db', Ok (Updated k b'))
          | Raise e => (db, Raise e)
          end
    end.

(** [BookingViewSet.destroy], which the [ModelViewSet] provides: the
    customer's own booking is deleted, and with it (by cascade) its
    payments. *)
Definition destroy_booking (user pk : nat) : view :=
  fun db =>
  if negb (has_role db user ROLE_CUSTOMER) then (db, Raise PermissionDenied)
  else
    match get_customer_booking db user pk with
    | None => (db, Raise DoesNotExist)
    | Some _ =>
        (mkDB (vehicles db) (delete pk (bookings db))
           (filter (fun kp => payment_booking (snd kp) <> pk) (payments db))
           (profiles db) (next_booking db) (next_payment db),
         Ok NoContent)
    end.

(** The body of a webhook request: the reference, the status, and the
    [booking_id], absent or the key of a booking (a positive integer). *)
Record webhook_data : Type := mkWebhook {
  w_reference_id : option string;
  w_status : option string;
  w_booking_id : option nat
}.

(** Python truthiness of an optional string. *)
Definition truthy (s : option string) : option string :=
  match s with
  | Some s' => if String.eqb s' "" then None else Some s'
  | None => None
  end.

(** [Payment.objects.get(reference_id=r)] with [DoesNotExist] caught. *)
Definition get_payment (db : DB) (r : string) : result (option (nat * Payment)) :=
  match filter_rows (fun _ p => String.eqb (reference_id p) r) (payments db) with
  | [] => Ok None
  | [kp] => Ok (Some kp)
  | _ => Raise MultipleObjectsReturned
  end.

(** The tail of [PaymentWebhookView.post], once [payment] (row [k]) is
    known: record the status, then confirm the booking on success. *)
Definition webhook_record (w : env) (d : webhook_data) (k : nat) (p : Payment)
    : view :=
  fun db =>
  let st := match truthy (w_status d) with
            | Some s => s
            | None => payment_status p
            end in
  let p' := mkPayment (payment_booking p) (provider p) (reference_id p) st
              (amount p) in
  let db1 := with_payments (<[k := p']> (payments db)) (next_payment db) db in
  if String.eqb st PAYMENT_SUCCESS then
    match bookings db1 !! payment_booking p' with
    | None => (db1, Raise DoesNotExist)
    | Some booking =>
        save_and_respond w (payment_booking p')
          (set_status STATUS_CONFIRMED booking)
          (Detail 200 "Webhook processed.") db1
    end
  else (db1, Ok (Detail 200 "Webhook processed.")).

(** [PaymentWebhookView.post] *)
Definition webhook (w : env) (d : webhook_data) : view :=
  fun db =>
  match
    match truthy (w_reference_id d) with
    | Some r => get_payment db r
    | None => Ok None
    end
  with
  | Raise e => (db, Raise e)
  | Ok (Some (k, p)) => webhook_record w d k p db
  | Ok None =>
      match w_booking_id d with
      | None => (db, Ok (Detail 400 "reference_id or booking_id required."))
      | Some bid =>
          match bookings db !! bid with
          | None => (db, Ok (Detail 404 "Booking not found."))
          | Some booking =>
              let p := mkPayment bid "cashfree"
                         (match truthy (w_reference_id d) with
                          | Some r => r
                          | None => ""
                          end)
                         PAYMENT_PENDING (total_price booking) in
              let k := next_payment db in
              webhook_record w d k p
                (with_payments (<[k := p]> (payments db)) (S k) db)
          end
      end
  end.

(** A query parameter that should hold a timestamp, as the views meet it:
    absent or empty (falsy); present but not in a format of
    [parse_datetime], which then returns [None]; in a format but no valid
    date or time, on which [parse_datetime] raises [ValueError]; or parsed. *)
Inductive datetime_param : Type :=
| Absent
| Malformed
| Invalid
| Parsed (d : datetime).

(** Python truthiness of the raw parameter. *)
Definition present (p : datetime_param) : bool :=
  match p with
  | Absent => false
  | _ => true
  end.

(** [parse_datetime] on a parameter that is present. *)
Definition parse_datetime (p : datetime_param) : result (option datetime) :=
  match p with
  | Parsed d => Ok (Some d)
  | Invalid => Raise ValueError
  | Malformed | Absent => Ok None
  end.

(** [VehicleViewSet.quote], from the query parameters (the vehicle is looked
    up among the active ones; the search filters of [get_queryset] are not
    modelled). *)
Definition quote (vehicle_id : nat) (start_param end_param : datetime_param)
    (unit_param : option string) : view :=
  fun db =>
  match vehicles db !! vehicle_id with
  | None => (db, Raise DoesNotExist)
  | Some v =>
      if negb (is_active v) then (db, Raise DoesNotExist)
      else
        match truthy unit_param with
        | Some u =>
            if present start_param && present end_param then
              match parse_datetime start_param with
              | Raise e => (db, Raise e)
              | Ok parsed_start =>
                  match parse_datetime end_param with
                  | Raise e => (db, Raise e)
                  | Ok parsed_end =>
                      match parsed_start, parsed_end with
                      | Some s, Some e =>
                          let booking :=
                            mkBooking "" 0 vehicle_id s e "" "" (mkDec 0 (-2)) u
                              (mkDec 0 (-2)) STATUS_PENDING in
                          match calculate_total v booking with
                          | Ok total => (db, Ok (Quote vehicle_id total))
                          | Raise _ =>
                              (db, Ok (Detail 400 "Unable to calculate total."))
                          end
                      | _, _ => (db, Ok (Detail 400 "Invalid datetime format."))
                      end
                  end
              end
            else
              (db, Ok (Detail 400
                         "start_at, end_at, and pricing_unit are required."))
        | None =>
            (db, Ok (Detail 400
                       "start_at, end_at, and pricing_unit are required."))
        end
  end.

Fixpoint insert_by_start (x : nat * Booking) (l : list (nat * Booking))
    : list (nat * Booking) :=
  match l with
  | [] => [x]
  | y :: l' =>
      if micros (start_at (snd x)) <=? micros (start_at (snd y)) then x :: l
      else y :: insert_by_start x l'
  end.

(** [queryset.order_by("start_at")] *)
Definition order_by_start (l : list (nat * Booking)) : list (nat * Booking) :=
  fold_right insert_by_start [] l.

(** [VehicleViewSet.availability], from the query parameters: the active
    bookings of the vehicle that overlap the window. *)
Definition availability (vehicle_id : nat)
    (start_param end_param : datetime_param) : view :=
  fun db =>
  match vehicles db !! vehicle_id with
  | None => (db, Raise DoesNotExist)
  | Some v =>
      if negb (is_active v) then (db, Raise DoesNotExist)
      else if present start_param && present end_param then
        match parse_datetime start_param with
        | Raise e => (db, Raise e)
        | Ok parsed_start =>
            match parse_datetime end_param with
            | Raise e => (db, Raise e)
            | Ok parsed_end =>
                match parsed_start, parsed_end with
                | Some s, Some e =>
                    let rows :=
                      order_by_start
                        (filter_rows (fun _ => overlap_lookup vehicle_id s e)
                           (bookings db)) in
                    (db, Ok (BookedSlots vehicle_id
                               (map (fun kb => (start_at (snd kb),
                                                end_at (snd kb),
                                                status (snd kb))) rows)))
                | _, _ => (db, Ok (Detail 400 "Invalid datetime format."))
                end
            end
        end
      else (db, Ok (Detail 400 "start_at and end_at are required."))
  end.

(** An owner changes the rate card of a vehicle ([VehicleViewSet], the
    update of the [ModelViewSet], guarded by [IsOwnerOrReadOnly]); the
    owner field is read-only. *)
Definition update_vehicle (user vehicle_id : nat) (v' : Vehicle) : view :=
  fun db =>
  match vehicles db !! vehicle_id with
  | None => (db, Raise DoesNotExist)
  | Some v =>
      if negb (is_active v) then (db, Raise DoesNotExist)
      else if negb (owner v =? user)%nat then (db, Raise PermissionDenied)
      else
        let row := mkVehicle (owner v) (vehicle_pickup_location v')
                     (hourly_rate v') (daily_rate v') (weekly_rate v')
                     (vehicle_delivery_fee v') (is_active v') in
        (with_vehicles (<[vehicle_id := row]> (vehicles db)) db,
         Ok (Detail 200 "updated"))
  end.

(** The bookings that the deletion of vehicle [vehicle_id] takes along. *)
Definition of_vehicle (vehicle_id : nat) (b : Booking) : bool :=
  (vehicle b =? vehicle_id)%nat.

(** The payments that the deletion of vehicle [vehicle_id] takes along:
    those of its bookings. *)
Definition paid_for_vehicle (db : DB) (vehicle_id : nat) (p : Payment) : bool :=
  match bookings db !! payment_booking p with
  | Some b => of_vehicle vehicle_id b
  | None => false
  end.

(** [VehicleViewSet.destroy], which the [ModelViewSet] provides, guarded by
    [IsOwnerOrReadOnly]: the vehicle is deleted, and with it (by cascade) its
    bookings and their payments. *)
Definition destroy_vehicle (user vehicle_id : nat) : view :=
  fun db =>
  match vehicles db !! vehicle_id with
  | None => (db, Raise DoesNotExist)
  | Some v =>
      if negb (is_active v) then (db, Raise DoesNotExist)
      else if negb (owner v =? user)%nat then (db, Raise PermissionDenied)
      else
        (mkDB (delete vehicle_id (vehicles db))
           (filter (fun kb => of_vehicle vehicle_id (snd kb) = false)
              (bookings db))
           (filter (fun kp => paid_for_vehicle db vehicle_id (snd kp) = false)
              (payments db))
           (profiles db) (next_booking db) (next_payment db),
         Ok NoContent)
  end.

(** The requests that write bookings or existing vehicles; the webhook
    writes payments too.  ([checkout], which writes a payment and nothing
    else, is modelled on its own below; the remaining views write other
    tables, or add a vehicle, a user or a profile.) *)
Inductive request : Type :=
| Create (user : nat) (d : booking_data)
| Cancel (user pk : nat)
| Approve (user pk : nat)
| Reject (user pk : nat)
| Webhook (d : webhook_data)
| UpdateVehicle (user vehicle_id : nat) (v : Vehicle)
| UpdateBooking (user pk : nat) (p : booking_patch)
| DeleteBooking (user pk : nat)
| DeleteVehicle (user vehicle_id : nat).

Definition handle (w : env) (r : request) : view :=
  match r with
  | Create user d => perform_create w user d
  | Cancel user pk => cancel w user pk
  | Approve user pk => approve w user pk
  | Reject user pk => reject w user pk
  | Webhook d => webhook w d
  | UpdateVehicle user vehicle_id v => update_vehicle user vehicle_id v
  | UpdateBooking user pk p => update_booking w user pk p
  | DeleteBooking user pk => destroy_booking user pk
  | DeleteVehicle user vehicle_id => destroy_vehicle user vehicle_id
  end.

(** The tables after a sequence of requests, each with the clock and the
    random draws it meets. *)
Fixpoint run (trace : list (env * request)) (db : DB) : DB :=
  match trace with
  | [] => db
  | (w, r) :: rest => run rest (fst (handle w r db))
  end.

(** [save] accepts instance [b], which has an identifier, as row [pk]: the
    timestamps are aware, the validation passes and the price can be
    computed. *)
Definition saveable (db : DB) (pk : option nat) (b : Booking) : Prop :=
  booking_id b <> ""%string
  /\ aware (start_at b) = true /\ aware (end_at b) = true
  /\ full_clean db pk b = Ok tt
  /\ exists v total,
       vehicles db !! vehicle b = Some v /\ calculate_total v b = Ok total.

End Backend.

(** ** Further views and serializer methods *)

(** [str(n)] of a non-negative integer. *)
Definition str (n : nat) : string := NilZero.string_of_uint (Nat.to_uint n).

Inductive checkout_response : Type :=
| CheckoutDetail (code : nat) (detail : string)
| CheckoutPayment (pk : nat) (p : Payment) (message : string).

(** [BookingViewSet.checkout]: a payment row for a pending booking of the
    customer, created with the stored price and then given its own key as
    reference. *)
Definition checkout (user pk : nat) (db : DB)
    : DB * result checkout_response :=
  if negb (has_role db user ROLE_CUSTOMER) then (db, Raise PermissionDenied)
  else
    match get_customer_booking db user pk with
    | None => (db, Raise DoesNotExist)
    | Some booking =>
        if negb (String.eqb (status booking) STATUS_PENDING) then
          (db, Ok (CheckoutDetail 400 "Booking is not pending."))
        else
          let k := next_payment db in
          let payment := mkPayment pk "cashfree" "" PAYMENT_PENDING
                           (total_price booking) in
          let db1 := with_payments (<[k := payment]> (payments db)) (S k) db in
          let payment' := mkPayment (payment_booking payment)
                            (provider payment) (str k)
                            (payment_status payment) (amount payment) in
          (with_payments (<[k := payment']> (payments db1)) (next_payment db1)
             db1,
           Ok (CheckoutPayment k payment' "Integrate Cashfree payment here."))
    end.

(** [conflict_ids] of [VehicleViewSet.get_queryset]: the vehicles named by a
    pending or confirmed booking that overlaps the window. *)
Definition conflict_ids (s e : datetime) (db : DB) : list nat :=
  map (fun kb => vehicle (snd kb))
    (filter_rows
       (fun _ b => (micros (start_at b) <? micros e)
                   && (micros s <? micros (end_at b))
                   && in_choices (status b) [STATUS_PENDING; STATUS_CONFIRMED])
       (bookings db)).

(** The [available_only] step of [VehicleViewSet.get_queryset], on the
    queryset that the steps before it left: with both timestamps given and
    parsed and the flag one of "1", "true", "yes", the vehicles of
    [conflict_ids] are excluded. *)
Definition exclude_unavailable (start_param end_param : option datetime)
    (available_only : option string) (db : DB)
    (queryset : list (nat * Vehicle)) : list (nat * Vehicle) :=
  match start_param, end_param, available_only with
  | Some s, Some e, Some flag =>
      if in_choices flag ["1"; "true"; "yes"]%string then
        List.filter
          (fun kv => negb (existsb (Nat.eqb (fst kv)) (conflict_ids s e db)))
          queryset
      else queryset
  | _, _, _ => queryset
  end.

(** [VehicleSerializer.get_is_booked], from the parsed query parameters of
    the request. *)
Definition get_is_booked (vehicle_id : nat)
    (start_param end_param : option datetime) (db : DB) : bool :=
  match start_param, end_param with
  | Some s, Some e =>
      exists_row (fun _ => overlap_lookup vehicle_id s e) (bookings db)
  | _, _ => false
  end.

(** ** Vocabulary of the specification *)

(** A booking that blocks its vehicle. *)
Definition active (b : Booking) : Prop :=
  status b = STATUS_PENDING \/ status b = STATUS_CONFIRMED.

(** Two windows overlap, as half-open intervals. *)
Definition overlapping (a b : Booking) : Prop :=
  micros (start_at a) < micros (end_at b)
  /\ micros (end_at a) > micros (start_at b).

(** No vehicle has two active bookings that overlap. *)
Definition no_double_booking (db : DB) : Prop :=
  forall i j a b,
    i <> j ->
    bookings db !! i = Some a -> bookings db !! j = Some b ->
    vehicle a = vehicle b -> active a -> active b ->
    ~ overlapping a b.

(** The stored price of [b] is the one that the current rate card gives. *)
Definition price_in_sync (db : DB) (b : Booking) : Prop :=
  exists v, vehicles db !! vehicle b = Some v
            /\ calculate_total v b = Ok (total_price b).

(** Request [r] hands instance [b0] to [save] for row [pk], which holds
    [b]: the booking with another status, or with the fields of an update. *)
Definition hands_to_save (r : request) (pk : nat) (b b0 : Booking) : Prop :=
  match r with
  | Cancel _ k =>
      k = pk /\ status b <> STATUS_CANCELLED
      /\ b0 = set_status STATUS_CANCELLED b
  | Reject _ k => k = pk /\ b0 = set_status STATUS_CANCELLED b
  | Approve _ k => k = pk /\ b0 = set_status STATUS_CONFIRMED b
  | Webhook d =>
      b0 = set_status STATUS_CONFIRMED b
      /\ ~ (exists s, truthy (w_status d) = Some s /\ s <> PAYMENT_SUCCESS)
  | UpdateBooking _ k p => k = pk /\ b0 = apply_patch p b
  | Create _ _ | UpdateVehicle _ _ _ | DeleteBooking _ _ | DeleteVehicle _ _ =>
      False
  end.

(** Request [r] deletes row [pk], which holds [b]: the booking itself or,
    by cascade, its vehicle. *)
Definition deletes_row (r : request) (pk : nat) (b : Booking) : Prop :=
  match r with
  | DeleteBooking _ k => k = pk
  | DeleteVehicle _ vehicle_id => vehicle_id = vehicle b
  | _ => False
  end.

(** An answered request [r] saves row [pk]: the creation of that row, an
    update, approval or rejection of it, or the cancellation of it when it is
    not cancelled yet. *)
Definition saves_row (db : DB) (r : request) (pk : nat) : Prop :=
  match r with
  | Create _ _ => pk = next_booking db
  | Cancel _ k =>
      k = pk /\ exists b, bookings db !! pk = Some b
                          /\ status b <> STATUS_CANCELLED
  | Approve _ k | Reject _ k | UpdateBooking _ k _ => k = pk
  | Webhook _ | UpdateVehicle _ _ _ | DeleteBooking _ _ | DeleteVehicle _ _ =>
      False
  end.

(** Requests that cannot take row [pk] out of [cancelled]: all but an
    approval of [pk] and a webhook that may record a success (a booking
    update cannot write the status, which is read-only in the serializer). *)
Definition keeps_cancelled (pk : nat) (r : request) : Prop :=
  match r with
  | Approve _ k => k <> pk
  | Webhook d => exists s, truthy (w_status d) = Some s /\ s <> PAYMENT_SUCCESS
  | _ => True
  end.

(** Requests that cannot take row [pk] out of [confirmed]: all but a
    cancellation or a rejection of [pk]. *)
Definition keeps_confirmed (pk : nat) (r : request) : Prop :=
  match r with
  | Cancel _ k | Reject _ k => k <> pk
  | _ => True
  end.

(** ** Invariants of the tables *)

(** [b'] is booking [b] up to its identifier, status and price. *)
Definition same_terms (b b' : Booking) : Prop :=
  customer b' = customer b /\ vehicle b' = vehicle b
  /\ start_at b' = start_at b /\ end_at b' = end_at b
  /\ pickup_location b' = pickup_location b
  /\ dropoff_location b' = dropoff_location b
  /\ delivery_fee b' = delivery_fee b
  /\ pricing_unit b' = pricing_unit b.

(** What [full_clean] and [save] check of a booking by themselves. *)
Definition valid_booking (b : Booking) : Prop :=
  booking_id b <> ""%string
  /\ aware (start_at b) = true /\ aware (end_at b) = true
  /\ micros (start_at b) < micros (end_at b)
  /\ In (pricing_unit b) UNIT_CHOICES
  /\ In (status b) STATUS_CHOICES.

(** The tables hold valid bookings of existing vehicles under distinct
    identifiers, and the auto-increment keys are ahead of every row. *)
Definition consistent (db : DB) : Prop :=
  (forall k b, bookings db !! k = Some b ->
     (k < next_booking db)%nat /\ valid_booking b
     /\ is_Some (vehicles db !! vehicle b))
  /\ (forall k p, payments db !! k = Some p -> (k < next_payment db)%nat)
  /\ (forall i j a b, bookings db !! i = Some a -> bookings db !! j = Some b ->
        booking_id a = booking_id b -> i = j).

(** Every stored price is the one that the current rate card gives. *)
Definition all_in_sync (db : DB) : Prop :=
  forall k b, bookings db !! k = Some b -> price_in_sync db b.

Definition changes_rates (r : request) : bool :=
  match r with
  | UpdateVehicle _ _ _ => true
  | _ => false
  end.

(** Request [r] is no update and no deletion of row [pk], a booking of
    vehicle [vehicle_id], and no deletion of that vehicle. *)
Definition leaves_row (pk vehicle_id : nat) (r : request) : bool :=
  match r with
  | UpdateBooking _ k _ | DeleteBooking _ k => negb (k =? pk)%nat
  | DeleteVehicle _ k => negb (k =? vehicle_id)%nat
  | _ => true
  end.


Definition is_deletion (r : request) : bool :=
  match r with
  | DeleteBooking _ _ | DeleteVehicle _ _ => true
  | _ => false
  end.

(** The permission classes and the [get_queryset] of the view of request
    [r] let the user through to the object. *)
Definition authorised (db : DB) (r : request) : bool :=
  match r with
  | Create user _ => has_role db user ROLE_CUSTOMER
  | Cancel user pk =>
      has_role db user ROLE_CUSTOMER
      && match get_customer_booking db user pk with
         | Some _ => true
         | None => false
         end
  | Approve user pk | Reject user pk =>
      has_role db user ROLE_OWNER
      && match get_owner_booking db user pk with
         | Some _ => true
         | None => false
         end
  | UpdateBooking user pk _ | DeleteBooking user pk =>
      has_role db user ROLE_CUSTOMER
      && match get_customer_booking db user pk with
         | Some _ => true
         | None => false
         end
  | Webhook _ => true
  | UpdateVehicle user vehicle_id _ | DeleteVehicle user vehicle_id =>
      match vehicles db !! vehicle_id with
      | Some v => is_active v && (owner v =? user)%nat
      | None => false
      end
  end.

(** The fields of a clock fit the widths that [strftime] prints them in. *)
Definition clock_in_range (t : clock) : Prop :=
  0 <= year t < 10000 /\ 0 <= month t < 100 /\ 0 <= day t < 100
  /\ 0 <= hour t < 100 /\ 0 <= minute t < 100 /\ 0 <= second t < 100.

(** The order of [order_by("start_at")]. *)
Definition by_start (x y : nat * Booking) : Prop :=
  micros (start_at (snd x)) <= micros (start_at (snd y)).

(** ** The pricing rule in the words of the specification *)

Module Spec.

Inductive rounding : Type := ROUND_HALF_UP | ROUND_HALF_EVEN.

(** The rational [q] rounded to an integer. *)
Definition round_int (m : rounding) (q : Q) : Z :=
  match m with
  | ROUND_HALF_UP => round_half_up (Qnum q) (Z.pos (Qden q))
  | ROUND_HALF_EVEN => round_half_even (Qnum q) (Z.pos (Qden q))
  end.

(** [round(q, 2 decimals)] *)
Definition round2 (m : rounding) (q : Q) : Q :=
  (inject_Z (round_int m (q * 100)) / 100)%Q.

(** [(end - start) in seconds / 3600], exactly. *)
Definition duration_hours (start_ end_ : datetime) : Q :=
  (((micros end_ - micros start_) # 1000000) / 3600)%Q.

(** [compute_total] of section 4.1, with the rounding of every step as a
    parameter; [None] stands for its failures. *)
Definition compute_total (m : rounding) (start_ end_ : datetime)
    (unit : string) (hourly daily weekly fee : Q) : option Q :=
  if micros end_ <=? micros start_ then None
  else
    let h := duration_hours start_ end_ in
    if String.eqb unit UNIT_HOURLY then
      let base := round2 m (h * hourly) in
      Some (round2 m (base + fee))
    else if String.eqb unit UNIT_DAILY then
      let days := round2 m (h / 24) in
      let base := round2 m (days * daily) in
      Some (round2 m (base + fee))
    else if String.eqb unit UNIT_WEEKLY then
      let weeks := round2 m (h / 168) in
      let base := round2 m (weeks * weekly) in
      Some (round2 m (base + fee))
    else None.

End Spec.

(** A money field as the models declare it: two decimal places, at most
    ten digits, not negative. *)
Definition money (d : Decimal) : Prop :=
  dexp d = -2 /\ 0 <= coef d < 10 ^ 10.

(** The seconds from [datetime.min] to [datetime.max]: no window is
    longer. *)
Definition MAX_SECONDS : Z := 315537897599.

(** Half a unit in the 28th digit, relative to the result. *)
Definition HALF_ULP : Q := 1 # 2000000000000000000000000000.

(** One unit in the 28th digit, relative to the result. *)
Definition ULP : Q := 1 # 1000000000000000000000000000.

(** ** Sample data *)

Definition no_field_errors : Booking -> list verror := fun _ => [].

(** A vehicle at 100.00 an hour, 1000.00 a day, 5000.00 a week. *)
Definition sample_vehicle : Vehicle :=
  mkVehicle 10 "Depot" (mkDec 10000 (-2)) (mkDec 100000 (-2))
    (mkDec 500000 (-2)) (mkDec 0 (-2)) true.

(** Owner 10 with vehicle 1, customer 20, no bookings. *)
Definition sample_db : DB :=
  mkDB {[ 1%nat := sample_vehicle ]} ∅ ∅
    {[ 10%nat := ROLE_OWNER; 20%nat := ROLE_CUSTOMER ]} 1 1.

(** An aware timestamp, [h] hours after the epoch. *)
Definition hour_mark (h : Z) : datetime := mkDatetime (h * 3600 * 10 ^ 6) true.

Definition sample_env (sec : Z) : env :=
  mkEnv (mkClock 2024 3 5 9 30 sec) (fun i => (11 * i + 1)%nat).

(** A request for vehicle 1 from hour [s] to hour [e]. *)
Definition sample_data (s e : Z) (unit : string) : booking_data :=
  mkData "" 1 (hour_mark s) (hour_mark e) "" "" None unit.

Definition sample_booking (s e : Z) (unit : string) (st : string) : Booking :=
  mkBooking "BK20240305093007BMX8J" 20 1 (hour_mark s) (hour_mark e) "Depot"
    "" (mkDec 0 (-2)) unit (mkDec 0 (-2)) st.

(** Book hours 0 to 10, cancel, book hours 5 to 15, then the owner approves
    the cancelled booking. *)
Definition double_booking_trace : list (env * request) :=
  [ (sample_env 7, Create 20 (sample_data 0 10 UNIT_HOURLY));
    (sample_env 8, Cancel 20 1);
    (sample_env 9, Create 20 (sample_data 5 15 UNIT_HOURLY));
    (sample_env 10, Approve 10 1) ].

(** Book one hour at 100.00, then the owner doubles the hourly rate, then
    the customer cancels. *)
Definition reprice_trace : list (env * request) :=
  [ (sample_env 7, Create 20 (sample_data 0 1 UNIT_HOURLY));
    (sample_env 8,
     UpdateVehicle 10 1
       (mkVehicle 10 "Depot" (mkDec 20000 (-2)) (mkDec 100000 (-2))
          (mkDec 500000 (-2)) (mkDec 0 (-2)) true));
    (sample_env 9, Cancel 20 1) ].

(** Book, approve, then the customer cancels the confirmed booking. *)
Definition cancel_confirmed_trace : list (env * request) :=
  [ (sample_env 7, Create 20 (sample_data 0 10 UNIT_HOURLY));
    (sample_env 8, Approve 10 1);
    (sample_env 9, Cancel 20 1) ].

(** Book, approve, then the owner rejects the confirmed booking. *)
Definition reject_confirmed_trace : list (env * request) :=
  [ (sample_env 7, Create 20 (sample_data 0 10 UNIT_HOURLY));
    (sample_env 8, Approve 10 1);
    (sample_env 9, Reject 10 1) ].




(** The sample tables with [b] stored as booking 1. *)
Definition stored_db (b : Booking) : DB :=
  mkDB {[ 1%nat := sample_vehicle ]} {[ 1%nat := b ]} ∅
    {[ 10%nat := ROLE_OWNER; 20%nat := ROLE_CUSTOMER ]} 2 1.

(** Ten hours at the hourly rate, priced 1000.00. *)
Definition ten_hours (st : string) : Booking :=
  set_total_price (mkDec 100000 (-2)) (sample_booking 0 10 UNIT_HOURLY st).

(** A booking of vehicle 1 from the epoch to [us] microseconds later. *)
Definition timed_booking (us : Z) (unit : string) : Booking :=
  mkBooking "BK20240305093007BMX8J" 20 1 (mkDatetime 0 true)
    (mkDatetime us true) "Depot" "" (mkDec 0 (-2)) unit (mkDec 0 (-2))
    STATUS_PENDING.

(** A vehicle whose three rates are [c] hundredths. *)
Definition rated_vehicle (c : Z) : Vehicle :=
  mkVehicle 10 "Depot" (mkDec c (-2)) (mkDec c (-2)) (mkDec c (-2))
    (mkDec 0 (-2)) true.

(** The rule of the specification on a [timed_booking] of a
    [rated_vehicle], as a fraction in lowest terms. *)
Definition spec_total (m : Spec.rounding) (us : Z) (unit : string) (c : Z)
    : option Q :=
  option_map Qred
    (Spec.compute_total m (mkDatetime 0 true) (mkDatetime us true) unit
       (value (mkDec c (-2))) (value (mkDec c (-2))) (value (mkDec c (-2)))
       (value (mkDec 0 (-2)))).

(** The owner approves booking 1, then its customer cancels it. *)
Definition status_trace : list (env * request) :=
  [ (sample_env 8, Approve 10 1); (sample_env 9, Cancel 20 1) ].

(** The sample tables with the ten-hour booking stored and paid for by
    payment 1, whose reference is "2". *)
Definition clash_db : DB :=
  mkDB {[ 1%nat := sample_vehicle ]} {[ 1%nat := ten_hours STATUS_PENDING ]}
    {[ 1%nat := mkPayment 1 "cashfree" "2" PAYMENT_PENDING (mkDec 100000 (-2)) ]}
    {[ 10%nat := ROLE_OWNER; 20%nat := ROLE_CUSTOMER ]} 2 2.

(** ** Proof automation *)

Ltac inject_consts :=
  repeat match goal with
  | |- context [inject_Z (Z.pos ?p)] =>
      change (inject_Z (Z.pos p)) with (Z.pos p # 1)
  | |- context [inject_Z 0] => change (inject_Z 0) with (0 # 1)
  | H : context [inject_Z (Z.pos ?p)] |- _ =>
      change (inject_Z (Z.pos p)) with (Z.pos p # 1) in H
  | H : context [inject_Z 0] |- _ => change (inject_Z 0) with (0 # 1) in H
  end.

Ltac push_inject :=
  repeat first [rewrite inject_Z_plus | rewrite inject_Z_mult];
  inject_consts.

(** Move an integer comparison to the rationals. *)
Ltac to_Q H :=
  first [rewrite Zle_Qle in H | rewrite Zlt_Qlt in H
        | apply (proj2 (inject_Z_injective _ _)) in H];
  unfold Z.sub in H;
  repeat (rewrite ?inject_Z_plus, ?inject_Z_mult, ?inject_Z_opp in H);
  inject_consts.

(** * Properties *)

(** ** Documented totals *)

Lemma datetime_sub_same_zone (s k : Z) (aw : bool) :
  datetime_sub (mkDatetime (s + k) aw) (mkDatetime s aw) = Ok k.
Proof.
  unfold datetime_sub; simpl.
  rewrite Bool.eqb_reflx. f_equal. lia.
Qed.

(** C10: a one-hour window at the hourly rate 100.00 with no delivery fee
    costs exactly 100.00, and a 24-hour window at the daily rate 1000.00 with
    a delivery fee of 150.00 costs exactly 1150.00, wherever the window
    starts. *)
Theorem documented_totals :
  (forall o pl dr wr vf act bid c veh s aw p dl tp st,
      calculate_total
        (mkVehicle o pl (mkDec 10000 (-2)) dr wr vf act)
        (mkBooking bid c veh (mkDatetime s aw)
           (mkDatetime (s + 3600 * 10 ^ 6) aw) p dl (mkDec 0 (-2))
           UNIT_HOURLY tp st)
      = Ok (mkDec 10000 (-2)))
  /\ (forall o pl hr wr vf act bid c veh s aw p dl tp st,
      calculate_total
        (mkVehicle o pl hr (mkDec 100000 (-2)) wr vf act)
        (mkBooking bid c veh (mkDatetime s aw)
           (mkDatetime (s + 24 * 3600 * 10 ^ 6) aw) p dl (mkDec 15000 (-2))
           UNIT_DAILY tp st)
      = Ok (mkDec 115000 (-2))).
Proof.
  split; intros; unfold calculate_total, duration_hours; cbn [start_at end_at];
    rewrite datetime_sub_same_zone; vm_compute; reflexivity.
Qed.

(** ** The conflict check *)

Lemma exists_row_true {A} (f : nat -> A -> bool) (m : gmap nat A) :
  exists_row f m = true <-> exists k x, m !! k = Some x /\ f k x = true.
Proof.
  unfold exists_row. rewrite existsb_exists. split.
  - intros [[k x] [Hin Hf]]. exists k, x. split; [|exact Hf].
    apply elem_of_map_to_list, list_elem_of_In, Hin.
  - intros (k & x & Hl & Hf). exists (k, x). split; [|exact Hf].
    apply list_elem_of_In, elem_of_map_to_list, Hl.
Qed.

Lemma in_choices_true (s : string) (l : list string) :
  in_choices s l = true <-> In s l.
Proof.
  unfold in_choices. rewrite existsb_exists. split.
  - intros (x & Hin & Heq). apply String.eqb_eq in Heq. now subst.
  - intros Hin. exists s. split; [exact Hin | apply String.eqb_refl].
Qed.

Lemma overlap_lookup_true (veh : nat) (s e : datetime) (b : Booking) :
  overlap_lookup veh s e b = true <->
  vehicle b = veh
  /\ (status b = STATUS_PENDING \/ status b = STATUS_CONFIRMED)
  /\ micros (start_at b) < micros e
  /\ micros (end_at b) > micros s.
Proof.
  unfold overlap_lookup.
  rewrite !andb_true_iff, Nat.eqb_eq, !Z.ltb_lt, in_choices_true. simpl.
  intuition (try lia; auto).
Qed.

(** C2: the lookup that guards a booking request finds a conflict exactly
    when some pending or confirmed booking [b] of the vehicle has
    [b.start < proposed_end] and [b.end > proposed_start]; a booking that
    ends exactly at the proposed start, or starts exactly at the proposed
    end, is no conflict. *)
Theorem conflict_check_iff (db : DB) (veh : nat) (s e : datetime) :
  (exists_row (fun _ => overlap_lookup veh s e) (bookings db) = true <->
   exists pk b,
     bookings db !! pk = Some b
     /\ vehicle b = veh
     /\ (status b = STATUS_PENDING \/ status b = STATUS_CONFIRMED)
     /\ micros (start_at b) < micros e
     /\ micros (end_at b) > micros s)
  /\ (forall b, overlap_lookup veh (end_at b) e b = false)
  /\ (forall b, overlap_lookup veh s (start_at b) b = false).
Proof.
  split; [|split].
  - rewrite exists_row_true. split.
    + intros (k & b & Hl & Hf). exists k, b. split; [exact Hl|].
      now apply overlap_lookup_true.
    + intros (k & b & Hl & Hf). exists k, b. split; [exact Hl|].
      now apply overlap_lookup_true.
  - intros b. unfold overlap_lookup.
    rewrite (Z.ltb_irrefl (micros (end_at b))).
    now rewrite andb_false_r.
  - intros b. unfold overlap_lookup.
    rewrite (Z.ltb_irrefl (micros (start_at b))).
    now rewrite andb_false_r.
Qed.

Lemma insert_by_start_cons (x : nat * Booking) (l : list (nat * Booking)) :
  insert_by_start x l <> [].
Proof. destruct l as [|y l]; simpl; [|destruct (_ <=? _)]; discriminate. Qed.

Lemma order_by_start_nil (l : list (nat * Booking)) :
  order_by_start l = [] <-> l = [].
Proof.
  destruct l as [|x l]; simpl; [tauto|].
  split; [|discriminate]. intros H. now apply insert_by_start_cons in H.
Qed.

Lemma filter_nil_existsb {A} (f : A -> bool) (l : list A) :
  List.filter f l = [] <-> existsb f l = false.
Proof.
  induction l as [|x l IH]; simpl; [tauto|].
  destruct (f x); simpl; [split; discriminate | exact IH].
Qed.

(** The availability endpoint reports no booked slot exactly when the
    conflict check finds nothing. *)
Lemma availability_slots (vid : nat) (s e : datetime) (db : DB) (v : Vehicle) :
  vehicles db !! vid = Some v -> is_active v = true ->
  exists slots,
    availability vid (Parsed s) (Parsed e) db
    = (db, Ok (BookedSlots vid slots))
    /\ (slots = []
        <-> exists_row (fun _ => overlap_lookup vid s e) (bookings db) = false).
Proof.
  intros Hv Ha. unfold availability. rewrite Hv, Ha. simpl.
  eexists. split; [reflexivity|].
  unfold exists_row. rewrite <- filter_nil_existsb.
  fold (filter_rows (fun _ : nat => overlap_lookup vid s e) (bookings db)).
  rewrite <- order_by_start_nil. split.
  - intros H. now apply map_eq_nil in H.
  - intros ->. reflexivity.
Qed.

(** ** Booking identifiers *)

Lemma string_length_append (s t : string) :
  String.length (s ++ t) = (String.length s + String.length t)%nat.
Proof. induction s as [|c s IH]; simpl; [reflexivity | now rewrite IH]. Qed.

Lemma zero_padded_length (width : nat) (n : Z) :
  String.length (zero_padded width n) = width.
Proof.
  revert n. induction width as [|w IH]; intros n; simpl; [reflexivity|].
  rewrite string_length_append, IH. simpl. lia.
Qed.

Lemma strftime_length (t : clock) : String.length (strftime_YmdHMS t) = 14%nat.
Proof.
  unfold strftime_YmdHMS.
  now rewrite !string_length_append, !zero_padded_length.
Qed.



Example generate_id_example :
  generate_id (mkEnv (mkClock 2024 3 5 9 30 7) (fun i => (11 * i + 1)%nat))
  = "BK20240305093007BMX8J"%string.
Proof. reflexivity. Qed.

Section SaveProperties.

Variable fv : Booking -> list verror.

(** What a successful [save] did. *)
Lemma save_Ok_inv (w : env) (pk : option nat) (b : Booking) (db db' : DB)
    (k : nat) (b' : Booking) :
  save fv w pk b db = Ok (db', k, b') ->
  let b1 := if String.eqb (booking_id b) "" then set_booking_id (generate_id w) b
            else b in
  aware (start_at b) = true /\ aware (end_at b) = true
  /\ full_clean fv db pk b1 = Ok tt
  /\ exists v total,
       vehicles db !! vehicle b = Some v
       /\ calculate_total v b1 = Ok total
       /\ b' = set_total_price total b1
       /\ k = match pk with Some k0 => k0 | None => next_booking db end
       /\ bookings db' = <[k := b']> (bookings db)
       /\ vehicles db' = vehicles db
       /\ payments db' = payments db
       /\ profiles db' = profiles db.
Proof.
  intros H b1. unfold save, is_naive in H.
  destruct (aware (start_at b)); simpl in H; [|discriminate].
  destruct (aware (end_at b)); simpl in H; [|discriminate].
  fold b1 in H.
  assert (Hveh : vehicle b1 = vehicle b)
    by (unfold b1; destruct (String.eqb _ _); reflexivity).
  rewrite Hveh in H.
  destruct (full_clean fv db pk b1) as [[]|e] eqn:Hfc; simpl in H;
    [|discriminate].
  destruct (vehicles db !! vehicle b) as [v|] eqn:Hv; simpl in H;
    [|discriminate].
  destruct (calculate_total v b1) as [total|e] eqn:Hct; simpl in H;
    [|discriminate].
  do 3 (split; [reflexivity|]). exists v, total.
  destruct pk as [k0|]; inversion H; subst;
    repeat split; first [assumption | reflexivity].
Qed.

(** When [save] goes through. *)
Lemma save_Ok_intro (w : env) (pk : option nat) (b : Booking) (db : DB)
    (v : Vehicle) (total : Decimal) :
  booking_id b <> ""%string ->
  aware (start_at b) = true -> aware (end_at b) = true ->
  full_clean fv db pk b = Ok tt ->
  vehicles db !! vehicle b = Some v ->
  calculate_total v b = Ok total ->
  let k := match pk with Some k0 => k0 | None => next_booking db end in
  let n := match pk with Some _ => next_booking db | None => S (next_booking db) end in
  save fv w pk b db
  = Ok (with_bookings (<[k := set_total_price total b]> (bookings db)) n db,
        k, set_total_price total b).
Proof.
  intros Hid Hs He Hfc Hv Hct. unfold save, is_naive.
  rewrite Hs, He. simpl.
  apply String.eqb_neq in Hid. rewrite Hid, Hfc. simpl.
  rewrite Hv. simpl. rewrite Hct. simpl. now destruct pk.
Qed.

Lemma generate_id_nonempty (w : env) : generate_id w <> ""%string.
Proof. unfold generate_id. simpl. discriminate. Qed.


End SaveProperties.

Section ValidationProperties.

Variable fv : Booking -> list verror.

Lemma clean_rejects (b : Booking) :
  aware (start_at b) = aware (end_at b) ->
  micros (end_at b) <= micros (start_at b) ->
  clean b = Raise (ValidationError [InvalidWindow]).
Proof.
  intros Ha Hle. unfold clean, datetime_ge. rewrite Ha, Bool.eqb_reflx. simpl.
  destruct (Z.leb_spec (micros (end_at b)) (micros (start_at b)));
    [reflexivity | lia].
Qed.

Lemma clean_accepts (b : Booking) :
  aware (start_at b) = aware (end_at b) ->
  micros (start_at b) < micros (end_at b) ->
  clean b = Ok tt.
Proof.
  intros Ha Hlt. unfold clean, datetime_ge. rewrite Ha, Bool.eqb_reflx. simpl.
  destruct (Z.leb_spec (micros (end_at b)) (micros (start_at b)));
    [lia | reflexivity].
Qed.

(** [save] raises a validation error as soon as [clean] or a field does. *)
Lemma full_clean_clean_error (db : DB) (pk : option nat) (b : Booking)
    (ce : list verror) :
  clean b = Raise (ValidationError ce) ->
  exists errs, full_clean fv db pk b = Raise (ValidationError errs)
               /\ forall e, In e ce -> In e errs.
Proof.
  intros Hc. unfold full_clean. rewrite Hc. eexists. split; [reflexivity|].
  intros e He. apply in_or_app. right. apply in_or_app. now left.
Qed.

Lemma full_clean_field_error (db : DB) (pk : option nat) (b : Booking)
    (e : verror) :
  aware (start_at b) = aware (end_at b) ->
  In e (clean_fields fv db b) ->
  exists errs, full_clean fv db pk b = Raise (ValidationError errs)
               /\ In e errs.
Proof.
  intros Ha He. unfold full_clean.
  destruct (Z.lt_ge_cases (micros (start_at b)) (micros (end_at b))) as [Hlt|Hge].
  - rewrite (clean_accepts b Ha Hlt).
    destruct (clean_fields fv db b ++ _) as [|x l] eqn:Heq.
    + apply app_eq_nil in Heq. destruct Heq as [Heq _].
      rewrite Heq in He. destruct He.
    + eexists. split; [reflexivity|]. rewrite <- Heq.
      apply in_or_app. now left.
  - rewrite (clean_rejects b Ha Hge). eexists. split; [reflexivity|].
    apply in_or_app. now left.
Qed.

Lemma save_full_clean_error (w : env) (pk : option nat) (b : Booking)
    (db : DB) (P : list verror -> Prop) :
  (forall b1, start_at b1 = start_at b -> end_at b1 = end_at b ->
              pricing_unit b1 = pricing_unit b ->
              aware (start_at b) = true -> aware (end_at b) = true ->
              exists errs, full_clean fv db pk b1 = Raise (ValidationError errs)
                           /\ P errs) ->
  exists errs, save fv w pk b db = Raise (ValidationError errs)
               /\ (aware (start_at b) = true -> aware (end_at b) = true ->
                   P errs).
Proof.
  intros H. unfold save, is_naive.
  destruct (aware (start_at b)) eqn:Hs; simpl.
  2:{ eexists. split; [reflexivity | discriminate]. }
  destruct (aware (end_at b)) eqn:He; simpl.
  2:{ eexists. split; [reflexivity | discriminate]. }
  set (b1 := if String.eqb (booking_id b) "" then _ else b).
  destruct (H b1) as (errs & Hfc & HP);
    try (unfold b1; destruct (String.eqb _ _); reflexivity); try reflexivity.
  rewrite Hfc. simpl. exists errs. split; [reflexivity | intros; exact HP].
Qed.

(** C5, as the code has it: the window is checked by [clean], which [save]
    runs before it prices the booking.  A booking whose start is not before
    its end is refused by [save] with a validation error, which names the
    window when both timestamps are aware; no price is stored. *)
Theorem save_rejects_empty_window (w : env) (pk : option nat) (b : Booking)
    (db : DB) :
  micros (end_at b) <= micros (start_at b) ->
  exists errs,
    save fv w pk b db = Raise (ValidationError errs)
    /\ (aware (start_at b) = true -> aware (end_at b) = true ->
        clean b = Raise (ValidationError [InvalidWindow])
        /\ In InvalidWindow errs).
Proof.
  intros Hle.
  apply (save_full_clean_error w pk b db
           (fun errs => clean b = Raise (ValidationError [InvalidWindow])
                        /\ In InvalidWindow errs)).
  intros b1 Hs1 He1 _ Hs He.
  assert (Hc : clean b = Raise (ValidationError [InvalidWindow]))
    by (apply clean_rejects; [congruence | exact Hle]).
  assert (Hc1 : clean b1 = Raise (ValidationError [InvalidWindow]))
    by (apply clean_rejects; rewrite Hs1, He1; [congruence | exact Hle]).
  destruct (full_clean_clean_error db pk b1 _ Hc1) as (errs & Hfc & Hin).
  exists errs. split; [exact Hfc|]. split; [exact Hc|].
  apply Hin. now left.
Qed.

(** C4, as the code has it: the pricing unit is checked by the choices of
    the model field, which [save] validates before it prices the booking.  A
    booking whose unit is none of hourly, daily, weekly is refused by [save]
    with a validation error, which names the field (as blank or as an
    invalid choice) when both timestamps are aware; no price is stored. *)
Theorem save_rejects_unknown_unit (w : env) (pk : option nat) (b : Booking)
    (db : DB) :
  ~ In (pricing_unit b) UNIT_CHOICES ->
  exists errs,
    save fv w pk b db = Raise (ValidationError errs)
    /\ (aware (start_at b) = true -> aware (end_at b) = true ->
        In (if String.eqb (pricing_unit b) "" then BlankField "pricing_unit"
            else InvalidChoice "pricing_unit") errs).
Proof.
  intros Hu.
  apply (save_full_clean_error w pk b db
           (fun errs =>
              In (if String.eqb (pricing_unit b) ""
                  then BlankField "pricing_unit"
                  else InvalidChoice "pricing_unit") errs)).
  intros b1 Hs1 He1 Hu1 Hs He.
  apply full_clean_field_error; [rewrite Hs1, He1; congruence|].
  unfold clean_fields, validate_choice. rewrite Hu1.
  destruct (String.eqb (pricing_unit b) ""); [now left|].
  destruct (in_choices (pricing_unit b) UNIT_CHOICES) eqn:Hc.
  - apply in_choices_true in Hc. contradiction.
  - now left.
Qed.

(** C9: cancelling a cancelled booking answers 400 "Booking already
    cancelled." and leaves the tables as they are; cancelling a pending or
    confirmed booking that [save] accepts answers 200 and stores it as
    cancelled, the other bookings untouched. *)
Theorem cancel_by_status (w : env) (user pk : nat) (db : DB) (b : Booking) :
  has_role db user ROLE_CUSTOMER = true ->
  get_customer_booking db user pk = Some b ->
  (status b = STATUS_CANCELLED ->
   cancel fv w user pk db = (db, Ok (Detail 400 "Booking already cancelled.")))
  /\ (status b = STATUS_PENDING \/ status b = STATUS_CONFIRMED ->
      saveable fv db (Some pk) (set_status STATUS_CANCELLED b) ->
      exists db' b',
        cancel fv w user pk db = (db', Ok (Detail 200 "Booking cancelled."))
        /\ bookings db' !! pk = Some b'
        /\ status b' = STATUS_CANCELLED
        /\ forall k, k <> pk -> bookings db' !! k = bookings db !! k).
Proof.
  intros Hrole Hget. unfold cancel. rewrite Hrole, Hget. simpl. split.
  - intros ->. reflexivity.
  - intros Hst (Hid & Hs & He & Hfc & v & total & Hv & Hct).
    assert (Hne : String.eqb (status b) STATUS_CANCELLED = false).
    { apply String.eqb_neq. destruct Hst as [-> | ->]; discriminate. }
    rewrite Hne. unfold save_and_respond.
    rewrite (save_Ok_intro fv w (Some pk) _ db v total Hid Hs He Hfc Hv Hct).
    eexists _, _. split; [reflexivity|]. simpl.
    split; [apply lookup_insert_eq|]. split; [reflexivity|].
    intros k Hk. now apply lookup_insert_ne.
Qed.

End ValidationProperties.

Section RequestProperties.

Variable fv : Booking -> list verror.

(** The price depends on the window, the unit and the fee only. *)
Lemma calculate_total_ext (v : Vehicle) (b b' : Booking) :
  start_at b' = start_at b -> end_at b' = end_at b ->
  pricing_unit b' = pricing_unit b -> delivery_fee b' = delivery_fee b ->
  calculate_total v b' = calculate_total v b.
Proof.
  intros Hs He Hu Hf. unfold calculate_total, duration_hours.
  now rewrite Hs, He, Hu, Hf.
Qed.

Lemma get_customer_booking_Some (db : DB) (user pk : nat) (b : Booking) :
  get_customer_booking db user pk = Some b -> bookings db !! pk = Some b.
Proof.
  unfold get_customer_booking. destruct (bookings db !! pk) as [b0|]; [|easy].
  destruct (customer b0 =? user)%nat; congruence.
Qed.

Lemma get_owner_booking_Some (db : DB) (user pk : nat) (b : Booking) :
  get_owner_booking db user pk = Some b -> bookings db !! pk = Some b.
Proof.
  unfold get_owner_booking. destruct (bookings db !! pk) as [b0|]; [|easy].
  destruct (vehicles db !! vehicle b0) as [v|]; [|easy].
  destruct (owner v =? user)%nat; congruence.
Qed.


End RequestProperties.

(** ** The requests at work on the sample data *)

Lemma ten_hours_saveable (st : string) :
  In st STATUS_CHOICES ->
  saveable no_field_errors (stored_db (ten_hours STATUS_PENDING)) (Some 1%nat)
    (ten_hours st).
Proof.
  intros Hst. unfold saveable.
  split; [discriminate|]. split; [reflexivity|]. split; [reflexivity|].
  split.
  - simpl in Hst. destruct Hst as [<-|[<-|[<-|[]]]]; vm_compute; reflexivity.
  - exists sample_vehicle, (mkDec 100000 (-2)).
    split; vm_compute; reflexivity.
Defined.

(** C3 at work: after booking, cancelling, booking an overlapping window and
    approving the cancelled booking, vehicle 1 has a confirmed and a pending
    booking that overlap, although the booking table was empty before. *)
Theorem double_booking_reachable :
  bookings sample_db = ∅
  /\ (exists a b,
        bookings (run no_field_errors double_booking_trace sample_db) !! 1%nat
        = Some a
        /\ bookings (run no_field_errors double_booking_trace sample_db) !! 2%nat
           = Some b
        /\ vehicle a = vehicle b
        /\ status a = STATUS_CONFIRMED /\ status b = STATUS_PENDING
        /\ overlapping a b)
  /\ ~ no_double_booking (run no_field_errors double_booking_trace sample_db).
Proof.
  split; [reflexivity|].
  assert (H : exists a b,
             bookings (run no_field_errors double_booking_trace sample_db) !! 1%nat
             = Some a
             /\ bookings (run no_field_errors double_booking_trace sample_db) !! 2%nat
                = Some b
             /\ vehicle a = vehicle b
             /\ status a = STATUS_CONFIRMED /\ status b = STATUS_PENDING
             /\ overlapping a b).
  { eexists _, _. split; [vm_compute; reflexivity|].
    split; [vm_compute; reflexivity|].
    split; [reflexivity|]. split; [reflexivity|]. split; [reflexivity|].
    split; vm_compute; reflexivity. }
  split; [exact H|].
  destruct H as (a & b & Ha & Hb & Hv & Hsa & Hsb & Hov).
  intros Hinv. apply (Hinv 1%nat 2%nat a b); try assumption.
  - discriminate.
  - now right.
  - now left.
Qed.

(** An unknown pricing unit is priced at the weekly rate. *)
Lemma unknown_unit_is_priced :
  ~ In "monthly"%string UNIT_CHOICES
  /\ calculate_total sample_vehicle
       (sample_booking 0 168 "monthly" STATUS_PENDING)
     = Ok (mkDec 500000 (-2))
  /\ snd (quote 1 (Parsed (hour_mark 0)) (Parsed (hour_mark 168))
            (Some "monthly"%string) sample_db)
     = Ok (Quote 1 (mkDec 500000 (-2))).
Proof.
  split.
  - simpl. intros [H|[H|[H|[]]]]; discriminate.
  - split; vm_compute; reflexivity.
Qed.

(** A window that is empty or runs backwards is priced all the same. *)
Lemma empty_window_is_priced :
  calculate_total sample_vehicle (sample_booking 3 3 UNIT_HOURLY STATUS_PENDING)
  = Ok (mkDec 0 (-2))
  /\ calculate_total sample_vehicle
       (sample_booking 5 3 UNIT_HOURLY STATUS_PENDING)
     = Ok (mkDec (-20000) (-2))
  /\ snd (quote 1 (Parsed (hour_mark 3)) (Parsed (hour_mark 3))
            (Some UNIT_HOURLY) sample_db)
     = Ok (Quote 1 (mkDec 0 (-2))).
Proof. repeat split; vm_compute; reflexivity. Qed.

(** A cancellation after a change of the rate card changes the stored
    price: 100.00 when booked, 200.00 once cancelled. *)
Lemma cancel_after_rate_change_reprices :
  total_price <$> bookings (run no_field_errors (firstn 1 reprice_trace) sample_db)
                  !! 1%nat
  = Some (mkDec 10000 (-2))
  /\ total_price <$> bookings (run no_field_errors reprice_trace sample_db)
                     !! 1%nat
     = Some (mkDec 20000 (-2)).
Proof. split; vm_compute; reflexivity. Qed.


(** A confirmed booking is cancelled by its customer and by the owner's
    rejection, and a cancelled booking is confirmed by the owner's
    approval. *)
Lemma terminal_states_left :
  status <$> bookings (run no_field_errors (firstn 2 cancel_confirmed_trace)
                         sample_db) !! 1%nat
  = Some STATUS_CONFIRMED
  /\ status <$> bookings (run no_field_errors cancel_confirmed_trace sample_db)
                !! 1%nat
     = Some STATUS_CANCELLED
  /\ status <$> bookings (run no_field_errors (firstn 2 reject_confirmed_trace)
                            sample_db) !! 1%nat
     = Some STATUS_CONFIRMED
  /\ status <$> bookings (run no_field_errors reject_confirmed_trace sample_db)
                !! 1%nat
     = Some STATUS_CANCELLED
  /\ status <$> bookings (run no_field_errors (firstn 3 double_booking_trace)
                            sample_db) !! 1%nat
     = Some STATUS_CANCELLED
  /\ status <$> bookings (run no_field_errors double_booking_trace sample_db)
                !! 1%nat
     = Some STATUS_CONFIRMED.
Proof. repeat split; vm_compute; reflexivity. Qed.

Lemma save_rejects_unknown_unit_witness :
  exists errs,
    save no_field_errors (sample_env 7) None
      (sample_booking 0 168 "monthly" STATUS_PENDING) sample_db
    = Raise (ValidationError errs)
    /\ (aware (hour_mark 0) = true -> aware (hour_mark 168) = true ->
        In (InvalidChoice "pricing_unit") errs).
Proof.
  apply (save_rejects_unknown_unit no_field_errors (sample_env 7) None
           (sample_booking 0 168 "monthly" STATUS_PENDING) sample_db).
  simpl. intros [H|[H|[H|[]]]]; discriminate.
Defined.

Lemma save_rejects_empty_window_witness :
  exists errs,
    save no_field_errors (sample_env 7) None
      (sample_booking 3 3 UNIT_HOURLY STATUS_PENDING) sample_db
    = Raise (ValidationError errs)
    /\ (aware (hour_mark 3) = true -> aware (hour_mark 3) = true ->
        clean (sample_booking 3 3 UNIT_HOURLY STATUS_PENDING)
        = Raise (ValidationError [InvalidWindow])
        /\ In InvalidWindow errs).
Proof.
  apply (save_rejects_empty_window no_field_errors (sample_env 7) None
           (sample_booking 3 3 UNIT_HOURLY STATUS_PENDING) sample_db).
  simpl. lia.
Defined.


Lemma cancel_by_status_witness :
  cancel no_field_errors (sample_env 8) 20 1
    (stored_db (ten_hours STATUS_CANCELLED))
  = (stored_db (ten_hours STATUS_CANCELLED),
     Ok (Detail 400 "Booking already cancelled."))
  /\ exists db' b',
       cancel no_field_errors (sample_env 8) 20 1
         (stored_db (ten_hours STATUS_PENDING))
       = (db', Ok (Detail 200 "Booking cancelled."))
       /\ bookings db' !! 1%nat = Some b'
       /\ status b' = STATUS_CANCELLED
       /\ forall k, k <> 1%nat ->
            bookings db' !! k
            = bookings (stored_db (ten_hours STATUS_PENDING)) !! k.
Proof.
  split.
  - apply (cancel_by_status no_field_errors (sample_env 8) 20 1
             (stored_db (ten_hours STATUS_CANCELLED))
             (ten_hours STATUS_CANCELLED));
      reflexivity.
  - apply (cancel_by_status no_field_errors (sample_env 8) 20 1
             (stored_db (ten_hours STATUS_PENDING))
             (ten_hours STATUS_PENDING));
      [reflexivity | reflexivity | left; reflexivity |].
    apply (ten_hours_saveable STATUS_CANCELLED). simpl. auto.
Defined.

(** ** The pricing rule *)

(** ** Facts about the decimal arithmetic *)

Section DecimalFacts.

Lemma digits_fuel_spec (fuel : nat) (n : Z) :
  0 < n -> n < 2 ^ (Z.of_nat fuel + 1) ->
  1 <= digits_fuel fuel n
  /\ 10 ^ (digits_fuel fuel n - 1) <= n < 10 ^ digits_fuel fuel n.
Proof.
  revert n. induction fuel as [|f IH]; intros n Hpos Hlt.
  - simpl in *. lia.
  - cbn [digits_fuel]. destruct (Z.ltb_spec n 10) as [Hs|Hs].
    + simpl. lia.
    + assert (Hp : 2 ^ (Z.of_nat (S f) + 1) = 2 * 2 ^ (Z.of_nat f + 1)).
      { rewrite <- Z.pow_succ_r by lia. f_equal. lia. }
      destruct (IH (n / 10)) as (H1 & H2 & H3);
        [apply Z.div_str_pos; lia | apply Z.div_lt_upper_bound; lia |].
      set (k := digits_fuel f (n / 10)) in *.
      replace (1 + k - 1) with (Z.succ (k - 1)) by lia.
      replace (1 + k) with (Z.succ k) by lia.
      rewrite !Z.pow_succ_r by lia.
      pose proof (Z.div_mod n 10 ltac:(lia)).
      pose proof (Z.mod_pos_bound n 10 ltac:(lia)). lia.
Qed.

Lemma ndigits_spec (n : Z) :
  0 < n -> 1 <= ndigits n /\ 10 ^ (ndigits n - 1) <= n < 10 ^ ndigits n.
Proof.
  intros Hpos. unfold ndigits. rewrite Z.abs_eq by lia.
  apply digits_fuel_spec; [exact Hpos|].
  rewrite Z2Nat.id by apply Z.log2_nonneg.
  replace (Z.log2 n + 1) with (Z.succ (Z.log2 n)) by lia.
  apply Z.log2_spec, Hpos.
Qed.

Lemma ndigits_zero : ndigits 0 = 1.
Proof. reflexivity. Qed.

Lemma ndigits_le (n k : Z) : 0 < n -> n < 10 ^ k -> ndigits n <= k.
Proof.
  intros Hpos Hlt. destruct (ndigits_spec n Hpos) as (H1 & H2 & _).
  destruct (Z.le_gt_cases (ndigits n) k) as [|Hgt]; [assumption|].
  assert (10 ^ k <= 10 ^ (ndigits n - 1)) by (apply Z.pow_le_mono_r; lia).
  lia.
Qed.

Lemma round_half_even_near (n d : Z) :
  0 < d -> - d <= 2 * (round_half_even n d * d - n) <= d.
Proof.
  intros Hd. unfold round_half_even.
  pose proof (Z.div_mod n d ltac:(lia)) as Hdm.
  pose proof (Z.mod_pos_bound n d Hd) as Hb.
  set (q := n / d) in *. set (r := n mod d) in *.
  destruct (Z.ltb_spec (2 * r) d); [nia|].
  destruct (Z.ltb_spec d (2 * r)); [nia|].
  destruct (Z.even q); nia.
Qed.

Lemma round_half_even_unique (n d k : Z) :
  0 < d -> (2 * k - 1) * d < 2 * n < (2 * k + 1) * d ->
  round_half_even n d = k.
Proof.
  intros Hd Hk. pose proof (round_half_even_near n d Hd) as Hn.
  set (k' := round_half_even n d) in *. nia.
Qed.

Lemma round_half_even_scale (n d c : Z) :
  0 < d -> 0 < c -> round_half_even (n * c) (d * c) = round_half_even n d.
Proof.
  intros Hd Hc. unfold round_half_even.
  rewrite Z.div_mul_cancel_r by lia.
  rewrite Z.mul_mod_distr_r by lia.
  assert (H1 : (2 * (n mod d * c) <? d * c) = (2 * (n mod d) <? d)).
  { destruct (Z.ltb_spec (2 * (n mod d)) d), (Z.ltb_spec (2 * (n mod d * c)) (d * c));
      try reflexivity; nia. }
  assert (H2 : (d * c <? 2 * (n mod d * c)) = (d <? 2 * (n mod d))).
  { destruct (Z.ltb_spec d (2 * (n mod d))), (Z.ltb_spec (d * c) (2 * (n mod d * c)));
      try reflexivity; nia. }
  now rewrite H1, H2.
Qed.

Lemma round_half_even_ratio (n d n' d' : Z) :
  0 < d -> 0 < d' -> n * d' = n' * d ->
  round_half_even n d = round_half_even n' d'.
Proof.
  intros Hd Hd' Heq.
  rewrite <- (round_half_even_scale n d d' Hd Hd').
  rewrite <- (round_half_even_scale n' d' d Hd' Hd).
  rewrite Heq. f_equal. lia.
Qed.

Lemma round_half_even_exact (k d : Z) :
  0 < d -> round_half_even (k * d) d = k.
Proof.
  intros Hd. apply round_half_even_unique; [exact Hd | nia].
Qed.

Lemma round_half_even_nonneg (n d : Z) :
  0 < d -> 0 <= n -> 0 <= round_half_even n d.
Proof.
  intros Hd Hn. pose proof (round_half_even_near n d Hd). nia.
Qed.

End DecimalFacts.

Section ValueFacts.

Local Open Scope Q_scope.

Lemma ten_neq_0 : ~ 10 == 0.
Proof. discriminate. Qed.

Lemma pow10_pos (e : Z) : 0 < 10 ^ e.
Proof. apply Qpower_0_lt. reflexivity. Qed.

Lemma pow10_add (a b : Z) : 10 ^ (a + b) == 10 ^ a * 10 ^ b.
Proof. apply Qpower_plus, ten_neq_0. Qed.

Lemma pow10_inject (n : Z) : (0 <= n)%Z -> 10 ^ n == inject_Z (10 ^ n).
Proof. intros Hn. now rewrite Zpower_Qpower. Qed.

Lemma pow10_le (a b : Z) : (a <= b)%Z -> 10 ^ a <= 10 ^ b.
Proof. intros H. apply Qpower_le_compat_l; [exact H | discriminate]. Qed.

Lemma value_eq (c e : Z) : value (mkDec c e) = inject_Z c * 10 ^ e.
Proof. reflexivity. Qed.

(** Trailing zeros of the coefficient can move into the exponent. *)
Lemma value_shift (c e j : Z) :
  (0 <= j)%Z -> value (mkDec (c * 10 ^ j) e) == value (mkDec c (e + j)).
Proof.
  intros Hj. rewrite !value_eq, inject_Z_mult, pow10_add.
  rewrite <- (pow10_inject j Hj). ring.
Qed.

Lemma value_pos (c e : Z) : (0 < c)%Z -> 0 < value (mkDec c e).
Proof.
  intros Hc. rewrite value_eq. to_Q Hc.
  pose proof (pow10_pos e). nra.
Qed.

Lemma value_nonneg (c e : Z) : (0 <= c)%Z -> 0 <= value (mkDec c e).
Proof.
  intros Hc. rewrite value_eq. to_Q Hc.
  pose proof (pow10_pos e). nra.
Qed.

Lemma value_lt_pow (c e k : Z) :
  (0 < c)%Z -> value (mkDec c e) < 10 ^ k -> (ndigits c + e <= k)%Z.
Proof.
  intros Hc Hlt. destruct (ndigits_spec c Hc) as (H1 & H2 & _).
  destruct (Z.le_gt_cases (ndigits c + e) k) as [|Hgt]; [assumption|].
  exfalso.
  assert (Hp : 10 ^ k <= 10 ^ (ndigits c - 1 + e)) by (apply pow10_le; lia).
  rewrite pow10_add, (pow10_inject (ndigits c - 1)) in Hp by lia.
  rewrite value_eq in Hlt. set (P := (10 ^ (ndigits c - 1))%Z) in *.
  to_Q H2. pose proof (pow10_pos e). nra.
Qed.

End ValueFacts.

Section FixFacts.

Lemma scaled_error (A c : Z) (T : Q) :
  (0 < T)%Q ->
  2 * 10 ^ 27 * (A - c) <= A ->
  (inject_Z A * T - inject_Z c * T <= inject_Z A * T * HALF_ULP)%Q.
Proof.
  intros HT H. change (2 * 10 ^ 27) with 2000000000000000000000000000 in H.
  to_Q H. unfold HALF_ULP.
  assert (H0 : (inject_Z A - inject_Z c - inject_Z A * (1 # 2000000000000000000000000000) <= 0)%Q)
    by lra.
  nra.
Qed.

Lemma fix_value (c e : Z) :
  0 <= c ->
  exists c' e',
    fix_ (mkDec c e) = mkDec c' e'
    /\ 0 <= c' < 10 ^ 28 /\ (0 < c -> 0 < c')
    /\ (value (mkDec c' e') - value (mkDec c e)
        <= value (mkDec c' e') * HALF_ULP)%Q
    /\ (value (mkDec c e) - value (mkDec c' e')
        <= value (mkDec c' e') * HALF_ULP)%Q.
Proof.
  intros Hc. unfold fix_, prec. cbn [coef dexp].
  destruct (Z.leb_spec (ndigits c) 28) as [Hs|Hl].
  - exists c, e. split; [reflexivity|].
    assert (c < 10 ^ 28).
    { destruct (Z.eq_dec c 0) as [->|Hne]; [reflexivity|].
      destruct (ndigits_spec c ltac:(lia)) as (_ & _ & H3).
      assert (10 ^ ndigits c <= 10 ^ 28) by (apply Z.pow_le_mono_r; lia). lia. }
    split; [lia|]. split; [tauto|].
    pose proof (value_nonneg c e Hc). unfold HALF_ULP. split; lra.
  - assert (Hpos : 0 < c).
    { destruct (Z.eq_dec c 0) as [->|]; [discriminate Hl || (vm_compute in Hl; lia) | lia]. }
    destruct (ndigits_spec c Hpos) as (_ & H2 & H3).
    set (dg := ndigits c - 28) in *.
    set (P := 10 ^ dg).
    assert (HP : 0 < P) by (apply Z.pow_pos_nonneg; lia).
    assert (E1 : 10 ^ (ndigits c - 1) = 10 ^ 27 * P).
    { unfold P. rewrite <- Z.pow_add_r by lia. f_equal. lia. }
    assert (E2 : 10 ^ ndigits c = 10 ^ 28 * P).
    { unfold P. rewrite <- Z.pow_add_r by lia. f_equal. lia. }
    rewrite E1 in H2. rewrite E2 in H3.
    pose proof (round_half_even_near c P HP) as Hn.
    set (k := round_half_even c P) in *.
    assert (Hk : 10 ^ 27 <= k <= 10 ^ 28).
    { change (10 ^ 27) with 1000000000000000000000000000 in *.
      change (10 ^ 28) with 10000000000000000000000000000 in *. nia. }
    assert (HA : 2 * 10 ^ 27 * (k * P - c) <= k * P
                 /\ 2 * 10 ^ 27 * (c - k * P) <= k * P).
    { change (10 ^ 27) with 1000000000000000000000000000 in *.
      change (10 ^ 28) with 10000000000000000000000000000 in *. nia. }
    destruct HA as [HA1 HA2].
    assert (Hval : forall c' e', (value (mkDec c' e') == inject_Z (k * P) * 10 ^ e)%Q ->
              (value (mkDec c' e') - value (mkDec c e)
               <= value (mkDec c' e') * HALF_ULP)%Q
              /\ (value (mkDec c e) - value (mkDec c' e')
                  <= value (mkDec c' e') * HALF_ULP)%Q).
    { intros c' e' ->. rewrite (value_eq c e). split.
      - apply scaled_error; [apply pow10_pos | exact HA1].
      - pose proof (scaled_error (k * P) (2 * (k * P) - c) (10 ^ e)%Q
                      (pow10_pos e) ltac:(lia)) as Hs.
        unfold Z.sub in Hs.
        rewrite inject_Z_plus, inject_Z_opp, (inject_Z_mult 2) in Hs.
        change (inject_Z 2) with (2 # 1) in Hs. lra. }
    destruct (Z.leb_spec (ndigits k) 28) as [Hks|Hkl].
    + exists k, (e + dg). split; [reflexivity|].
      assert (k < 10 ^ 28).
      { destruct (ndigits_spec k ltac:(lia)) as (_ & _ & H3').
        assert (10 ^ ndigits k <= 10 ^ 28) by (apply Z.pow_le_mono_r; lia).
        lia. }
      split; [lia|]. split; [lia|].
      apply Hval. rewrite <- value_shift by lia. reflexivity.
    + assert (Hk28 : k = 10 ^ 28).
      { destruct (Z.le_gt_cases (10 ^ 28) k) as [|Hlt]; [lia|].
        pose proof (ndigits_le k 28 ltac:(lia) Hlt). lia. }
      exists (k / 10), (e + dg + 1). split; [reflexivity|].
      rewrite Hk28. change (10 ^ 28 / 10) with (10 ^ 27).
      split; [lia|]. split; [lia|].
      apply Hval. rewrite Hk28.
      replace (10 ^ 28 * P) with (10 ^ 27 * 10 ^ (dg + 1)).
      2:{ rewrite Z.pow_add_r by lia. fold P. lia. }
      transitivity (value (mkDec (10 ^ 27 * 10 ^ (dg + 1)) e));
        [|reflexivity].
      rewrite value_shift by lia. rewrite Z.add_assoc. reflexivity.
Qed.

(** A value that fits 28 digits is left as it is. *)
Lemma fix_exact (c e c0 e0 : Z) :
  0 < c -> 0 < c0 < 10 ^ 28 ->
  (value (mkDec c e) == value (mkDec c0 e0))%Q ->
  exists c' e',
    fix_ (mkDec c e) = mkDec c' e'
    /\ 0 < c' < 10 ^ 28
    /\ (value (mkDec c' e') == value (mkDec c e))%Q.
Proof.
  intros Hc Hc0 Hv. unfold fix_, prec. cbn [coef dexp].
  destruct (ndigits_spec c Hc) as (_ & H2 & H3).
  destruct (Z.leb_spec (ndigits c) 28) as [Hs|Hl].
  - exists c, e. split; [reflexivity|]. split; [|reflexivity].
    assert (10 ^ ndigits c <= 10 ^ 28) by (apply Z.pow_le_mono_r; lia). lia.
  - set (dg := ndigits c - 28) in *.
    assert (H28 : 10 ^ 28 <= c).
    { assert (10 ^ 28 <= 10 ^ (ndigits c - 1)) by (apply Z.pow_le_mono_r; lia).
      lia. }
    (* the exponent of the short form is larger *)
    assert (He : e < e0).
    { destruct (Z.lt_ge_cases e e0) as [|Hge]; [assumption|]. exfalso.
      rewrite !value_eq in Hv.
      replace e with (e0 + (e - e0)) in Hv by lia.
      rewrite pow10_add, (pow10_inject (e - e0)) in Hv by lia.
      pose proof (pow10_pos e0) as Hp.
      assert (Hz : 10 ^ 0 <= 10 ^ (e - e0)). { apply Z.pow_le_mono_r; lia. }
      change (10 ^ 0) with 1 in Hz.
      assert (Hq : (inject_Z c * inject_Z (10 ^ (e - e0)) == inject_Z c0)%Q).
      { apply (Qmult_inj_r _ _ (10 ^ e0)%Q);
          [apply Qnot_eq_sym, Qlt_not_eq, Hp|]. rewrite <- Hv. ring. }
      rewrite <- inject_Z_mult in Hq. apply (proj1 (inject_Z_injective _ _)) in Hq.
      assert (c <= c0) by (rewrite <- Hq; clear - Hc Hz; nia). lia. }
    set (j := e0 - e) in *.
    assert (Hcj : c = c0 * 10 ^ j).
    { rewrite !value_eq in Hv.
      replace e0 with (e + j) in Hv by (unfold j; lia).
      rewrite pow10_add, (pow10_inject j) in Hv by (unfold j; lia).
      pose proof (pow10_pos e) as Hp.
      assert (Hq : (inject_Z c == inject_Z c0 * inject_Z (10 ^ j))%Q).
      { apply (Qmult_inj_r _ _ (10 ^ e)%Q);
          [apply Qnot_eq_sym, Qlt_not_eq, Hp|]. rewrite Hv. ring. }
      rewrite <- inject_Z_mult in Hq. now apply (proj1 (inject_Z_injective _ _)) in Hq. }
    assert (Hdj : dg <= j).
    { assert (c < 10 ^ (28 + j)).
      { rewrite Z.pow_add_r by (unfold j; lia).
        assert (0 < 10 ^ j) by (apply Z.pow_pos_nonneg; unfold j; lia). nia. }
      pose proof (ndigits_le c (28 + j) Hc ltac:(assumption)). lia. }
    set (P := 10 ^ dg).
    assert (HP : 0 < P) by (apply Z.pow_pos_nonneg; lia).
    set (k := c0 * 10 ^ (j - dg)).
    assert (Hck : c = k * P).
    { unfold k, P. rewrite <- Z.mul_assoc, <- Z.pow_add_r by lia.
      rewrite Hcj. do 2 f_equal. lia. }
    assert (Hr : round_half_even c P = k)
      by (rewrite Hck; apply round_half_even_exact, HP).
    rewrite Hr.
    assert (E2 : 10 ^ ndigits c = 10 ^ 28 * P).
    { unfold P. rewrite <- Z.pow_add_r by lia. f_equal. lia. }
    assert (Hk : 0 < k < 10 ^ 28) by (rewrite E2 in H3; nia).
    pose proof (ndigits_le k 28 ltac:(lia) ltac:(lia)) as Hnk.
    destruct (Z.leb_spec (ndigits k) 28) as [_|]; [|lia].
    exists k, (e + dg). split; [reflexivity|]. split; [exact Hk|].
    rewrite Hck. unfold P. rewrite value_shift by lia. reflexivity.
Qed.

End FixFacts.

Section DivFacts.

Lemma strip_zeros_spec (fuel : nat) (c e ideal : Z) :
  0 < c ->
  exists u,
    0 <= u /\ dexp (strip_zeros fuel c e ideal) = e + u
    /\ c = coef (strip_zeros fuel c e ideal) * 10 ^ u
    /\ 0 < coef (strip_zeros fuel c e ideal).
Proof.
  revert c e. induction fuel as [|f IH]; intros c e Hc.
  - exists 0. simpl. repeat split; lia.
  - cbn [strip_zeros].
    destruct (Z.ltb_spec e ideal) as [Hlt|Hge]; cbn [andb].
    2:{ exists 0. simpl. repeat split; lia. }
    destruct (Z.eqb_spec (c mod 10) 0) as [Hm|Hm].
    2:{ exists 0. simpl. repeat split; lia. }
    pose proof (Z.div_mod c 10 ltac:(lia)) as Hdm.
    destruct (IH (c / 10) (e + 1) ltac:(lia)) as (u & Hu & Hd & Hcu & Hpos).
    exists (u + 1). split; [lia|]. split; [lia|]. split; [|exact Hpos].
    rewrite Z.pow_add_r by lia. change (10 ^ 1) with 10. lia.
Qed.

(** The shape of a division of positive coefficients. *)
Lemma div_unfold (a ea b eb : Z) :
  0 < a < 10 ^ 28 -> 0 < b ->
  let shift := ndigits b - ndigits a + 29 in
  let e := ea - eb - shift in
  let n := a * 10 ^ shift in
  2 <= shift
  /\ 10 ^ 28 * b <= n < 10 ^ 30 * b
  /\ div (mkDec a ea) (mkDec b eb)
     = if n mod b =? 0 then
         let s := strip_zeros (Z.to_nat shift) (n / b) e (ea - eb) in
         Ok (fix_ (mkDec (coef s) (dexp s)))
       else
         Ok (fix_ (mkDec (if (n / b) mod 5 =? 0 then n / b + 1 else n / b) e)).
Proof.
  intros Ha Hb shift e n.
  destruct (ndigits_spec a ltac:(lia)) as (Ha1 & Ha2 & Ha3).
  destruct (ndigits_spec b Hb) as (Hb1 & Hb2 & Hb3).
  assert (Hla : ndigits a <= 28) by (apply ndigits_le; lia).
  assert (Hs : 2 <= shift) by (unfold shift; lia).
  split; [exact Hs|]. split.
  - unfold n.
    assert (E1 : 10 ^ (ndigits a - 1) * 10 ^ shift = 10 ^ 28 * 10 ^ ndigits b).
    { rewrite <- !Z.pow_add_r by lia. f_equal. unfold shift. lia. }
    assert (E2 : 10 ^ ndigits a * 10 ^ shift = 10 ^ 30 * 10 ^ (ndigits b - 1)).
    { rewrite <- !Z.pow_add_r by lia. f_equal. unfold shift. lia. }
    assert (HP : 0 < 10 ^ shift) by (apply Z.pow_pos_nonneg; lia).
    change (10 ^ 28) with 10000000000000000000000000000 in *.
    change (10 ^ 30) with 1000000000000000000000000000000 in *.
    nia.
  - unfold div, prec. cbn [coef dexp].
    destruct (Z.eqb_spec b 0) as [|_]; [lia|].
    destruct (Z.eqb_spec a 0) as [|_]; [lia|].
    rewrite !Z.abs_eq by lia.
    rewrite (Z.sgn_pos a), (Z.sgn_pos b) by lia.
    replace (ndigits b - ndigits a + 28 + 1) with shift by (unfold shift; lia).
    destruct (Z.leb_spec 0 shift) as [_|]; [|lia].
    fold e. fold n.
    replace (ea - eb - e) with shift by (unfold e; lia).
    destruct (n mod b =? 0).
    + cbv zeta. now rewrite Z.mul_1_l.
    + now rewrite !Z.mul_1_l.
Qed.

Local Open Scope Q_scope.

(** The exact quotient, against the scaled integers of the algorithm. *)
Lemma quotient_scaled (a ea b eb shift : Z) :
  (0 < b)%Z -> (0 <= shift)%Z ->
  value (mkDec a ea) / value (mkDec b eb) * inject_Z b
  == inject_Z (a * 10 ^ shift) * 10 ^ (ea - eb - shift).
Proof.
  intros Hb Hs. rewrite !value_eq, inject_Z_mult.
  rewrite <- (pow10_inject shift Hs).
  replace (ea - eb - shift)%Z with (ea + (- eb + - shift))%Z by lia.
  rewrite !pow10_add, !Qpower_opp.
  pose proof (pow10_pos eb). pose proof (pow10_pos shift).
  to_Q Hb. field. repeat split; lra.
Qed.

Lemma div_value (a ea b eb : Z) :
  (0 < a < 10 ^ 28)%Z -> (0 < b)%Z ->
  exists c e,
    div (mkDec a ea) (mkDec b eb) = Ok (mkDec c e)
    /\ (0 < c < 10 ^ 28)%Z
    /\ value (mkDec c e) - value (mkDec a ea) / value (mkDec b eb)
       <= value (mkDec c e) * ULP
    /\ value (mkDec a ea) / value (mkDec b eb) - value (mkDec c e)
       <= value (mkDec c e) * ULP.
Proof.
  intros Ha Hb.
  destruct (div_unfold a ea b eb Ha Hb) as (Hs & Hn & Hdiv).
  cbv zeta in Hdiv. rewrite Hdiv. clear Hdiv.
  pose proof (quotient_scaled a ea b eb (ndigits b - ndigits a + 29) Hb
                ltac:(lia)) as Hq.
  set (shift := (ndigits b - ndigits a + 29)%Z) in *.
  set (e := (ea - eb - shift)%Z) in *.
  set (n := (a * 10 ^ shift)%Z) in *.
  set (x := value (mkDec a ea) / value (mkDec b eb)) in *.
  pose proof (Z.div_mod n b ltac:(lia)) as Hdm.
  pose proof (Z.mod_pos_bound n b Hb) as Hmb.
  assert (Hq28 : (10 ^ 28 <= n / b)%Z) by (apply Z.div_le_lower_bound; lia).
  pose proof (pow10_pos e) as HT.
  destruct (Z.eqb_spec (n mod b) 0) as [Hr|Hr].
  - (* exact quotient *)
    cbv zeta.
    destruct (strip_zeros_spec (Z.to_nat shift) (n / b) e (ea - eb) ltac:(lia))
      as (u & Hu & Hd & Hcu & Hpos).
    set (s := strip_zeros (Z.to_nat shift) (n / b) e (ea - eb)) in *.
    destruct (fix_value (coef s) (dexp s) ltac:(lia))
      as (c' & e' & Hf & Hc' & Hp' & H1 & H2).
    exists c', e'. split; [now rewrite Hf|]. split; [lia|].
    assert (Hx : value (mkDec (coef s) (dexp s)) == x).
    { rewrite Hd, <- value_shift, <- Hcu by lia. rewrite value_eq.
      assert (Hnb : n = (n / b * b)%Z) by lia.
      rewrite Hnb, inject_Z_mult in Hq. to_Q Hb.
      apply (Qmult_inj_r _ _ (inject_Z b)); [lra|]. rewrite Hq. ring. }
    rewrite Hx in H1, H2.
    pose proof (value_nonneg c' e' ltac:(lia)). unfold HALF_ULP in *.
    unfold ULP. split; lra.
  - (* inexact quotient *)
    set (q' := if (n / b mod 5 =? 0)%Z then (n / b + 1)%Z else (n / b)%Z).
    assert (Hq' : (n / b <= q' <= n / b + 1)%Z)
      by (unfold q'; destruct (_ =? _)%Z; lia).
    destruct (fix_value q' e ltac:(lia))
      as (c' & e' & Hf & Hc' & Hp' & H1 & H2).
    exists c', e'. split; [now rewrite Hf|]. split; [lia|].
    rewrite (value_eq q' e) in H1, H2.
    pose proof (value_nonneg c' e' ltac:(lia)) as Hv0.
    set (v := value (mkDec c' e')) in *.
    set (T := 10 ^ e) in *.
    (* the quotient lies within one unit of q' *)
    assert (Hlo : (inject_Z q' - 1) * T <= x /\ x <= (inject_Z q' + 1) * T).
    { assert (Hz1 : ((q' - 1) * b <= n)%Z) by nia.
      assert (Hz2 : (n <= (q' + 1) * b)%Z) by nia.
      to_Q Hz1. to_Q Hz2. to_Q Hb.
      set (ib := inject_Z b) in *. set (iq := inject_Z q') in *.
      set (inn := inject_Z n) in *.
      assert (Hx1 : (iq - 1) * T * ib <= x * ib) by (rewrite Hq; nra).
      assert (Hx2 : x * ib <= (iq + 1) * T * ib) by (rewrite Hq; nra).
      split; nra. }
    assert (H28 : inject_Z (10 ^ 28) * T <= inject_Z q' * T).
    { assert (Hz : (10 ^ 28 <= q')%Z) by lia.
      rewrite Zle_Qle in Hz. nra. }
    change (inject_Z (10 ^ 28)) with (10000000000000000000000000000 # 1) in H28.
    destruct Hlo as [Hlo1 Hlo2].
    assert (E1 : (inject_Z q' - 1) * T == inject_Z q' * T - T) by ring.
    assert (E2 : (inject_Z q' + 1) * T == inject_Z q' * T + T) by ring.
    rewrite E1 in Hlo1. rewrite E2 in Hlo2.
    set (W := inject_Z q' * T) in *.
    unfold HALF_ULP in *. unfold ULP. split; lra.
Qed.

(** A quotient that fits 28 digits is computed exactly. *)
Lemma div_exact (a ea b eb c0 e0 : Z) :
  (0 < a < 10 ^ 28)%Z -> (0 < b)%Z -> (0 < c0 < 10 ^ 28)%Z ->
  value (mkDec a ea) == value (mkDec c0 e0) * value (mkDec b eb) ->
  exists c e,
    div (mkDec a ea) (mkDec b eb) = Ok (mkDec c e)
    /\ (0 < c < 10 ^ 28)%Z
    /\ value (mkDec c e) == value (mkDec c0 e0).
Proof.
  intros Ha Hb Hc0 Hv.
  destruct (div_unfold a ea b eb Ha Hb) as (Hs & Hn & Hdiv).
  cbv zeta in Hdiv. rewrite Hdiv. clear Hdiv.
  pose proof (quotient_scaled a ea b eb (ndigits b - ndigits a + 29) Hb
                ltac:(lia)) as Hq.
  set (shift := (ndigits b - ndigits a + 29)%Z) in *.
  set (e := (ea - eb - shift)%Z) in *.
  set (n := (a * 10 ^ shift)%Z) in *.
  pose proof (value_pos b eb Hb) as Hvb.
  assert (Hx : value (mkDec a ea) / value (mkDec b eb) == value (mkDec c0 e0)).
  { rewrite Hv. field. lra. }
  rewrite Hx in Hq. rewrite value_eq in Hq.
  pose proof (pow10_pos e) as HT. pose proof (pow10_pos e0) as HT0.
  (* the short form has the larger exponent *)
  assert (He : (e <= e0)%Z).
  { destruct (Z.le_gt_cases e e0) as [|Hgt]; [assumption|]. exfalso.
    replace e with (e0 + (e - e0))%Z in Hq by lia.
    rewrite pow10_add, (pow10_inject (e - e0)) in Hq by lia.
    assert (Hz : (10 ^ 0 <= 10 ^ (e - e0))%Z) by (apply Z.pow_le_mono_r; lia).
    change (10 ^ 0)%Z with 1%Z in Hz.
    assert (Hq2 : inject_Z (c0 * b) == inject_Z (n * 10 ^ (e - e0))).
    { rewrite !inject_Z_mult.
      apply (Qmult_inj_r _ _ (10 ^ e0));
        [apply Qnot_eq_sym, Qlt_not_eq, HT0|].
      transitivity (inject_Z c0 * 10 ^ e0 * inject_Z b); [ring|].
      rewrite Hq. ring. }
    apply (proj1 (inject_Z_injective _ _)) in Hq2.
    assert (n <= c0 * b)%Z by (rewrite Hq2; clear - Hn Hz Hb; nia).
    clear - H Hn Hc0 Hb. nia. }
  set (j := (e0 - e)%Z).
  assert (Hnj : n = (c0 * 10 ^ j * b)%Z).
  { replace e0 with (e + j)%Z in Hq by (unfold j; lia).
    rewrite pow10_add, (pow10_inject j) in Hq by (unfold j; lia).
    apply inject_Z_injective. rewrite !inject_Z_mult.
    apply (Qmult_inj_r _ _ (10 ^ e));
      [apply Qnot_eq_sym, Qlt_not_eq, HT|].
    transitivity (inject_Z c0 * (10 ^ e * inject_Z (10 ^ j)) * inject_Z b);
      [|ring].
    rewrite Hq. ring. }
  assert (Hr : (n mod b = 0)%Z) by (rewrite Hnj; apply Z.mod_mul; lia).
  assert (Hnb : (n / b = c0 * 10 ^ j)%Z) by (rewrite Hnj; apply Z.div_mul; lia).
  rewrite Hr. cbn [Z.eqb]. cbv zeta. rewrite Hnb.
  assert (Hpj : (0 < 10 ^ j)%Z) by (apply Z.pow_pos_nonneg; unfold j; lia).
  destruct (strip_zeros_spec (Z.to_nat shift) (c0 * 10 ^ j) e (ea - eb) ltac:(nia))
    as (u & Hu & Hd & Hcu & Hpos).
  set (s := strip_zeros (Z.to_nat shift) (c0 * 10 ^ j) e (ea - eb)) in *.
  assert (Hvs : value (mkDec (coef s) (dexp s)) == value (mkDec c0 e0)).
  { rewrite Hd, <- value_shift, <- Hcu by lia.
    rewrite value_shift by (unfold j; lia).
    replace (e + j)%Z with e0 by (unfold j; lia). reflexivity. }
  destruct (fix_exact (coef s) (dexp s) c0 e0 Hpos Hc0 Hvs)
    as (c' & e' & Hf & Hc' & Hv').
  exists c', e'. split; [now rewrite Hf|]. split; [exact Hc'|].
  now rewrite Hv'.
Qed.

End DivFacts.

Section QuantizeFacts.

#[local] Abbreviation round_even := (Spec.round_int Spec.ROUND_HALF_EVEN).

Lemma round_even_proper (q q' : Q) : (q == q')%Q -> round_even q = round_even q'.
Proof.
  intros H. unfold Spec.round_int. apply round_half_even_ratio; try reflexivity.
  exact H.
Qed.

Lemma round_even_inject (m : Z) : round_even (inject_Z m) = m.
Proof.
  unfold Spec.round_int. cbn [inject_Z Qnum Qden].
  rewrite <- (Z.mul_1_r m) at 1. apply round_half_even_exact. reflexivity.
Qed.

Lemma round_even_make (n d : Z) :
  0 < d -> round_even (n # Z.to_pos d) = round_half_even n d.
Proof.
  intros Hd. unfold Spec.round_int. cbn [Qnum Qden].
  now rewrite Z2Pos.id.
Qed.

(** A rational that equals [n / d] rounds as [n / d] does. *)
Lemma round_even_exact (y : Q) (n d : Z) :
  0 < d -> (y * inject_Z d == inject_Z n)%Q ->
  round_even y = round_half_even n d.
Proof.
  intros Hd Hy. rewrite <- (round_even_make n d Hd).
  apply round_even_proper. rewrite Qmake_Qdiv, Z2Pos.id by exact Hd.
  to_Q Hd. rewrite <- Hy. field. lra.
Qed.

Lemma round_even_unique (y : Q) (k : Z) :
  (2 * inject_Z k - 1 < 2 * y)%Q -> (2 * y < 2 * inject_Z k + 1)%Q ->
  round_even y = k.
Proof.
  intros H1 H2. destruct y as [n d]. unfold Spec.round_int. cbn [Qnum Qden].
  apply round_half_even_unique; [reflexivity|].
  unfold Qlt, Qmult, Qplus, Qminus, Qopp, Qplus, inject_Z in H1, H2.
  cbn [Qnum Qden] in H1, H2.
  rewrite ?Pos2Z.inj_mul in H1, H2. nia.
Qed.

(** Away from a tie, a nearby rational rounds as [n / (2 h)] does. *)
Lemma round_even_near (y : Q) (n h : Z) :
  0 < h -> n mod (2 * h) <> h ->
  (inject_Z n - 1 < y * inject_Z (2 * h))%Q ->
  (y * inject_Z (2 * h) < inject_Z n + 1)%Q ->
  round_even y = round_half_even n (2 * h).
Proof.
  intros Hh Htie H1 H2.
  pose proof (round_half_even_near n (2 * h) ltac:(lia)) as Hn.
  set (k := round_half_even n (2 * h)) in *.
  assert (Hlo : 2 * (k * (2 * h) - n) <> 2 * h).
  { intros E. apply Htie.
    symmetry. apply (Z.mod_unique_pos n (2 * h) (k - 1) h); lia. }
  assert (Hhi : 2 * (k * (2 * h) - n) <> - (2 * h)).
  { intros E. apply Htie.
    symmetry. apply (Z.mod_unique_pos n (2 * h) k h); lia. }
  assert (Hz1 : 2 * k * (2 * h) + 2 <= 2 * n + 2 * h) by lia.
  assert (Hz2 : 2 * n + 2 <= 2 * k * (2 * h) + 2 * h) by lia.
  assert (Hd : 0 < 2 * h) by lia.
  set (D := (2 * h)%Z) in *.
  to_Q Hz1. to_Q Hz2. to_Q Hd.
  apply round_even_unique;
    set (iD := inject_Z D) in *; set (ik := inject_Z k) in *;
    set (inn := inject_Z n) in *;
    clearbody iD ik inn; clear - H1 H2 Hz1 Hz2 Hd;
    apply (Qmult_lt_r _ _ iD Hd); nra.
Qed.

Lemma rescale_round (d : Decimal) (e : Z) :
  rescale d e = mkDec (round_even (value d * 10 ^ (- e))) e.
Proof.
  unfold rescale. destruct d as [c ed]. cbn [coef dexp].
  destruct (Z.leb_spec e ed) as [Hle|Hlt]; f_equal.
  - rewrite <- (round_even_inject (c * 10 ^ (ed - e))).
    apply round_even_proper.
    rewrite value_eq, inject_Z_mult, <- pow10_inject by lia.
    replace (ed - e) with (ed + - e) by lia. rewrite pow10_add. ring.
  - assert (HP : 0 < 10 ^ (e - ed)) by (apply Z.pow_pos_nonneg; lia).
    rewrite <- (round_even_make c (10 ^ (e - ed)) HP).
    apply round_even_proper.
    rewrite Qmake_Qdiv, Z2Pos.id by exact HP.
    rewrite value_eq, <- pow10_inject by lia.
    replace (- e) with (- (e - ed) + - ed) by lia.
    rewrite !pow10_add, !Qpower_opp.
    pose proof (pow10_pos ed). pose proof (pow10_pos (e - ed)).
    field. split; lra.
Qed.

(** [quantize] to two places, once the rounded value is known. *)
Lemma quantize_to (d : Decimal) (k : Z) :
  0 <= coef d -> (value d < 10 ^ 26)%Q ->
  round_even (value d * 100) = k -> 0 <= k < 10 ^ 28 ->
  quantize d (-2) = Ok (mkDec k (-2)).
Proof.
  intros Hc Hv Hk Hk28. unfold quantize, prec.
  assert (Hr : rescale d (-2) = mkDec k (-2)).
  { rewrite rescale_round. f_equal. rewrite <- Hk.
    apply round_even_proper. reflexivity. }
  destruct (Z.eqb_spec (coef d) 0) as [H0|H0].
  - f_equal. f_equal. rewrite <- Hk.
    destruct d as [c e]. cbn [coef] in H0. subst c.
    transitivity (round_even (inject_Z 0)); [now rewrite round_even_inject|].
    apply round_even_proper.
    rewrite value_eq. change (inject_Z 0) with 0%Q. ring.
  - destruct d as [c e]. cbn [coef dexp] in *.
    pose proof (value_lt_pow c e 26 ltac:(lia) Hv) as Hd.
    destruct (Z.ltb_spec 28 (ndigits c + e - -2)) as [|_]; [lia|].
    rewrite Hr. cbn [coef].
    assert (ndigits k <= 28).
    { destruct (Z.eq_dec k 0) as [->|]; [rewrite ndigits_zero; lia|].
      apply ndigits_le; lia. }
    destruct (Z.ltb_spec 28 (ndigits k)) as [|_]; [lia | reflexivity].
Qed.

(** A product that fits 28 digits is exact. *)
Lemma mul_exact (a ea b eb : Z) :
  0 <= a -> 0 <= b -> a * b < 10 ^ 28 ->
  mul (mkDec a ea) (mkDec b eb) = mkDec (a * b) (ea + eb).
Proof.
  intros Ha Hb Hab. unfold mul, fix_, prec. cbn [coef dexp].
  assert (ndigits (a * b) <= 28).
  { destruct (Z.eq_dec (a * b) 0) as [->|]; [rewrite ndigits_zero; lia|].
    apply ndigits_le; nia. }
  destruct (Z.leb_spec (ndigits (a * b)) 28) as [_|]; [reflexivity | lia].
Qed.

(** A sum of two amounts in hundredths that fits 28 digits is exact. *)
Lemma add_exact (a b e : Z) :
  0 <= a -> 0 <= b -> a + b < 10 ^ 28 ->
  add (mkDec a e) (mkDec b e) = mkDec (a + b) e.
Proof.
  intros Ha Hb Hab. unfold add, fix_, prec. cbn [coef dexp].
  rewrite Z.min_id, Z.sub_diag. change (10 ^ 0) with 1. rewrite !Z.mul_1_r.
  assert (ndigits (a + b) <= 28).
  { destruct (Z.eq_dec (a + b) 0) as [->|]; [rewrite ndigits_zero; lia|].
    apply ndigits_le; lia. }
  destruct (Z.leb_spec (ndigits (a + b)) 28) as [_|]; [reflexivity | lia].
Qed.

Lemma quantize_same (k : Z) :
  0 <= k < 10 ^ 28 -> quantize (mkDec k (-2)) (-2) = Ok (mkDec k (-2)).
Proof.
  intros Hk. unfold quantize, prec, rescale. cbn [coef dexp].
  destruct (Z.eqb_spec k 0) as [->|Hne]; [reflexivity|].
  assert (ndigits k <= 28) by (apply ndigits_le; lia).
  destruct (Z.ltb_spec 28 (ndigits k + -2 - -2)) as [|_]; [lia|].
  cbn. rewrite Z.mul_1_r.
  destruct (Z.ltb_spec 28 (ndigits k)) as [|_]; [lia | reflexivity].
Qed.

End QuantizeFacts.

Section FloatFacts.

Lemma lowest_terms_power (s k : Z) :
  0 <= k -> Float.lowest_terms (Z.to_nat k) (s * 2 ^ k) k = (s, 0).
Proof.
  intros Hk. rewrite <- (Z2Nat.id k Hk) at 2 3.
  induction (Z.to_nat k) as [|n IH]; cbn [Float.lowest_terms].
  - simpl. now rewrite Z.mul_1_r.
  - destruct (Z.ltb_spec 0 (Z.of_nat (S n))) as [_|]; [|lia].
    replace (Z.of_nat (S n)) with (Z.succ (Z.of_nat n)) by lia.
    rewrite Z.pow_succ_r by lia.
    replace (s * (2 * 2 ^ Z.of_nat n)) with (2 * (s * 2 ^ Z.of_nat n)) by lia.
    rewrite Z.even_mul. cbn [Z.even orb andb].
    rewrite Z.mul_comm, Z.div_mul by lia.
    replace (Z.succ (Z.of_nat n) - 1) with (Z.of_nat n) by lia.
    exact IH.
Qed.

(** A whole number of seconds below 2^53 is a float without error. *)
Lemma true_divide_whole (s d : Z) :
  0 < s < 2 ^ 53 -> 0 < d ->
  exists t, 0 <= t /\ Float.true_divide (s * d) d = Float.mkFloat (s * 2 ^ t) (- t).
Proof.
  intros Hs Hd. unfold Float.true_divide.
  destruct (Z.eqb_spec (s * d) 0) as [|_]; [nia|].
  rewrite Z.abs_eq, Z.sgn_pos by nia.
  set (e0 := Z.log2 (s * d) - Z.log2 d - 53).
  assert (He0 : e0 <= 0).
  { pose proof (Z.log2_mul_above s d ltac:(lia) ltac:(lia)).
    assert (Z.log2 s < 53) by (apply Z.log2_lt_pow2; lia).
    unfold e0. lia. }
  assert (Hsc : forall e, e <= 0 ->
            Float.scaled (s * d) d e = (s * 2 ^ (- e) * d, d * 2 ^ (e + - e))
            /\ fst (Float.scaled (s * d) d e) / snd (Float.scaled (s * d) d e)
               = s * 2 ^ (- e)
            /\ round_half_even (fst (Float.scaled (s * d) d e))
                 (snd (Float.scaled (s * d) d e)) = s * 2 ^ (- e)).
  { intros e He. unfold Float.scaled.
    rewrite Z.add_opp_diag_r. change (2 ^ 0) with 1. rewrite Z.mul_1_r.
    destruct (Z.leb_spec 0 e) as [H0|H0].
    - assert (e = 0) by lia. subst e. cbn [Z.opp fst snd].
      change (2 ^ 0) with 1. rewrite !Z.mul_1_r.
      split; [reflexivity|]. split.
      + apply Z.div_mul; lia.
      + apply round_half_even_exact, Hd.
    - cbn [fst snd].
      replace (s * d * 2 ^ (- e)) with (s * 2 ^ (- e) * d) by lia.
      split; [reflexivity|]. split.
      + apply Z.div_mul; lia.
      + apply round_half_even_exact, Hd. }
  destruct (Hsc e0 He0) as (Hp0 & Hq0 & _).
  destruct (Float.scaled (s * d) d e0) as [n0 d0] eqn:E0. cbn [fst snd] in Hq0.
  rewrite Hq0.
  set (e := if s * 2 ^ (- e0) <? 2 ^ 53 then e0 else e0 + 1).
  assert (He : e <= 0).
  { unfold e. destruct (Z.ltb_spec (s * 2 ^ (- e0)) (2 ^ 53)) as [|Hge]; [lia|].
    destruct (Z.eq_dec e0 0) as [E|]; [|lia].
    rewrite E in Hge. cbn in Hge. lia. }
  destruct (Hsc e He) as (_ & _ & Hr).
  destruct (Float.scaled (s * d) d e) as [n1 d1] eqn:E1. cbn [fst snd] in Hr.
  rewrite Hr. exists (- e). split; [lia|].
  now rewrite Z.mul_1_l, Z.opp_involutive.
Qed.

Lemma to_Decimal_whole (s t : Z) :
  0 <= t -> Float.to_Decimal (Float.mkFloat (s * 2 ^ t) (- t)) = mkDec s 0.
Proof.
  intros Ht. unfold Float.to_Decimal. cbn [Float.mant Float.expo].
  destruct (Z.leb_spec 0 (- t)) as [H0|H0].
  - assert (t = 0) by lia. subst t. cbn. now rewrite !Z.mul_1_r.
  - rewrite Z.opp_involutive, lowest_terms_power by lia.
    cbn. now rewrite Z.mul_1_r.
Qed.

Lemma total_seconds_whole (s : Z) :
  0 < s < 2 ^ 53 ->
  Float.to_Decimal (total_seconds (s * 10 ^ 6)) = mkDec s 0.
Proof.
  intros Hs. unfold total_seconds.
  destruct (true_divide_whole s (10 ^ 6) Hs ltac:(lia)) as (t & Ht & ->).
  now apply to_Decimal_whole.
Qed.

End FloatFacts.

Section PricingFacts.

#[local] Abbreviation round_even := (Spec.round_int Spec.ROUND_HALF_EVEN).

Lemma value_int (c : Z) : (value (mkDec c 0) == inject_Z c)%Q.
Proof. rewrite value_eq. change (10 ^ 0)%Q with 1%Q. ring. Qed.

Lemma value_cents (c : Z) : (value (mkDec c (-2)) == inject_Z c * (1 # 100))%Q.
Proof. rewrite value_eq. change (10 ^ (-2))%Q with (1 # 100)%Q. ring. Qed.

(** [duration_hours] of a whole number [s] of seconds: [s / 3600] to 28
    digits, and exactly so when [s] is a multiple of nine. *)
Lemma hours_value (s : Z) :
  0 < s <= MAX_SECONDS ->
  exists ch eh,
    div (mkDec s 0) (mkDec 3600 0) = Ok (mkDec ch eh)
    /\ 0 < ch < 10 ^ 28
    /\ (value (mkDec ch eh) - inject_Z s * (1 # 3600)
        <= value (mkDec ch eh) * ULP)%Q
    /\ (inject_Z s * (1 # 3600) - value (mkDec ch eh)
        <= value (mkDec ch eh) * ULP)%Q
    /\ ((9 | s) -> (value (mkDec ch eh) == inject_Z s * (1 # 3600))%Q).
Proof.
  unfold MAX_SECONDS. intros Hs.
  assert (Hs28 : 0 < s < 10 ^ 28) by (change (10 ^ 28) with 10000000000000000000000000000; lia).
  destruct (div_value s 0 3600 0 Hs28 ltac:(lia)) as (ch & eh & Hdiv & Hch & H1 & H2).
  assert (E : (value (mkDec s 0) / value (mkDec 3600 0) == inject_Z s * (1 # 3600))%Q).
  { rewrite !value_int. change (inject_Z 3600) with 3600%Q. field. }
  rewrite E in H1, H2.
  exists ch, eh. do 4 (split; [assumption|]).
  intros [m Hm].
  assert (Hm0 : 0 < 25 * m < 10 ^ 28)
    by (change (10 ^ 28) with 10000000000000000000000000000; lia).
  destruct (div_exact s 0 3600 0 (25 * m) (-4) Hs28 ltac:(lia) Hm0)
    as (c & e & Hdiv' & _ & Hv).
  { rewrite !value_int, value_eq, Hm, !inject_Z_mult.
    change (10 ^ (-4))%Q with (1 # 10000)%Q.
    change (inject_Z 3600) with 3600%Q. change (inject_Z 25) with 25%Q.
    change (inject_Z 9) with 9%Q. ring. }
  rewrite Hdiv in Hdiv'. injection Hdiv' as <- <-.
  rewrite Hv, value_eq, Hm, !inject_Z_mult.
  change (10 ^ (-4))%Q with (1 # 10000)%Q.
  change (inject_Z 25) with 25%Q. change (inject_Z 9) with 9%Q. ring.
Qed.

Lemma round_half_even_bounds (n d : Z) :
  0 < d -> 0 <= n -> 0 <= round_half_even n d <= n.
Proof.
  intros Hd Hn. pose proof (round_half_even_near n d Hd).
  pose proof (round_half_even_nonneg n d Hd Hn).
  split; [assumption|].
  destruct (Z.eq_dec d 1) as [->|]; [lia|]. nia.
Qed.

(** The days (for 24) or weeks (for 168) of a window of [s] seconds, as the
    code computes them: [s / (3600 n)] rounded half-even to two places. *)
Lemma unit_count (s n : Z) :
  0 < s <= MAX_SECONDS -> n = 24 \/ n = 168 ->
  exists hd d,
    div (mkDec s 0) (mkDec 3600 0) = Ok hd
    /\ div hd (mkDec n 0) = Ok d
    /\ quantize d (-2) = Ok (mkDec (round_half_even s (36 * n)) (-2)).
Proof.
  intros Hs Hn.
  destruct (hours_value s Hs) as (ch & eh & Hdiv & Hch & H1 & H2 & Hex).
  assert (Hn0 : 0 < n) by lia.
  destruct (div_value ch eh n 0 Hch Hn0) as (cd & ed & Hdivd & Hcd & D1 & D2).
  exists (mkDec ch eh), (mkDec cd ed). split; [exact Hdiv|]. split; [exact Hdivd|].
  pose proof (value_pos ch eh ltac:(lia)) as Hvh.
  pose proof (value_pos cd ed ltac:(lia)) as Hvd.
  assert (Hk : 0 <= round_half_even s (36 * n) < 10 ^ 28).
  { pose proof (round_half_even_bounds s (36 * n) ltac:(lia) ltac:(lia)).
    unfold MAX_SECONDS in Hs.
    change (10 ^ 28) with 10000000000000000000000000000. lia. }
  assert (Hs' := Hs). unfold MAX_SECONDS in Hs'. destruct Hs' as [Hs1 Hs2].
  to_Q Hs1. to_Q Hs2.
  destruct (Z.eq_dec (s mod (2 * (18 * n))) (18 * n)) as [Htie|Htie].
  - (* a tie: every step is exact *)
    pose proof (Z.div_mod s (2 * (18 * n)) ltac:(lia)) as Hdm.
    rewrite Htie in Hdm. set (q := s / (2 * (18 * n))) in *.
    assert (H9 : (9 | s)) by (exists (4 * n * q + 2 * n); lia).
    specialize (Hex H9).
    assert (Hq : 0 <= q) by (apply Z.div_pos; lia).
    assert (Hc0 : 0 < 5 * (2 * q + 1) < 10 ^ 28).
    { unfold MAX_SECONDS in Hs.
      change (10 ^ 28) with 10000000000000000000000000000.
      assert (2 * q + 1 <= (2 * q + 1) * (18 * n)) by nia. lia. }
    destruct (div_exact ch eh n 0 (5 * (2 * q + 1)) (-3) Hch Hn0 Hc0)
      as (c & e & Hdiv' & _ & Hv).
    { rewrite Hex, value_int, value_eq, Hdm. push_inject.
      change (10 ^ (-3))%Q with (1 # 1000)%Q. ring. }
    rewrite Hdivd in Hdiv'. injection Hdiv' as <- <-.
    assert (Hvq : (value (mkDec cd ed) == inject_Z (2 * q + 1) * (1 # 200))%Q).
    { rewrite Hv, value_eq, inject_Z_mult.
      change (10 ^ (-3))%Q with (1 # 1000)%Q. change (inject_Z 5) with 5%Q.
      ring. }
    assert (Hq2 : (inject_Z (2 * q + 1) <= 10 ^ 12)%Q).
    { assert (Hz : 2 * q + 1 <= 10 ^ 12).
      { unfold MAX_SECONDS in Hs. change (10 ^ 12) with 1000000000000.
        assert (2 * q + 1 <= (2 * q + 1) * (18 * n)) by nia. lia. }
      rewrite Zle_Qle in Hz. exact Hz. }
    apply quantize_to; [cbn; lia | | | exact Hk].
    + rewrite Hvq. change (10 ^ 26)%Q with (100000000000000000000000000 # 1)%Q.
      change (10 ^ 12)%Q with (1000000000000 # 1)%Q in Hq2. lra.
    + replace (36 * n) with (2 * (18 * n)) by lia.
      apply round_even_exact; [lia|].
      rewrite Hvq, Hdm. push_inject. ring.
  - (* no tie: the error of the two divisions is far below the gap *)
    set (vh := value (mkDec ch eh)) in *. set (vd := value (mkDec cd ed)) in *.
    unfold ULP in *.
    apply quantize_to; [cbn; lia | | | exact Hk]; fold vd.
    + change (10 ^ 26)%Q with (100000000000000000000000000 # 1)%Q.
      destruct Hn as [-> | ->].
      * assert (E : (vh / value (mkDec 24 0) == vh * (1 # 24))%Q)
          by (rewrite value_int; change (inject_Z 24) with 24%Q; field).
        rewrite E in D1, D2. lra.
      * assert (E : (vh / value (mkDec 168 0) == vh * (1 # 168))%Q)
          by (rewrite value_int; change (inject_Z 168) with 168%Q; field).
        rewrite E in D1, D2. lra.
    + replace (36 * n) with (2 * (18 * n)) by lia.
      destruct Hn as [-> | ->].
      * assert (E : (vh / value (mkDec 24 0) == vh * (1 # 24))%Q)
          by (rewrite value_int; change (inject_Z 24) with 24%Q; field).
        rewrite E in D1, D2.
        apply round_even_near; [lia | exact Htie | |];
          change (inject_Z (2 * (18 * 24))) with 864%Q; lra.
      * assert (E : (vh / value (mkDec 168 0) == vh * (1 # 168))%Q)
          by (rewrite value_int; change (inject_Z 168) with 168%Q; field).
        rewrite E in D1, D2.
        apply round_even_near; [lia | exact Htie | |];
          change (inject_Z (2 * (18 * 168))) with 6048%Q; lra.
Qed.

(** The hourly base price: [s / 3600] hours at [rc] hundredths an hour,
    rounded half-even to hundredths, unless the exact product is a tie and
    the hours are not a finite decimal. *)
Lemma hourly_base (s rc : Z) :
  0 < s <= MAX_SECONDS -> 0 <= rc < 10 ^ 10 ->
  (9 | s) \/ (s * rc) mod 3600 <> 1800 ->
  exists hd,
    div (mkDec s 0) (mkDec 3600 0) = Ok hd
    /\ quantize (mul hd (mkDec rc (-2))) (-2)
       = Ok (mkDec (round_half_even (s * rc) 3600) (-2)).
Proof.
  intros Hs Hrc Hcond.
  destruct (hours_value s Hs) as (ch & eh & Hdiv & Hch & H1 & H2 & Hex).
  exists (mkDec ch eh). split; [exact Hdiv|].
  unfold mul. cbn [coef dexp].
  assert (HY : (value (mkDec (ch * rc) (eh + -2))
                == value (mkDec ch eh) * inject_Z rc * (1 # 100))%Q).
  { rewrite !value_eq, inject_Z_mult, pow10_add.
    change (10 ^ (-2))%Q with (1 # 100)%Q. ring. }
  unfold MAX_SECONDS in Hs. change (10 ^ 10) with 10000000000 in Hrc.
  assert (HP : 0 <= s * rc <= 315537897599 * 10000000000) by nia.
  set (P := s * rc) in *.
  assert (Hk : 0 <= round_half_even P 3600 < 10 ^ 28).
  { pose proof (round_half_even_bounds P 3600 ltac:(lia) ltac:(lia)).
    change (10 ^ 28) with 10000000000000000000000000000. lia. }
  pose proof (value_pos ch eh ltac:(lia)) as Hvh.
  assert (HE : (inject_Z s * (1 # 3600) * inject_Z rc == inject_Z P * (1 # 3600))%Q)
    by (unfold P; rewrite inject_Z_mult; ring).
  destruct HP as [HP1 HP2]. to_Q HP1. to_Q HP2.
  destruct Hrc as [Hrc1 Hrc2]. assert (Hrc1' := Hrc1). to_Q Hrc1'.
  destruct (Z.eq_dec (P mod (2 * 1800)) 1800) as [Htie|Htie].
  - (* a tie: the hours are exact, and so is the product *)
    destruct Hcond as [H9|Hnt]; [|now contradiction Hnt].
    specialize (Hex H9). destruct H9 as [m Hm].
    assert (Hrc0 : 0 < rc).
    { destruct (Z.eq_dec rc 0) as [E|]; [|lia].
      unfold P in Htie. rewrite E, Z.mul_0_r in Htie. discriminate Htie. }
    assert (Hc0 : 0 < 25 * m * rc < 10 ^ 28).
    { change (10 ^ 28) with 10000000000000000000000000000. nia. }
    destruct (fix_exact (ch * rc) (eh + -2) (25 * m * rc) (-6) ltac:(nia) Hc0)
      as (c' & e' & Hf & Hc' & Hv').
    { rewrite HY, Hex, (value_eq (25 * m * rc)), Hm. push_inject.
      change (10 ^ (-6))%Q with (1 # 1000000)%Q. ring. }
    rewrite Hf.
    assert (Hvp : (value (mkDec c' e') == inject_Z P * (1 # 360000))%Q).
    { rewrite Hv', HY, Hex. unfold P. rewrite inject_Z_mult. ring. }
    apply quantize_to; [cbn; lia | | | exact Hk].
    + rewrite Hvp. change (10 ^ 26)%Q with (100000000000000000000000000 # 1)%Q.
      lra.
    + apply round_even_exact; [lia|]. rewrite Hvp.
      change (inject_Z 3600) with 3600%Q. ring.
  - (* no tie: the error of the division and the product is far below
       the gap *)
    destruct (fix_value (ch * rc) (eh + -2) ltac:(nia))
      as (c' & e' & Hf & Hc' & _ & F1 & F2).
    rewrite Hf. rewrite HY in F1, F2.
    set (vh := value (mkDec ch eh)) in *.
    set (irc := inject_Z rc) in *. set (iP := inject_Z P) in *.
    assert (Ha : (vh * irc - iP * (1 # 3600) <= vh * irc * ULP)%Q).
    { rewrite <- HE. unfold ULP in *.
      set (is_ := inject_Z s) in *. clearbody vh irc is_.
      clear - H1 Hrc1'. nra. }
    assert (Hb : (iP * (1 # 3600) - vh * irc <= vh * irc * ULP)%Q).
    { rewrite <- HE. unfold ULP in *.
      set (is_ := inject_Z s) in *. clearbody vh irc is_.
      clear - H2 Hrc1'. nra. }
    assert (Hw : (0 <= vh * irc)%Q) by (clearbody vh irc; clear - Hvh Hrc1'; nra).
    set (W := (vh * irc)%Q) in *.
    pose proof (value_nonneg c' e' ltac:(lia)) as Hvp.
    unfold ULP, HALF_ULP in *.
    apply quantize_to; [cbn; lia | | | exact Hk];
      set (vp := value (mkDec c' e')) in *.
    + change (10 ^ 26)%Q with (100000000000000000000000000 # 1)%Q. lra.
    + apply (round_even_near (vp * 100) P 1800); [lia | exact Htie | |];
        change (inject_Z (2 * 1800)) with 3600%Q; fold iP; lra.
Qed.

(** A base price in hundredths from a count in hundredths. *)
Lemma unit_base (k rc : Z) :
  0 <= k < 10 ^ 12 -> 0 <= rc < 10 ^ 10 ->
  quantize (mul (mkDec k (-2)) (mkDec rc (-2))) (-2)
  = Ok (mkDec (round_half_even (k * rc) 100) (-2)).
Proof.
  intros Hk Hrc.
  change (10 ^ 12) with 1000000000000 in Hk.
  change (10 ^ 10) with 10000000000 in Hrc.
  assert (HP : 0 <= k * rc < 10 ^ 22)
    by (change (10 ^ 22) with 10000000000000000000000; nia).
  rewrite mul_exact;
    [|lia|lia|change (10 ^ 28) with 10000000000000000000000000000;
              change (10 ^ 22) with 10000000000000000000000 in HP; lia].
  pose proof (round_half_even_bounds (k * rc) 100 ltac:(lia) ltac:(lia)) as Hb.
  change (10 ^ 22) with 10000000000000000000000 in HP.
  assert (HPq : (inject_Z (k * rc) < 10000000000000000000000)%Q).
  { destruct HP as [_ HP]. rewrite Zlt_Qlt in HP. exact HP. }
  assert (HP0 : (0 <= inject_Z (k * rc))%Q).
  { destruct HP as [HP _]. rewrite Zle_Qle in HP. exact HP. }
  apply quantize_to.
  - cbn. lia.
  - rewrite value_eq. change (-2 + -2) with (-4).
    change (10 ^ (-4))%Q with (1 # 10000)%Q.
    change (10 ^ 26)%Q with (100000000000000000000000000 # 1)%Q. lra.
  - apply round_even_exact; [lia|].
    rewrite value_eq. change (-2 + -2) with (-4).
    change (10 ^ (-4))%Q with (1 # 10000)%Q.
    change (inject_Z 100) with 100%Q. ring.
  - change (10 ^ 28) with 10000000000000000000000000000. lia.
Qed.

(** The total: base plus fee, both in hundredths. *)
Lemma total_of_base (kb fc : Z) :
  0 <= kb < 10 ^ 27 -> 0 <= fc < 10 ^ 10 ->
  quantize (add (mkDec kb (-2)) (mkDec fc (-2))) (-2)
  = Ok (mkDec (kb + fc) (-2)).
Proof.
  intros Hk Hf.
  change (10 ^ 27) with 1000000000000000000000000000 in Hk.
  change (10 ^ 10) with 10000000000 in Hf.
  assert (H : 0 <= kb + fc < 10 ^ 28)
    by (change (10 ^ 28) with 10000000000000000000000000000; lia).
  rewrite add_exact by lia. now apply quantize_same.
Qed.

Lemma MAX_SECONDS_float : MAX_SECONDS < 2 ^ 53.
Proof. reflexivity. Qed.

(** The hours of a window of [s] whole seconds. *)
Lemma window_hours (b : Booking) (s : Z) :
  aware (start_at b) = aware (end_at b) ->
  micros (end_at b) - micros (start_at b) = s * 10 ^ 6 ->
  0 < s <= MAX_SECONDS ->
  duration_hours b = div (mkDec s 0) (mkDec 3600 0).
Proof.
  intros Ha Hd Hs. unfold duration_hours, datetime_sub.
  rewrite Ha, Bool.eqb_reflx. cbn. rewrite Hd.
  pose proof MAX_SECONDS_float.
  rewrite total_seconds_whole by lia. reflexivity.
Qed.

Lemma money_value (d : Decimal) :
  money d -> d = mkDec (coef d) (-2)
             /\ (value d == inject_Z (coef d) * (1 # 100))%Q.
Proof.
  intros [He _]. destruct d as [c e]. cbn in *. subst e.
  split; [reflexivity | apply value_cents].
Qed.

Lemma round_half_even_one (n : Z) : round_half_even n 1 = n.
Proof.
  rewrite <- (Z.mul_1_r n) at 1. apply round_half_even_exact. reflexivity.
Qed.

(** What the code returns, in hundredths. *)
Lemma calculate_total_cents (v : Vehicle) (b : Booking) (s : Z) :
  aware (start_at b) = aware (end_at b) ->
  micros (end_at b) - micros (start_at b) = s * 10 ^ 6 ->
  0 < s <= MAX_SECONDS ->
  money (hourly_rate v) -> money (daily_rate v) -> money (weekly_rate v) ->
  money (delivery_fee b) ->
  (pricing_unit b = UNIT_HOURLY ->
   (9 | s) \/ (s * coef (hourly_rate v)) mod 3600 <> 1800 ->
   calculate_total v b
   = Ok (mkDec (round_half_even (s * coef (hourly_rate v)) 3600
                + coef (delivery_fee b)) (-2)))
  /\ (pricing_unit b = UNIT_DAILY ->
      calculate_total v b
      = Ok (mkDec (round_half_even
                     (round_half_even s 864 * coef (daily_rate v)) 100
                   + coef (delivery_fee b)) (-2)))
  /\ (pricing_unit b = UNIT_WEEKLY ->
      calculate_total v b
      = Ok (mkDec (round_half_even
                     (round_half_even s 6048 * coef (weekly_rate v)) 100
                   + coef (delivery_fee b)) (-2))).
Proof.
  intros Ha Hd Hs Mh Md Mw Mf.
  pose proof (window_hours b s Ha Hd Hs) as Hh.
  destruct (money_value _ Mh) as [Eh _]. destruct (money_value _ Md) as [Ed _].
  destruct (money_value _ Mw) as [Ew _]. destruct (money_value _ Mf) as [Ef _].
  destruct Mh as [_ Mh]. destruct Md as [_ Md]. destruct Mw as [_ Mw].
  destruct Mf as [_ Mf].
  assert (Hs' := Hs). unfold MAX_SECONDS in Hs'.
  assert (Hcount : forall n, 0 < n ->
            0 <= round_half_even s n < 10 ^ 12).
  { intros n Hn. pose proof (round_half_even_bounds s n Hn ltac:(lia)).
    change (10 ^ 12) with 1000000000000. lia. }
  assert (Hbase : forall k rc, 0 <= k < 10 ^ 12 -> 0 <= rc < 10 ^ 10 ->
            0 <= round_half_even (k * rc) 100 < 10 ^ 27).
  { intros k rc Hk Hrc.
    change (10 ^ 12) with 1000000000000 in Hk.
    change (10 ^ 10) with 10000000000 in Hrc.
    pose proof (round_half_even_bounds (k * rc) 100 ltac:(lia) ltac:(nia)).
    change (10 ^ 27) with 1000000000000000000000000000. nia. }
  split; [|split]; intros Hu; unfold calculate_total; rewrite Hh, Hu.
  - intros Hcond.
    destruct (hourly_base s (coef (hourly_rate v)) Hs Mh Hcond)
      as (hd & Hdiv & Hq).
    rewrite Hdiv. cbn. rewrite Eh, Hq. cbn. rewrite Ef.
    apply total_of_base; [|exact Mf].
    change (10 ^ 10) with 10000000000 in Mh.
    pose proof (round_half_even_bounds (s * coef (hourly_rate v)) 3600
                  ltac:(lia) ltac:(nia)).
    change (10 ^ 27) with 1000000000000000000000000000. nia.
  - destruct (unit_count s 24 Hs ltac:(auto)) as (hd & d & Hdiv & Hdd & Hq).
    change (36 * 24) with 864 in Hq.
    unfold mbind, result_bind. rewrite Hdiv.
    change (String.eqb UNIT_DAILY UNIT_HOURLY) with false.
    change (String.eqb UNIT_DAILY UNIT_DAILY) with true. cbv iota beta.
    rewrite Hdd, Hq, Ed, unit_base by (auto; apply Hcount; lia).
    rewrite Ef. apply total_of_base; [|exact Mf].
    apply Hbase; [apply Hcount; lia | exact Md].
  - destruct (unit_count s 168 Hs ltac:(auto)) as (hd & d & Hdiv & Hdd & Hq).
    change (36 * 168) with 6048 in Hq.
    unfold mbind, result_bind. rewrite Hdiv.
    change (String.eqb UNIT_WEEKLY UNIT_HOURLY) with false.
    change (String.eqb UNIT_WEEKLY UNIT_DAILY) with false. cbv iota beta.
    change (24 * 7) with 168.
    rewrite Hdd, Hq, Ew, unit_base by (auto; apply Hcount; lia).
    rewrite Ef. apply total_of_base; [|exact Mf].
    apply Hbase; [apply Hcount; lia | exact Mw].
Qed.

(** Rounding to two places, when the rational is known as a fraction. *)
Lemma round2_exact (y : Q) (n d : Z) :
  0 < d -> (y * 100 * inject_Z d == inject_Z n)%Q ->
  (Spec.round2 Spec.ROUND_HALF_EVEN y
   == inject_Z (round_half_even n d) * (1 # 100))%Q.
Proof.
  intros Hd Hy. unfold Spec.round2.
  rewrite (round_even_exact (y * 100) n d Hd Hy). field.
Qed.

Lemma spec_hours (b : Booking) (s : Z) :
  micros (end_at b) - micros (start_at b) = s * 10 ^ 6 ->
  (Spec.duration_hours (start_at b) (end_at b) == inject_Z s * (1 # 3600))%Q.
Proof.
  intros Hd. unfold Spec.duration_hours. rewrite Hd, Qmake_Qdiv.
  rewrite inject_Z_mult. change (inject_Z (10 ^ 6)) with 1000000%Q.
  change (inject_Z (Z.pos 1000000)) with 1000000%Q. field.
Qed.

(** What the rule of the specification gives with half-even rounding, in
    hundredths. *)
Lemma spec_total_cents (b : Booking) (s : Z) (hr dr wr fee : Decimal) :
  micros (end_at b) - micros (start_at b) = s * 10 ^ 6 -> 0 < s ->
  money hr -> money dr -> money wr -> money fee ->
  (pricing_unit b = UNIT_HOURLY ->
   exists q,
     Spec.compute_total Spec.ROUND_HALF_EVEN (start_at b) (end_at b)
       (pricing_unit b) (value hr) (value dr) (value wr) (value fee) = Some q
     /\ (q == inject_Z (round_half_even (s * coef hr) 3600 + coef fee)
              * (1 # 100))%Q)
  /\ (pricing_unit b = UNIT_DAILY ->
      exists q,
        Spec.compute_total Spec.ROUND_HALF_EVEN (start_at b) (end_at b)
          (pricing_unit b) (value hr) (value dr) (value wr) (value fee) = Some q
        /\ (q == inject_Z (round_half_even (round_half_even s 864 * coef dr) 100
                           + coef fee) * (1 # 100))%Q)
  /\ (pricing_unit b = UNIT_WEEKLY ->
      exists q,
        Spec.compute_total Spec.ROUND_HALF_EVEN (start_at b) (end_at b)
          (pricing_unit b) (value hr) (value dr) (value wr) (value fee) = Some q
        /\ (q == inject_Z (round_half_even (round_half_even s 6048 * coef wr) 100
                           + coef fee) * (1 # 100))%Q).
Proof.
  intros Hd Hs Mh Md Mw Mf.
  pose proof (spec_hours b s Hd) as Hh.
  destruct (money_value _ Mh) as [_ Vh]. destruct (money_value _ Md) as [_ Vd].
  destruct (money_value _ Mw) as [_ Vw]. destruct (money_value _ Mf) as [_ Vf].
  assert (Hwin : (micros (end_at b) <=? micros (start_at b)) = false)
    by (apply Z.leb_gt; lia).
  split; [|split]; intros Hu; unfold Spec.compute_total;
    rewrite Hwin, Hu; cbn [String.eqb Ascii.eqb Bool.eqb UNIT_HOURLY UNIT_DAILY
                             UNIT_WEEKLY]; cbv zeta;
    eexists; (split; [reflexivity|]).
  - rewrite (round2_exact _ (round_half_even (s * coef hr) 3600 + coef fee) 1);
      [now rewrite round_half_even_one | lia |].
    rewrite (round2_exact _ (s * coef hr) 3600); [|lia|].
    + rewrite Vf. push_inject. ring.
    + rewrite Hh, Vh. push_inject. ring.
  - rewrite (round2_exact _
               (round_half_even (round_half_even s 864 * coef dr) 100
                + coef fee) 1);
      [now rewrite round_half_even_one | lia |].
    rewrite (round2_exact _ (round_half_even s 864 * coef dr) 100); [|lia|].
    + rewrite Vf. push_inject. ring.
    + rewrite (round2_exact _ s 864); [|lia|].
      * rewrite Vd. push_inject. ring.
      * rewrite Hh. unfold Qdiv. push_inject. field.
  - rewrite (round2_exact _
               (round_half_even (round_half_even s 6048 * coef wr) 100
                + coef fee) 1);
      [now rewrite round_half_even_one | lia |].
    rewrite (round2_exact _ (round_half_even s 6048 * coef wr) 100); [|lia|].
    + rewrite Vf. push_inject. ring.
    + rewrite (round2_exact _ s 6048); [|lia|].
      * rewrite Vw. push_inject. ring.
      * rewrite Hh. unfold Qdiv. push_inject. field.
Qed.

(** C1, as the code has it: for a window of a whole number of seconds and
    money fields as the models declare them, [calculate_total] follows the
    rule of the specification with every rounding made half-even (the
    default of the decimal context) instead of half-up: for the daily and
    the weekly unit always; for the hourly unit whenever the window is a
    multiple of nine seconds (its hours are then a finite decimal) or hours
    times rate is not exactly halfway between two hundredths. *)
Theorem calculate_total_half_even (v : Vehicle) (b : Booking) (s : Z) :
  aware (start_at b) = aware (end_at b) ->
  micros (end_at b) - micros (start_at b) = s * 10 ^ 6 ->
  0 < s <= MAX_SECONDS ->
  money (hourly_rate v) -> money (daily_rate v) -> money (weekly_rate v) ->
  money (delivery_fee b) ->
  In (pricing_unit b) UNIT_CHOICES ->
  (pricing_unit b = UNIT_HOURLY ->
   (9 | s) \/ (s * coef (hourly_rate v)) mod 3600 <> 1800) ->
  exists total q,
    calculate_total v b = Ok total
    /\ dexp total = -2
    /\ Spec.compute_total Spec.ROUND_HALF_EVEN (start_at b) (end_at b)
         (pricing_unit b) (value (hourly_rate v)) (value (daily_rate v))
         (value (weekly_rate v)) (value (delivery_fee b)) = Some q
    /\ (value total == q)%Q.
Proof.
  intros Ha Hd Hs Mh Md Mw Mf Hu Hcond.
  destruct (calculate_total_cents v b s Ha Hd Hs Mh Md Mw Mf)
    as (Ch & Cd & Cw).
  destruct (spec_total_cents b s _ _ _ _ Hd ltac:(lia) Mh Md Mw Mf)
    as (Sh & Sd & Sw).
  simpl in Hu. destruct Hu as [Hu|[Hu|[Hu|[]]]]; symmetry in Hu.
  - destruct (Sh Hu) as (q & Hq & Eq).
    eexists _, q. split; [exact (Ch Hu (Hcond Hu))|]. split; [reflexivity|].
    split; [exact Hq|]. now rewrite Eq, value_cents.
  - destruct (Sd Hu) as (q & Hq & Eq).
    eexists _, q. split; [exact (Cd Hu)|]. split; [reflexivity|].
    split; [exact Hq|]. now rewrite Eq, value_cents.
  - destruct (Sw Hu) as (q & Hq & Eq).
    eexists _, q. split; [exact (Cw Hu)|]. split; [reflexivity|].
    split; [exact Hq|]. now rewrite Eq, value_cents.
Qed.

End PricingFacts.

(** The rule with half-up rounding in exact arithmetic is not what the code
    computes.  Three hours at 1000.00 a day: the code counts 0.12 days and
    returns 120.00, the rule 0.13 days and 130.00.  3604 seconds at 85.50 an
    hour: the code returns 85.59, the rule 85.60 under either rounding (the
    hours are held to 28 digits).  0.3 seconds at 180.00 an hour: the code
    returns 0.01, the rule 0.02 under either rounding (the seconds pass
    through a binary float).  The totals of the rule are fractions in lowest
    terms: 428 # 5 is 85.60 and 1 # 50 is 0.02. *)
Lemma half_up_not_followed :
  calculate_total (rated_vehicle 100000)
    (timed_booking (3 * 3600 * 10 ^ 6) UNIT_DAILY) = Ok (mkDec 12000 (-2))
  /\ spec_total Spec.ROUND_HALF_UP (3 * 3600 * 10 ^ 6) UNIT_DAILY 100000
     = Some 130%Q
  /\ spec_total Spec.ROUND_HALF_EVEN (3 * 3600 * 10 ^ 6) UNIT_DAILY 100000
     = Some 120%Q
  /\ calculate_total (rated_vehicle 8550)
       (timed_booking (3604 * 10 ^ 6) UNIT_HOURLY) = Ok (mkDec 8559 (-2))
  /\ spec_total Spec.ROUND_HALF_UP (3604 * 10 ^ 6) UNIT_HOURLY 8550
     = Some (428 # 5)%Q
  /\ spec_total Spec.ROUND_HALF_EVEN (3604 * 10 ^ 6) UNIT_HOURLY 8550
     = Some (428 # 5)%Q
  /\ calculate_total (rated_vehicle 18000) (timed_booking 300000 UNIT_HOURLY)
     = Ok (mkDec 1 (-2))
  /\ spec_total Spec.ROUND_HALF_UP 300000 UNIT_HOURLY 18000 = Some (1 # 50)%Q
  /\ spec_total Spec.ROUND_HALF_EVEN 300000 UNIT_HOURLY 18000
     = Some (1 # 50)%Q.
Proof. repeat split; vm_compute; reflexivity. Qed.

Lemma calculate_total_half_even_witness :
  (exists total q,
     calculate_total (rated_vehicle 8550) (timed_booking (7 * 10 ^ 6) UNIT_HOURLY)
     = Ok total
     /\ dexp total = -2
     /\ Spec.compute_total Spec.ROUND_HALF_EVEN (mkDatetime 0 true)
          (mkDatetime (7 * 10 ^ 6) true) UNIT_HOURLY (value (mkDec 8550 (-2)))
          (value (mkDec 8550 (-2))) (value (mkDec 8550 (-2)))
          (value (mkDec 0 (-2))) = Some q
     /\ (value total == q)%Q)
  /\ (exists total q,
        calculate_total (rated_vehicle 100000)
          (timed_booking (3 * 3600 * 10 ^ 6) UNIT_DAILY) = Ok total
        /\ dexp total = -2
        /\ Spec.compute_total Spec.ROUND_HALF_EVEN (mkDatetime 0 true)
             (mkDatetime (3 * 3600 * 10 ^ 6) true) UNIT_DAILY
             (value (mkDec 100000 (-2))) (value (mkDec 100000 (-2)))
             (value (mkDec 100000 (-2))) (value (mkDec 0 (-2))) = Some q
        /\ (value total == q)%Q).
Proof.
  split.
  - apply (calculate_total_half_even (rated_vehicle 8550)
             (timed_booking (7 * 10 ^ 6) UNIT_HOURLY) 7).
    + reflexivity.
    + reflexivity.
    + unfold MAX_SECONDS. lia.
    + split; [reflexivity | cbn; lia].
    + split; [reflexivity | cbn; lia].
    + split; [reflexivity | cbn; lia].
    + split; [reflexivity | cbn; lia].
    + simpl. auto.
    + intros _. right. vm_compute. discriminate.
  - apply (calculate_total_half_even (rated_vehicle 100000)
             (timed_booking (3 * 3600 * 10 ^ 6) UNIT_DAILY) 10800).
    + reflexivity.
    + reflexivity.
    + unfold MAX_SECONDS. lia.
    + split; [reflexivity | cbn; lia].
    + split; [reflexivity | cbn; lia].
    + split; [reflexivity | cbn; lia].
    + split; [reflexivity | cbn; lia].
    + simpl. auto.
    + intros H. discriminate H.
Defined.

(** * Further properties of the code *)

(** ** What [save] writes *)

Section SaveFacts.

Variable fv : Booking -> list verror.

Lemma clean_Ok_inv (b : Booking) :
  clean b = Ok tt ->
  aware (start_at b) = aware (end_at b)
  /\ micros (start_at b) < micros (end_at b).
Proof.
  unfold clean, datetime_ge.
  destruct (Bool.eqb (aware (start_at b)) (aware (end_at b))) eqn:Ha;
    simpl; [|discriminate].
  apply Bool.eqb_prop in Ha.
  destruct (Z.leb_spec (micros (end_at b)) (micros (start_at b)));
    [discriminate|]. intros _. split; [exact Ha | lia].
Qed.

Lemma validate_choice_nil (field value : string) (choices : list string) :
  validate_choice field value choices = [] ->
  value <> ""%string /\ In value choices.
Proof.
  unfold validate_choice.
  destruct (String.eqb_spec value ""); [discriminate|].
  destruct (in_choices value choices) eqn:Hc; [|discriminate].
  intros _. split; [assumption | now apply in_choices_true].
Qed.

Lemma clean_fields_nil_inv (db : DB) (b : Booking) :
  clean_fields fv db b = [] ->
  In (pricing_unit b) UNIT_CHOICES /\ In (status b) STATUS_CHOICES
  /\ is_Some (vehicles db !! vehicle b) /\ fv b = [].
Proof.
  unfold clean_fields. intros H.
  apply app_eq_nil in H. destruct H as [Hu H].
  apply app_eq_nil in H. destruct H as [Hs H].
  apply app_eq_nil in H. destruct H as [Hv Hf].
  apply validate_choice_nil in Hu. apply validate_choice_nil in Hs.
  split; [apply Hu|]. split; [apply Hs|]. split; [|exact Hf].
  destruct (vehicles db !! vehicle b); [eauto | discriminate].
Qed.

Lemma validate_unique_nil (db : DB) (pk : option nat) (b : Booking) :
  validate_unique db pk b = [] <->
  forall k r, bookings db !! k = Some r -> booking_id r = booking_id b ->
              Some k = pk.
Proof.
  unfold validate_unique.
  destruct (exists_row _ _) eqn:He.
  - split; [discriminate|]. intros H. exfalso.
    apply exists_row_true in He. destruct He as (k & r & Hk & Hf).
    apply andb_true_iff in Hf. destruct Hf as [Hid Hne].
    apply String.eqb_eq in Hid. specialize (H k r Hk Hid).
    rewrite bool_decide_eq_true_2 in Hne by exact H. discriminate.
  - split; [|reflexivity]. intros _ k r Hk Hid.
    destruct (decide (Some k = pk)) as [Heq|Hne]; [exact Heq|]. exfalso.
    assert (Ht : exists_row
                   (fun k r => String.eqb (booking_id r) (booking_id b)
                               && negb (bool_decide (Some k = pk)))
                   (bookings db) = true).
    { apply exists_row_true. exists k, r. split; [exact Hk|].
      rewrite Hid, String.eqb_refl, bool_decide_eq_false_2 by exact Hne.
      reflexivity. }
    congruence.
Qed.

Lemma full_clean_Ok_inv (db : DB) (pk : option nat) (b : Booking) :
  full_clean fv db pk b = Ok tt ->
  clean b = Ok tt /\ clean_fields fv db b = []
  /\ validate_unique db pk b = [].
Proof.
  unfold full_clean.
  destruct (clean b) as [[]|e]; [|destruct e; discriminate].
  destruct (clean_fields fv db b) as [|x l]; [|discriminate].
  simpl. destruct (validate_unique db pk b); [auto | discriminate].
Qed.

Lemma full_clean_Ok_intro (db : DB) (pk : option nat) (b : Booking) :
  clean b = Ok tt -> clean_fields fv db b = [] ->
  validate_unique db pk b = [] ->
  full_clean fv db pk b = Ok tt.
Proof. intros Hc Hf Hu. unfold full_clean. now rewrite Hc, Hf, Hu. Qed.

(** What [full_clean] and [calculate_total] have established when [save]
    writes. *)
Lemma save_Ok_valid (w : env) (pk : option nat) (b : Booking)
    (db db' : DB) (k : nat) (b' : Booking) :
  save fv w pk b db = Ok (db', k, b') ->
  valid_booking b'
  /\ price_in_sync db' b'
  /\ (forall k' r, bookings db' !! k' = Some r ->
        booking_id r = booking_id b' -> k' = k)
  /\ same_terms b b' /\ status b' = status b
  /\ (booking_id b <> ""%string -> booking_id b' = booking_id b).
Proof.
  intros H. apply save_Ok_inv in H. cbv zeta in H.
  set (b1 := if String.eqb (booking_id b) "" then _ else b) in H.
  destruct H as (Hs & He & Hfc & v & total & Hv & Hct & Hb' & Hk & Hb & Hvs & _).
  apply full_clean_Ok_inv in Hfc. destruct Hfc as (Hc & Hf & Hu).
  apply clean_Ok_inv in Hc. destruct Hc as [_ Hlt].
  apply clean_fields_nil_inv in Hf. destruct Hf as (Hunit & Hst & _ & _).
  assert (Hterms : same_terms b b1 /\ status b1 = status b
                   /\ booking_id b1 <> ""%string
                   /\ (booking_id b <> ""%string -> booking_id b1 = booking_id b)).
  { unfold b1. destruct (String.eqb_spec (booking_id b) "") as [Hid|Hid].
    - split; [repeat split|]. split; [reflexivity|].
      split; [apply generate_id_nonempty | congruence].
    - split; [repeat split|]. auto. }
  destruct Hterms as (Ht & Hst1 & Hid1 & Hkeep).
  destruct Ht as (Hc1 & Hv1 & Hs1 & He1 & Hp1 & Hd1 & Hfee1 & Hu1).
  subst b'. cbn [booking_id start_at end_at pricing_unit status customer
                 vehicle pickup_location dropoff_location delivery_fee
                 set_total_price].
  split; [|split; [|split; [|split; [|split]]]].
  - unfold valid_booking. cbn [booking_id start_at end_at pricing_unit status
                               set_total_price].
    split; [exact Hid1|]. split; [rewrite Hs1; exact Hs|].
    split; [rewrite He1; exact He|]. auto.
  - exists v. cbn [vehicle set_total_price total_price].
    rewrite Hvs, Hv1. split; [exact Hv|]. rewrite <- Hct.
    apply calculate_total_ext; reflexivity.
  - intros k' r Hk' Hid. rewrite Hb in Hk'.
    destruct (decide (k' = k)) as [->|Hne]; [reflexivity|].
    rewrite lookup_insert_ne in Hk' by congruence.
    pose proof (proj1 (validate_unique_nil db pk b1) Hu k' r Hk' Hid) as Hpk.
    subst pk k. congruence.
  - repeat split; assumption.
  - exact Hst1.
  - exact Hkeep.
Qed.

(** The tables after a successful [save]. *)
Lemma save_Ok_db (w : env) (pk : option nat) (b : Booking) (db db' : DB)
    (k : nat) (b' : Booking) :
  save fv w pk b db = Ok (db', k, b') ->
  db' = with_bookings (<[k := b']> (bookings db))
          (match pk with
           | Some _ => next_booking db
           | None => S (next_booking db)
           end) db.
Proof.
  unfold save. destruct (_ || _); [discriminate|].
  destruct (full_clean fv db pk _) as [[]|e]; [|discriminate].
  cbn [mbind result_bind].
  destruct (vehicles db !! _) as [v|]; [|discriminate].
  cbn [mbind result_bind].
  destruct (calculate_total v _) as [total|e]; [|discriminate].
  cbn [mbind result_bind].
  destruct pk; intros H; inversion H; subst; reflexivity.
Qed.

(** X1: every booking that [save] writes has an identifier that no other
    row carries, aware timestamps, a window that is not empty, a known
    pricing unit and status, and as price what [calculate_total] gives at the
    current rates of its vehicle; but for identifier and price it is the
    instance that was saved. *)
Theorem save_writes_valid_booking (w : env) (pk : option nat) (b : Booking)
    (db db' : DB) (k : nat) (b' : Booking) :
  save fv w pk b db = Ok (db', k, b') ->
  bookings db' !! k = Some b'
  /\ valid_booking b'
  /\ price_in_sync db' b'
  /\ (forall k' r, bookings db' !! k' = Some r ->
        booking_id r = booking_id b' -> k' = k)
  /\ same_terms b b' /\ status b' = status b
  /\ (booking_id b <> ""%string -> booking_id b' = booking_id b).
Proof.
  intros H. split; [|exact (save_Ok_valid w pk b db db' k b' H)].
  apply save_Ok_db in H. subst db'. apply lookup_insert_eq.
Qed.

End SaveFacts.

(** ** What a request does to the tables *)

Section Effects.

Variable fv : Booking -> list verror.

Lemma get_payment_Some (db : DB) (r : string) (k : nat) (p : Payment) :
  get_payment db r = Ok (Some (k, p)) ->
  payments db !! k = Some p /\ reference_id p = r.
Proof.
  unfold get_payment.
  destruct (filter_rows _ _) as [|kp [|kp' l]] eqn:Hf; try discriminate.
  intros H. injection H as ->.
  assert (Hin : In (k, p) (filter_rows (fun _ p => String.eqb (reference_id p) r)
                             (payments db)))
    by (rewrite Hf; now left).
  unfold filter_rows in Hin. apply filter_In in Hin. destruct Hin as [Hin Hr].
  split; [|now apply String.eqb_eq in Hr].
  apply elem_of_map_to_list, list_elem_of_In, Hin.
Qed.

(** A status change followed by [save] writes nothing or is that [save]. *)
Lemma save_and_respond_effect (w : env) (k : nat) (b : Booking)
    (resp : response) (db : DB) :
  fst (save_and_respond fv w k b resp db) = db
  \/ exists b',
       save fv w (Some k) b db = Ok (fst (save_and_respond fv w k b resp db), k, b').
Proof.
  unfold save_and_respond.
  destruct (save fv w (Some k) b db) as [[[db' k'] b2]|e] eqn:Hs; [|now left].
  right. exists b2. cbn [fst].
  apply save_Ok_inv in Hs. cbv zeta in Hs.
  destruct Hs as (_ & _ & _ & v & total & _ & _ & _ & -> & _). reflexivity.
Qed.

(** The tail of the webhook writes the payment and then nothing, or
    saves the booking of the payment as confirmed. *)
Lemma webhook_record_effect (w : env) (d : webhook_data) (k : nat)
    (p : Payment) (db : DB) :
  exists db1,
    bookings db1 = bookings db /\ vehicles db1 = vehicles db
    /\ next_booking db1 = next_booking db
    /\ (fst (webhook_record fv w d k p db) = db1
        \/ exists b0 b',
             bookings db !! payment_booking p = Some b0
             /\ ~ (exists s, truthy (w_status d) = Some s /\ s <> PAYMENT_SUCCESS)
             /\ save fv w (Some (payment_booking p))
                  (set_status STATUS_CONFIRMED b0) db1
                = Ok (fst (webhook_record fv w d k p db), payment_booking p, b')).
Proof.
  unfold webhook_record.
  set (st := match truthy (w_status d) with Some s => s | None => payment_status p end).
  set (db1 := with_payments _ _ db).
  exists db1. do 3 (split; [reflexivity|]).
  destruct (String.eqb_spec st PAYMENT_SUCCESS) as [Hst|Hst]; [|now left].
  cbn [payment_booking].
  destruct (bookings db1 !! payment_booking p) as [b0|] eqn:H0; [|now left].
  destruct (save_and_respond_effect w (payment_booking p)
              (set_status STATUS_CONFIRMED b0) (Detail 200 "Webhook processed.")
              db1) as [->|(b' & Hs)]; [now left|].
  right. exists b0, b'. split; [exact H0|]. split; [|exact Hs].
  intros (s & Hs1 & Hs2). unfold st in Hst. rewrite Hs1 in Hst. contradiction.
Qed.

(** The booking table after a request that is no deletion: as before, or
    after one [save], of a new row or of the instance that the request makes
    of an existing row. *)
Lemma handle_effect (w : env) (r : request) (db : DB) :
  is_deletion r = false ->
  (bookings (fst (handle fv w r db)) = bookings db
   /\ next_booking (fst (handle fv w r db)) = next_booking db)
  \/ (exists pk b db1 k b',
        save fv w pk b db1 = Ok (fst (handle fv w r db), k, b')
        /\ bookings db1 = bookings db /\ vehicles db1 = vehicles db
        /\ next_booking db1 = next_booking db
        /\ ((pk = None /\ exists user d, r = Create user d)
            \/ exists b0, pk = Some k /\ bookings db !! k = Some b0
                          /\ hands_to_save r k b0 b)).
Proof.
  intros Hdel.
  destruct r as [user d|user k|user k|user k|d|user vid v'|user k p|user k
                |user vid]; try discriminate; cbn [handle].
  - unfold perform_create.
    destruct (negb _); [left; auto|].
    destruct (vehicles db !! d_vehicle d) as [v0|]; [|left; auto].
    destruct (exists_row _ _); [left; auto|].
    destruct (save fv w None _ db) as [[[db' k'] b2]|e] eqn:Hs;
      [|left; auto].
    right. eexists None, _, db, k', b2. cbn [fst].
    split; [exact Hs|]. do 3 (split; [reflexivity|]). left. eauto.
  - unfold cancel.
    destruct (negb _); [left; auto|].
    destruct (get_customer_booking db user k) as [b0|] eqn:Hg; [|left; auto].
    apply get_customer_booking_Some in Hg.
    destruct (String.eqb_spec (status b0) STATUS_CANCELLED) as [Hst|Hst];
      [left; auto|].
    destruct (save_and_respond_effect w k (set_status STATUS_CANCELLED b0)
                (Detail 200 "Booking cancelled.") db) as [->|(b' & Hs)];
      [left; auto|].
    right. eexists (Some k), _, db, k, b'. split; [exact Hs|].
    do 3 (split; [reflexivity|]). right. exists b0. cbn. auto.
  - unfold approve.
    destruct (negb _); [left; auto|].
    destruct (get_owner_booking db user k) as [b0|] eqn:Hg; [|left; auto].
    apply get_owner_booking_Some in Hg.
    destruct (save_and_respond_effect w k (set_status STATUS_CONFIRMED b0)
                (Detail 200 "Booking confirmed.") db) as [->|(b' & Hs)];
      [left; auto|].
    right. eexists (Some k), _, db, k, b'. split; [exact Hs|].
    do 3 (split; [reflexivity|]). right. exists b0. cbn. auto.
  - unfold reject.
    destruct (negb _); [left; auto|].
    destruct (get_owner_booking db user k) as [b0|] eqn:Hg; [|left; auto].
    apply get_owner_booking_Some in Hg.
    destruct (save_and_respond_effect w k (set_status STATUS_CANCELLED b0)
                (Detail 200 "Booking rejected.") db) as [->|(b' & Hs)];
      [left; auto|].
    right. eexists (Some k), _, db, k, b'. split; [exact Hs|].
    do 3 (split; [reflexivity|]). right. exists b0. cbn. auto.
  - assert (Hwr : forall k p db0,
               bookings db0 = bookings db -> vehicles db0 = vehicles db ->
               next_booking db0 = next_booking db ->
               (bookings (fst (webhook_record fv w d k p db0)) = bookings db
                /\ next_booking (fst (webhook_record fv w d k p db0))
                   = next_booking db)
               \/ (exists pk b db1 k' b',
                     save fv w pk b db1
                     = Ok (fst (webhook_record fv w d k p db0), k', b')
                     /\ bookings db1 = bookings db /\ vehicles db1 = vehicles db
                     /\ next_booking db1 = next_booking db
                     /\ ((pk = None /\ exists user d0, Webhook d = Create user d0)
                         \/ exists b0, pk = Some k' /\ bookings db !! k' = Some b0
                                       /\ hands_to_save (Webhook d) k' b0 b))).
    { intros k p db0 Hb Hv Hn.
      destruct (webhook_record_effect w d k p db0)
        as (db1 & Hb1 & Hv1 & Hn1 & [->|(b0 & b' & H0 & Hst & Hs)]).
      - left. split; congruence.
      - right. eexists (Some _), _, db1, _, b'. split; [exact Hs|].
        split; [congruence|]. split; [congruence|]. split; [congruence|].
        right. exists b0. split; [reflexivity|]. split; [congruence|].
        cbn. auto. }
    unfold webhook.
    destruct (match truthy (w_reference_id d) with
              | Some r => get_payment db r
              | None => Ok None
              end) as [[[k p]|]|e]; [| |left; auto].
    + now apply Hwr.
    + destruct (w_booking_id d) as [bid|]; [|left; auto].
      destruct (bookings db !! bid) as [b0|]; [|left; auto].
      now apply Hwr.
  - unfold update_vehicle.
    destruct (vehicles db !! vid) as [v|]; [|left; auto].
    destruct (negb (is_active v)); [left; auto|].
    destruct (negb _); left; auto.
  - unfold update_booking.
    destruct (negb _); [left; auto|].
    destruct (get_customer_booking db user k) as [b0|] eqn:Hg; [|left; auto].
    apply get_customer_booking_Some in Hg.
    destruct (match p_vehicle p with Some _ => _ | None => false end);
      [left; auto|].
    destruct (save fv w (Some k) (apply_patch p b0) db) as [[[db' k'] b2]|e]
      eqn:Hs; [|left; auto].
    assert (k' = k) as ->.
    { apply save_Ok_inv in Hs. cbv zeta in Hs.
      destruct Hs as (_ & _ & _ & v & total & _ & _ & _ & -> & _). reflexivity. }
    right. eexists (Some k), _, db, k, b2. cbn [fst]. split; [exact Hs|].
    do 3 (split; [reflexivity|]). right. exists b0. cbn. auto.
Qed.

(** What a deletion leaves: every remaining row was there, with its
    vehicle, and a row goes only with its booking or its vehicle. *)
Lemma handle_delete (w : env) (r : request) (db : DB) :
  is_deletion r = true ->
  next_booking (fst (handle fv w r db)) = next_booking db
  /\ next_payment (fst (handle fv w r db)) = next_payment db
  /\ (forall k b, bookings (fst (handle fv w r db)) !! k = Some b ->
        bookings db !! k = Some b
        /\ vehicles (fst (handle fv w r db)) !! vehicle b
           = vehicles db !! vehicle b)
  /\ (forall k p, payments (fst (handle fv w r db)) !! k = Some p ->
        payments db !! k = Some p)
  /\ (forall k b, bookings db !! k = Some b ->
        bookings (fst (handle fv w r db)) !! k = Some b
        \/ (bookings (fst (handle fv w r db)) !! k = None
            /\ deletes_row r k b)).
Proof.
  intros Hdel.
  destruct r as [| | | | | | |user pk|user vid]; try discriminate;
    cbn [handle].
  - unfold destroy_booking.
    destruct (negb _); [cbn [fst]; repeat split; auto|].
    destruct (get_customer_booking db user pk) as [b0|];
      [|cbn [fst]; repeat split; auto].
    cbn [fst next_booking next_payment bookings payments vehicles].
    split; [reflexivity|]. split; [reflexivity|]. split; [|split].
    + intros k b Hk. apply lookup_delete_Some in Hk. split; [apply Hk | reflexivity].
    + intros k p Hk. apply map_lookup_filter_Some in Hk. apply Hk.
    + intros k b Hk. destruct (decide (k = pk)) as [->|Hne].
      * right. split; [apply lookup_delete_eq | reflexivity].
      * left. now rewrite lookup_delete_ne by congruence.
  - unfold destroy_vehicle.
    destruct (vehicles db !! vid) as [v|]; [|cbn [fst]; repeat split; auto].
    destruct (negb (is_active v)); [cbn [fst]; repeat split; auto|].
    destruct (negb _); [cbn [fst]; repeat split; auto|].
    cbn [fst next_booking next_payment bookings payments vehicles].
    split; [reflexivity|]. split; [reflexivity|]. split; [|split].
    + intros k b Hk. apply map_lookup_filter_Some in Hk.
      destruct Hk as [Hk Hf]. cbn [snd] in Hf. split; [exact Hk|].
      unfold of_vehicle in Hf. apply Nat.eqb_neq in Hf.
      now rewrite lookup_delete_ne by congruence.
    + intros k p Hk. apply map_lookup_filter_Some in Hk. apply Hk.
    + intros k b Hk. destruct (of_vehicle vid b) eqn:Hf.
      * right. split.
        -- apply map_lookup_filter_None. right. intros b1 Hb1 Hf1.
           cbn [snd] in Hf1. congruence.
        -- cbn. unfold of_vehicle in Hf. apply Nat.eqb_eq in Hf. congruence.
      * left. apply map_lookup_filter_Some. auto.
Qed.

(** No request but the deletion of a vehicle removes a vehicle, and only
    a change of a rate card rewrites one. *)
Lemma handle_vehicles (w : env) (r : request) (db : DB) :
  is_deletion r = false ->
  (changes_rates r = false -> vehicles (fst (handle fv w r db)) = vehicles db)
  /\ (forall k, is_Some (vehicles db !! k) ->
                is_Some (vehicles (fst (handle fv w r db)) !! k)).
Proof.
  intros Hdel.
  destruct (changes_rates r) eqn:Hr.
  - destruct r as [| | | | |user vid v'| | |]; try discriminate.
    split; [discriminate|]. intros k Hk. cbn [handle]. unfold update_vehicle.
    destruct (vehicles db !! vid) as [v|]; [|exact Hk].
    destruct (negb (is_active v)); [exact Hk|].
    destruct (negb _); [exact Hk|]. cbn [fst vehicles with_vehicles].
    destruct (decide (k = vid)) as [->|Hne].
    + rewrite lookup_insert_eq. eauto.
    + now rewrite lookup_insert_ne by congruence.
  - assert (Hv : vehicles (fst (handle fv w r db)) = vehicles db);
      [|split; [intros _; exact Hv | intros k0 Hk; now rewrite Hv]].
    destruct (handle_effect w r db Hdel)
      as [[Hb Hn]|(pk & b & db1 & k & b' & Hs & _ & Hv & _)].
    + clear Hb Hn.
      destruct r as [user d|user k|user k|user k|d|user vid v'|user k p|user k
                    |user vid]; try discriminate; cbn [handle].
      * unfold perform_create.
        destruct (negb _); [reflexivity|].
        destruct (vehicles db !! d_vehicle d) as [v0|]; [|reflexivity].
        destruct (exists_row _ _); [reflexivity|].
        destruct (save fv w None _ db) as [[[db' k'] b2]|e] eqn:Hs;
          [|reflexivity].
        apply save_Ok_db in Hs. now subst db'.
      * unfold cancel.
        destruct (negb _); [reflexivity|].
        destruct (get_customer_booking db user k) as [b0|]; [|reflexivity].
        destruct (String.eqb _ _); [reflexivity|].
        destruct (save_and_respond_effect w k (set_status STATUS_CANCELLED b0)
                    (Detail 200 "Booking cancelled.") db) as [->|(b' & Hs)];
          [reflexivity|].
        apply save_Ok_db in Hs. now rewrite Hs.
      * unfold approve.
        destruct (negb _); [reflexivity|].
        destruct (get_owner_booking db user k) as [b0|]; [|reflexivity].
        destruct (save_and_respond_effect w k (set_status STATUS_CONFIRMED b0)
                    (Detail 200 "Booking confirmed.") db) as [->|(b' & Hs)];
          [reflexivity|].
        apply save_Ok_db in Hs. now rewrite Hs.
      * unfold reject.
        destruct (negb _); [reflexivity|].
        destruct (get_owner_booking db user k) as [b0|]; [|reflexivity].
        destruct (save_and_respond_effect w k (set_status STATUS_CANCELLED b0)
                    (Detail 200 "Booking rejected.") db) as [->|(b' & Hs)];
          [reflexivity|].
        apply save_Ok_db in Hs. now rewrite Hs.
      * assert (Hwr : forall k p db0, vehicles db0 = vehicles db ->
                   vehicles (fst (webhook_record fv w d k p db0)) = vehicles db).
        { intros k p db0 H0.
          destruct (webhook_record_effect w d k p db0)
            as (db1 & _ & Hv1 & _ & [->|(b0 & b' & _ & _ & Hs)]);
            [congruence|].
          apply save_Ok_db in Hs. rewrite Hs. cbn [vehicles with_bookings].
          congruence. }
        unfold webhook.
        destruct (match truthy (w_reference_id d) with
                  | Some r => get_payment db r
                  | None => Ok None
                  end) as [[[k p]|]|e]; [| |reflexivity].
        -- now apply Hwr.
        -- destruct (w_booking_id d) as [bid|]; [|reflexivity].
           destruct (bookings db !! bid) as [b0|]; [|reflexivity].
           now apply Hwr.
      * unfold update_booking.
        destruct (negb _); [reflexivity|].
        destruct (get_customer_booking db user k) as [b0|]; [|reflexivity].
        destruct (match p_vehicle p with Some _ => _ | None => false end);
          [reflexivity|].
        destruct (save fv w (Some k) _ db) as [[[db' k'] b2]|e] eqn:Hs;
          [|reflexivity].
        apply save_Ok_db in Hs. now subst db'.
    + apply save_Ok_db in Hs. rewrite Hs. exact Hv.
Qed.

(** The payment keys stay below the counter. *)
Lemma handle_payments (w : env) (r : request) (db : DB) :
  (forall k p, payments db !! k = Some p -> (k < next_payment db)%nat) ->
  forall k p, payments (fst (handle fv w r db)) !! k = Some p ->
              (k < next_payment (fst (handle fv w r db)))%nat.
Proof.
  intros Hinv.
  destruct (is_deletion r) eqn:Hdel.
  { destruct (handle_delete w r db Hdel) as (_ & Hn & _ & Hp & _).
    intros k p Hk. rewrite Hn. exact (Hinv k p (Hp k p Hk)). }
  assert (Hsr : forall k b resp db1,
             (forall k p, payments db1 !! k = Some p -> (k < next_payment db1)%nat) ->
             forall k0 p,
               payments (fst (save_and_respond fv w k b resp db1)) !! k0 = Some p ->
               (k0 < next_payment (fst (save_and_respond fv w k b resp db1)))%nat).
  { intros k b resp db1 H1.
    destruct (save_and_respond_effect w k b resp db1) as [->|(b' & Hs)];
      [exact H1|].
    apply save_Ok_db in Hs. rewrite Hs. exact H1. }
  assert (Hwr : forall d k p db1,
             (forall k p, payments db1 !! k = Some p -> (k < next_payment db1)%nat) ->
             (k < next_payment db1)%nat ->
             forall k0 p0,
               payments (fst (webhook_record fv w d k p db1)) !! k0 = Some p0 ->
               (k0 < next_payment (fst (webhook_record fv w d k p db1)))%nat).
  { intros d k p db1 H1 Hk. unfold webhook_record.
    set (p' := mkPayment _ _ _ _ _).
    assert (H2 : forall k0 p0,
               payments (with_payments (<[k := p']> (payments db1))
                           (next_payment db1) db1) !! k0 = Some p0 ->
               (k0 < next_payment (with_payments (<[k := p']> (payments db1))
                                     (next_payment db1) db1))%nat).
    { intros k0 p0. cbn [payments next_payment with_payments].
      destruct (decide (k0 = k)) as [->|Hne]; [intros _; exact Hk|].
      rewrite lookup_insert_ne by congruence. apply H1. }
    destruct (String.eqb _ PAYMENT_SUCCESS); [|exact H2].
    destruct (bookings _ !! _) as [b0|]; [|exact H2].
    now apply Hsr. }
  destruct r as [user d|user k|user k|user k|d|user vid v'|user k p|user k
                |user vid]; try discriminate; cbn [handle].
  - unfold perform_create.
    destruct (negb _); [exact Hinv|].
    destruct (vehicles db !! d_vehicle d) as [v0|]; [|exact Hinv].
    destruct (exists_row _ _); [exact Hinv|].
    destruct (save fv w None _ db) as [[[db' k'] b2]|e] eqn:Hs; [|exact Hinv].
    apply save_Ok_db in Hs. subst db'. exact Hinv.
  - unfold cancel.
    destruct (negb _); [exact Hinv|].
    destruct (get_customer_booking db user k) as [b0|]; [|exact Hinv].
    destruct (String.eqb _ _); [exact Hinv|]. now apply Hsr.
  - unfold approve.
    destruct (negb _); [exact Hinv|].
    destruct (get_owner_booking db user k) as [b0|]; [|exact Hinv].
    now apply Hsr.
  - unfold reject.
    destruct (negb _); [exact Hinv|].
    destruct (get_owner_booking db user k) as [b0|]; [|exact Hinv].
    now apply Hsr.
  - unfold webhook.
    destruct (match truthy (w_reference_id d) with
              | Some r => get_payment db r
              | None => Ok None
              end) as [[[k p]|]|e] eqn:Hg; [| |exact Hinv].
    + apply Hwr; [exact Hinv|].
      destruct (truthy (w_reference_id d)) as [r|]; [|discriminate].
      apply get_payment_Some in Hg. destruct Hg as [Hg _].
      exact (Hinv k p Hg).
    + destruct (w_booking_id d) as [bid|]; [|exact Hinv].
      destruct (bookings db !! bid) as [b0|]; [|exact Hinv].
      apply Hwr.
      * intros k0 p0. cbn [payments next_payment with_payments].
        destruct (decide (k0 = next_payment db)) as [->|Hne]; [lia|].
        rewrite lookup_insert_ne by congruence. intros H.
        specialize (Hinv k0 p0 H). lia.
      * cbn [next_payment with_payments]. lia.
  - unfold update_vehicle.
    destruct (vehicles db !! vid) as [v|]; [|exact Hinv].
    destruct (negb (is_active v)); [exact Hinv|].
    destruct (negb _); exact Hinv.
  - unfold update_booking.
    destruct (negb _); [exact Hinv|].
    destruct (get_customer_booking db user k) as [b0|]; [|exact Hinv].
    destruct (match p_vehicle p with Some _ => _ | None => false end);
      [exact Hinv|].
    destruct (save fv w (Some k) _ db) as [[[db' k'] b2]|e] eqn:Hs; [|exact Hinv].
    apply save_Ok_db in Hs. subst db'. exact Hinv.
Qed.

(** What a request does to a stored row: it deletes it, leaves it, or
    puts in its place what [save] makes of the instance it hands over, with
    that instance's terms and status and the price of the current rates. *)
Lemma handle_row (w : env) (r : request) (db : DB) (pk : nat) (b : Booking) :
  bookings db !! pk = Some b -> (pk < next_booking db)%nat ->
  (bookings (fst (handle fv w r db)) !! pk = None /\ deletes_row r pk b)
  \/ bookings (fst (handle fv w r db)) !! pk = Some b
  \/ exists b0 b',
       bookings (fst (handle fv w r db)) !! pk = Some b'
       /\ hands_to_save r pk b b0
       /\ status b' = status b0 /\ same_terms b0 b'
       /\ (booking_id b0 <> ""%string -> booking_id b' = booking_id b0)
       /\ exists v, vehicles db !! vehicle b' = Some v
                    /\ calculate_total v b' = Ok (total_price b').
Proof.
  intros Hpk Hlt. destruct (is_deletion r) eqn:Hdel.
  { destruct (handle_delete w r db Hdel) as (_ & _ & _ & _ & H).
    destruct (H pk b Hpk) as [Hk|Hk]; auto. }
  right.
  destruct (handle_effect w r db Hdel)
    as [[Hb _]|(pk0 & b0 & db1 & k & b' & Hs & Hb1 & Hv1 & Hn1 & Hpk0)].
  { left. now rewrite Hb. }
  pose proof (save_Ok_db fv _ _ _ _ _ _ _ Hs) as Hdb.
  pose proof (save_Ok_valid fv _ _ _ _ _ _ _ Hs)
    as (_ & (v & Hv & Hct) & _ & Ht & Hst & Hid).
  assert (Hbk : bookings (fst (handle fv w r db)) = <[k := b']> (bookings db))
    by (rewrite Hdb; cbn [bookings with_bookings]; now rewrite Hb1).
  assert (Hveh : vehicles (fst (handle fv w r db)) = vehicles db)
    by (rewrite Hdb; exact Hv1).
  rewrite Hbk.
  destruct (decide (pk = k)) as [->|Hne].
  2:{ left. now rewrite lookup_insert_ne by congruence. }
  destruct Hpk0 as [[-> _]|(b1 & -> & Hk & Hw)].
  { apply save_Ok_inv in Hs. cbv zeta in Hs.
    destruct Hs as (_ & _ & _ & v' & total & _ & _ & _ & Hk & _). lia. }
  rewrite Hpk in Hk. injection Hk as <-.
  right. exists b0, b'. rewrite lookup_insert_eq.
  split; [reflexivity|]. split; [exact Hw|]. split; [exact Hst|].
  split; [exact Ht|]. split; [exact Hid|].
  exists v. split; [|exact Hct]. now rewrite <- Hveh.
Qed.

End Effects.

(** ** The tables stay consistent *)

Section Invariants.

Variable fv : Booking -> list verror.

Lemma handle_consistent (w : env) (r : request) (db : DB) :
  consistent db -> consistent (fst (handle fv w r db)).
Proof.
  intros (Hrows & Hpay & Huniq).
  pose proof (handle_payments fv w r db Hpay) as Hpay'.
  destruct (is_deletion r) eqn:Hdel.
  { destruct (handle_delete fv w r db Hdel) as (Hn & _ & Hb & _ & _).
    split; [|split; [exact Hpay'|]].
    - intros k b Hk. destruct (Hb k b Hk) as [Hk0 Hv]. rewrite Hn, Hv.
      exact (Hrows k b Hk0).
    - intros i j a b Hi Hj. apply Hb in Hi, Hj.
      exact (Huniq i j a b (proj1 Hi) (proj1 Hj)). }
  pose proof (handle_vehicles fv w r db Hdel) as [_ Hdom].
  destruct (handle_effect fv w r db Hdel)
    as [[Hb Hn]|(pk & b & db1 & k & b' & Hs & Hb1 & Hv1 & Hn1 & Hpk)].
  - split; [|split; [exact Hpay'|]].
    + intros k b Hk. rewrite Hb in Hk. rewrite Hn.
      destruct (Hrows k b Hk) as (? & ? & ?). auto.
    + intros i j a b. rewrite Hb. apply Huniq.
  - set (db' := fst (handle fv w r db)) in *.
    pose proof (save_Ok_valid fv w pk b db1 db' k b' Hs)
      as (Hval & (v & Hv & _) & Hu & _).
    pose proof (save_Ok_db fv w pk b db1 db' k b' Hs) as Hdb.
    assert (Hbk : bookings db' = <[k := b']> (bookings db))
      by (rewrite Hdb; cbn [bookings with_bookings]; now rewrite Hb1).
    assert (Hklt : (k < next_booking db')%nat
                   /\ (next_booking db <= next_booking db')%nat).
    { rewrite Hdb. cbn [next_booking with_bookings]. rewrite Hn1.
      destruct Hpk as [[-> _]|(b0 & -> & Hk & _)].
      - apply save_Ok_inv in Hs. cbv zeta in Hs.
        destruct Hs as (_ & _ & _ & v' & total & _ & _ & _ & -> & _). lia.
      - destruct (Hrows k b0 Hk) as (? & _). lia. }
    split; [|split; [exact Hpay'|]].
    + intros k0 b0 Hk0. rewrite Hbk in Hk0.
      destruct (decide (k0 = k)) as [->|Hne].
      * rewrite lookup_insert_eq in Hk0. injection Hk0 as <-.
        split; [apply Hklt|]. split; [exact Hval | eauto].
      * rewrite lookup_insert_ne in Hk0 by congruence.
        destruct (Hrows k0 b0 Hk0) as (Hlt & Hvb & Hveh).
        split; [lia|]. split; [exact Hvb | now apply Hdom].
    + intros i j a c Hi Hj Hid.
      destruct (decide (i = k)) as [->|Hni];
        destruct (decide (j = k)) as [->|Hnj]; [reflexivity| | |].
      * rewrite Hbk, lookup_insert_eq in Hi. injection Hi as <-.
        symmetry. apply (Hu j c Hj). congruence.
      * rewrite Hbk, lookup_insert_eq in Hj. injection Hj as <-.
        apply (Hu i a Hi). congruence.
      * rewrite Hbk in Hi, Hj. rewrite lookup_insert_ne in Hi, Hj by congruence.
        exact (Huniq i j a c Hi Hj Hid).
Qed.

Lemma same_terms_trans (a b c : Booking) :
  same_terms a b -> same_terms b c -> same_terms a c.
Proof.
  intros (H1 & H2 & H3 & H4 & H5 & H6 & H7 & H8)
         (K1 & K2 & K3 & K4 & K5 & K6 & K7 & K8).
  repeat split; congruence.
Qed.

Lemma same_terms_set_status (s : string) (b : Booking) :
  same_terms b (set_status s b).
Proof. repeat split. Qed.

(** The instance that a request other than an update hands to [save] is
    the stored booking with another status. *)
Lemma hands_to_save_status (r : request) (pk : nat) (b b0 : Booking) :
  hands_to_save r pk b b0 ->
  (forall user p, r <> UpdateBooking user pk p) ->
  same_terms b b0 /\ booking_id b0 = booking_id b.
Proof.
  intros Hw Hnu.
  destruct r; cbn [hands_to_save] in Hw; try contradiction.
  - destruct Hw as (_ & _ & ->). split; [apply same_terms_set_status | reflexivity].
  - destruct Hw as (_ & ->). split; [apply same_terms_set_status | reflexivity].
  - destruct Hw as (_ & ->). split; [apply same_terms_set_status | reflexivity].
  - destruct Hw as (-> & _). split; [apply same_terms_set_status | reflexivity].
  - destruct Hw as (-> & _). exfalso. eapply Hnu. reflexivity.
Qed.

Lemma leaves_row_spec (pk : nat) (b : Booking) (r : request) :
  leaves_row pk (vehicle b) r = true ->
  ~ deletes_row r pk b /\ forall user p, r <> UpdateBooking user pk p.
Proof.
  destruct r; cbn [leaves_row deletes_row]; intros H;
    try (split; [tauto | discriminate]).
  - apply negb_true_iff, Nat.eqb_neq in H. split; [tauto|]. congruence.
  - apply negb_true_iff, Nat.eqb_neq in H. split; [congruence | discriminate].
  - apply negb_true_iff, Nat.eqb_neq in H. split; [congruence | discriminate].
Qed.

Lemma handle_terms (w : env) (r : request) (db : DB) (pk : nat) (b : Booking) :
  consistent db -> bookings db !! pk = Some b ->
  leaves_row pk (vehicle b) r = true ->
  exists b',
    bookings (fst (handle fv w r db)) !! pk = Some b'
    /\ same_terms b b' /\ booking_id b' = booking_id b.
Proof.
  intros (Hrows & _ & _) Hpk Hl.
  destruct (Hrows pk b Hpk) as (Hlt & (Hid & _) & _).
  apply leaves_row_spec in Hl. destruct Hl as [Hnd Hnu].
  destruct (handle_row fv w r db pk b Hpk Hlt)
    as [[_ Hd]|[Hk|(b0 & b' & Hk & Hw & _ & Ht & Hkeep & _)]];
    [contradiction | exists b; repeat split; auto |].
  destruct (hands_to_save_status r pk b b0 Hw Hnu) as [Ht0 Hid0].
  exists b'. split; [exact Hk|].
  split; [exact (same_terms_trans _ _ _ Ht0 Ht)|].
  rewrite <- Hid0. apply Hkeep. congruence.
Qed.

Lemma handle_sync (w : env) (r : request) (db : DB) :
  changes_rates r = false -> all_in_sync db ->
  all_in_sync (fst (handle fv w r db)).
Proof.
  intros Hr Hsync.
  destruct (is_deletion r) eqn:Hdel.
  { destruct (handle_delete fv w r db Hdel) as (_ & _ & Hb & _ & _).
    intros k b Hk. destruct (Hb k b Hk) as [Hk0 Hv].
    unfold price_in_sync. rewrite Hv. exact (Hsync k b Hk0). }
  pose proof (handle_vehicles fv w r db Hdel) as [Hveh _]. specialize (Hveh Hr).
  destruct (handle_effect fv w r db Hdel)
    as [[Hb Hn]|(pk0 & b0 & db1 & k & b' & Hs & Hb1 & Hv1 & Hn1 & Hpk0)].
  - intros k b Hk. rewrite Hb in Hk. unfold price_in_sync. rewrite Hveh.
    exact (Hsync k b Hk).
  - pose proof (save_Ok_db fv w pk0 b0 db1 _ k b' Hs) as Hdb.
    assert (Hbk : bookings (fst (handle fv w r db)) = <[k := b']> (bookings db))
      by (rewrite Hdb; cbn [bookings with_bookings]; now rewrite Hb1).
    pose proof (save_Ok_valid fv w _ _ db1 _ k b' Hs) as (_ & Hin & _).
    intros k0 b Hk0. rewrite Hbk in Hk0.
    destruct (decide (k0 = k)) as [->|Hne].
    + rewrite lookup_insert_eq in Hk0. injection Hk0 as <-. exact Hin.
    + rewrite lookup_insert_ne in Hk0 by congruence.
      unfold price_in_sync. rewrite Hveh. exact (Hsync k0 b Hk0).
Qed.

(** X2: whatever requests arrive, the tables stay consistent: every stored
    booking has an identifier, aware timestamps, a window that is not empty,
    a known pricing unit and status and an existing vehicle, no two bookings
    share an identifier, and the auto-increment keys stay ahead of the
    rows, so that a creation never overwrites a row. *)
Theorem run_consistent (trace : list (env * request)) (db : DB) :
  consistent db -> consistent (run fv trace db).
Proof.
  revert db. induction trace as [|[w r] rest IH]; intros db H; [exact H|].
  cbn [run]. apply IH, handle_consistent, H.
Qed.

(** X3: a stored booking stays in the table, with its identifier, customer,
    vehicle, window, locations, delivery fee and pricing unit, through
    every sequence of requests that holds no update and no deletion of that
    booking and no deletion of its vehicle: creations, cancellations,
    approvals, rejections, webhooks, changes of rate cards and the updates
    and deletions of other rows change at most its status and its price. *)
Theorem run_keeps_terms (trace : list (env * request)) (db : DB) (pk : nat)
    (b : Booking) :
  consistent db -> bookings db !! pk = Some b ->
  Forall (fun wr => leaves_row pk (vehicle b) (snd wr) = true) trace ->
  exists b',
    bookings (run fv trace db) !! pk = Some b'
    /\ same_terms b b' /\ booking_id b' = booking_id b.
Proof.
  revert db b. induction trace as [|[w r] rest IH]; intros db b Hc Hpk Hall.
  - exists b. repeat split; auto.
  - cbn [run]. inversion Hall as [|x l Hr Hrest]; subst. cbn [snd] in Hr.
    destruct (handle_terms w r db pk b Hc Hpk Hr) as (b1 & Hb1 & Ht1 & Hid1).
    assert (Hveh : vehicle b1 = vehicle b) by apply Ht1.
    rewrite <- Hveh in Hrest.
    destruct (IH _ b1 (handle_consistent w r db Hc) Hb1 Hrest)
      as (b2 & Hb2 & Ht2 & Hid2).
    exists b2. split; [exact Hb2|].
    split; [exact (same_terms_trans _ _ _ Ht1 Ht2) | congruence].
Qed.

(** X4: as long as no request changes a rate card, every stored price is
    the one that [calculate_total] gives for the stored booking at the
    rates of its vehicle. *)
Theorem run_prices_in_sync (trace : list (env * request)) (db : DB) :
  all_in_sync db ->
  Forall (fun wr => changes_rates (snd wr) = false) trace ->
  all_in_sync (run fv trace db).
Proof.
  revert db. induction trace as [|[w r] rest IH]; intros db H Hall; [exact H|].
  cbn [run]. inversion Hall as [|x l Hr Hrest]; subst.
  apply IH; [|exact Hrest]. now apply handle_sync.
Qed.

End Invariants.

(** ** Prices and statuses of stored bookings *)

Section PriceAndStatus.

Variable fv : Booking -> list verror.

(** A successful [save] leaves the saved instance in its row, priced by the
    rate card of the tables. *)
Lemma save_Ok_row (w : env) (pk : option nat) (b : Booking) (db db' : DB)
    (k : nat) (b' : Booking) :
  save fv w pk b db = Ok (db', k, b') ->
  k = match pk with Some k0 => k0 | None => next_booking db end
  /\ bookings db' !! k = Some b' /\ price_in_sync db' b'
  /\ status b' = status b.
Proof.
  intros H.
  pose proof (save_Ok_valid fv _ _ _ _ _ _ _ H) as (_ & Hin & _ & _ & Hst & _).
  pose proof (save_Ok_db fv _ _ _ _ _ _ _ H) as Hdb.
  apply save_Ok_inv in H. cbv zeta in H.
  destruct H as (_ & _ & _ & v & total & _ & _ & _ & Hk & _).
  split; [exact Hk|]. split; [|split; [exact Hin | exact Hst]].
  rewrite Hdb. cbn [bookings with_bookings]. apply lookup_insert_eq.
Qed.

(** A request that is answered and that saves row [pk] leaves the row
    priced by the current rate card. *)
Lemma answered_save_in_sync (w : env) (r : request) (db : DB)
    (resp : response) (pk : nat) :
  snd (handle fv w r db) = Ok resp -> saves_row db r pk ->
  exists b', bookings (fst (handle fv w r db)) !! pk = Some b'
             /\ price_in_sync (fst (handle fv w r db)) b'.
Proof.
  destruct r as [user d|user k|user k|user k|d|user vid v'|user k p|user k
                |user vid];
    cbn [handle saves_row]; intros Hresp Hrow; try contradiction.
  - subst pk. unfold perform_create in *.
    destruct (negb _); [discriminate|].
    destruct (vehicles db !! d_vehicle d); [|discriminate].
    destruct (exists_row _ _); [discriminate|].
    destruct (save fv w None _ db) as [[[db1 k1] b1]|e] eqn:Hs; [|discriminate].
    destruct (save_Ok_row _ _ _ _ _ _ _ Hs) as (-> & Hb & Hin & _).
    cbn [fst]. eauto.
  - destruct Hrow as (-> & b & Hb & Hst). unfold cancel in *.
    destruct (negb _); [discriminate|].
    destruct (get_customer_booking db user pk) as [b0|] eqn:Hg; [|discriminate].
    apply get_customer_booking_Some in Hg. rewrite Hb in Hg.
    injection Hg as <-.
    destruct (String.eqb_spec (status b) STATUS_CANCELLED); [contradiction|].
    unfold save_and_respond in *.
    destruct (save fv w (Some pk) _ db) as [[[db1 k1] b1]|e] eqn:Hs;
      [|discriminate].
    destruct (save_Ok_row _ _ _ _ _ _ _ Hs) as (-> & Hb1 & Hin & _).
    cbn [fst]. eauto.
  - subst k. unfold approve, save_and_respond in *.
    destruct (negb _); [discriminate|].
    destruct (get_owner_booking db user pk) as [b0|]; [|discriminate].
    destruct (save fv w (Some pk) _ db) as [[[db1 k1] b1]|e] eqn:Hs;
      [|discriminate].
    destruct (save_Ok_row _ _ _ _ _ _ _ Hs) as (-> & Hb1 & Hin & _).
    cbn [fst]. eauto.
  - subst k. unfold reject, save_and_respond in *.
    destruct (negb _); [discriminate|].
    destruct (get_owner_booking db user pk) as [b0|]; [|discriminate].
    destruct (save fv w (Some pk) _ db) as [[[db1 k1] b1]|e] eqn:Hs;
      [|discriminate].
    destruct (save_Ok_row _ _ _ _ _ _ _ Hs) as (-> & Hb1 & Hin & _).
    cbn [fst]. eauto.
  - subst k. unfold update_booking in *.
    destruct (negb _); [discriminate|].
    destruct (get_customer_booking db user pk) as [b0|]; [|discriminate].
    destruct (match p_vehicle p with Some _ => _ | None => _ end);
      [discriminate|].
    destruct (save fv w (Some pk) _ db) as [[[db1 k1] b1]|e] eqn:Hs;
      [|discriminate].
    destruct (save_Ok_row _ _ _ _ _ _ _ Hs) as (-> & Hb1 & Hin & _).
    cbn [fst]. eauto.
Qed.

(** The price of a row that was priced by the rate card survives every
    request that is not an update of the row. *)
Lemma handle_price (w : env) (r : request) (db : DB) (pk : nat)
    (b b' : Booking) :
  bookings db !! pk = Some b -> (pk < next_booking db)%nat ->
  price_in_sync db b ->
  (forall user p, r <> UpdateBooking user pk p) ->
  bookings (fst (handle fv w r db)) !! pk = Some b' ->
  total_price b' = total_price b.
Proof.
  intros Hpk Hlt (v & Hv & Hct) Hnu Hb'.
  destruct (handle_row fv w r db pk b Hpk Hlt)
    as [[Hnone _]|[Hsame|(b0 & b2 & Hk & Hw & _ & Ht & _ & v2 & Hv2 & Hct2)]].
  - congruence.
  - congruence.
  - rewrite Hb' in Hk. injection Hk as <-.
    destruct (hands_to_save_status r pk b b0 Hw Hnu) as [Ht0 _].
    destruct (same_terms_trans _ _ _ Ht0 Ht)
      as (_ & Hveh & Hs & He & _ & _ & Hf & Hu).
    rewrite Hveh, Hv in Hv2. injection Hv2 as <-.
    rewrite (calculate_total_ext v b b' Hs He Hu Hf), Hct in Hct2.
    now injection Hct2.
Qed.

(** C6, as the code has it: the price is not frozen at creation. Every
    successful [save] stores the price that [calculate_total] gives for the
    saved window, unit and fee at the vehicle's current rates, whatever
    price the instance carried; so every answered creation, cancellation,
    approval, rejection and update of a booking leaves it with the price of
    the current rate card. A request changes the stored price of a booking
    only through such a save of that booking: it deletes the row, leaves it
    as it was, or saves it again; a change of a rate card by itself touches
    no booking; and a booking whose stored price is the one of the current
    rate card keeps that price under every request but an update of the
    booking itself. *)
Theorem total_price_recomputed_on_save :
  (forall w pk b db db' k b',
     save fv w pk b db = Ok (db', k, b') ->
     bookings db' !! k = Some b'
     /\ exists v, vehicles db !! vehicle b = Some v
                  /\ calculate_total v b = Ok (total_price b'))
  /\ (forall w r db resp pk,
        snd (handle fv w r db) = Ok resp -> saves_row db r pk ->
        exists b', bookings (fst (handle fv w r db)) !! pk = Some b'
                   /\ price_in_sync (fst (handle fv w r db)) b')
  /\ (forall w r db pk b,
        bookings db !! pk = Some b -> (pk < next_booking db)%nat ->
        (bookings (fst (handle fv w r db)) !! pk = None /\ deletes_row r pk b)
        \/ bookings (fst (handle fv w r db)) !! pk = Some b
        \/ exists b0 b',
             bookings (fst (handle fv w r db)) !! pk = Some b'
             /\ hands_to_save r pk b b0 /\ price_in_sync db b')
  /\ (forall w user vehicle_id v' db,
        bookings (fst (handle fv w (UpdateVehicle user vehicle_id v') db))
        = bookings db)
  /\ (forall w r db pk b b',
        bookings db !! pk = Some b -> (pk < next_booking db)%nat ->
        price_in_sync db b ->
        (forall user p, r <> UpdateBooking user pk p) ->
        bookings (fst (handle fv w r db)) !! pk = Some b' ->
        total_price b' = total_price b).
Proof.
  split; [|split; [|split; [|split]]].
  - intros w pk b db db' k b' H.
    destruct (save_Ok_row _ _ _ _ _ _ _ H) as (_ & Hb & _).
    split; [exact Hb|].
    apply save_Ok_inv in H. cbv zeta in H.
    destruct H as (_ & _ & _ & v & total & Hv & Hct & -> & _).
    exists v. split; [exact Hv|]. cbn [total_price set_total_price].
    rewrite <- Hct. apply calculate_total_ext;
      destruct (String.eqb (booking_id b) ""); reflexivity.
  - exact answered_save_in_sync.
  - intros w r db pk b Hpk Hlt.
    destruct (handle_row fv w r db pk b Hpk Hlt)
      as [H|[H|(b0 & b' & Hk & Hw & _ & _ & _ & Hin)]]; [auto | auto |].
    right. right. exists b0, b'. split; [exact Hk|]. split; [exact Hw|].
    exact Hin.
  - intros w user vehicle_id v' db. cbn [handle]. unfold update_vehicle.
    destruct (vehicles db !! vehicle_id) as [v|]; [|reflexivity].
    destruct (negb (is_active v)); [reflexivity|].
    destruct (negb _); reflexivity.
  - exact handle_price.
Qed.

(** C7, as the code has it: a stored booking leaves the table only by its
    own deletion or the deletion of its vehicle. While it is stored, a
    cancelled booking stays cancelled under every request but an approval of
    it and a webhook that may record a success, and a confirmed booking
    stays confirmed under every request but a cancellation or a rejection
    of it. A cancellation by its customer moves a booking that is not
    cancelled, a confirmed one included, to cancelled, and so does a
    rejection by the owner of its vehicle, provided [save] accepts the
    booking once more. *)
Theorem terminal_state_transitions (w : env) (r : request) (db : DB)
    (pk : nat) (b : Booking) :
  bookings db !! pk = Some b -> (pk < next_booking db)%nat ->
  (bookings (fst (handle fv w r db)) !! pk = None -> deletes_row r pk b)
  /\ (status b = STATUS_CANCELLED -> keeps_cancelled pk r ->
      forall b', bookings (fst (handle fv w r db)) !! pk = Some b' ->
                 status b' = STATUS_CANCELLED)
  /\ (status b = STATUS_CONFIRMED -> keeps_confirmed pk r ->
      forall b', bookings (fst (handle fv w r db)) !! pk = Some b' ->
                 status b' = STATUS_CONFIRMED)
  /\ (forall user,
        r = Cancel user pk -> has_role db user ROLE_CUSTOMER = true ->
        customer b = user -> status b <> STATUS_CANCELLED ->
        saveable fv db (Some pk) (set_status STATUS_CANCELLED b) ->
        snd (handle fv w r db) = Ok (Detail 200 "Booking cancelled.")
        /\ exists b', bookings (fst (handle fv w r db)) !! pk = Some b'
                      /\ status b' = STATUS_CANCELLED)
  /\ (forall user v,
        r = Reject user pk -> has_role db user ROLE_OWNER = true ->
        vehicles db !! vehicle b = Some v -> owner v = user ->
        saveable fv db (Some pk) (set_status STATUS_CANCELLED b) ->
        snd (handle fv w r db) = Ok (Detail 200 "Booking rejected.")
        /\ exists b', bookings (fst (handle fv w r db)) !! pk = Some b'
                      /\ status b' = STATUS_CANCELLED).
Proof.
  intros Hpk Hlt.
  pose proof (handle_row fv w r db pk b Hpk Hlt) as Hrow.
  split; [|split; [|split; [|split]]].
  - intros Hnone.
    destruct Hrow as [[_ Hd]|[H|(b0 & b' & H & _)]]; [exact Hd | |];
      congruence.
  - intros Hst Hkeep b' Hb'.
    destruct Hrow as [[Hnone _]|[H|(b0 & b2 & Hk & Hw & Hst2 & _)]];
      [congruence | congruence |].
    rewrite Hb' in Hk. injection Hk as <-. rewrite Hst2.
    destruct r; cbn [hands_to_save keeps_cancelled] in *; try contradiction.
    + destruct Hw as (_ & Hw & _). contradiction.
    + destruct Hw as (Hw & _). contradiction.
    + destruct Hw as (_ & ->). reflexivity.
    + destruct Hw as (_ & Hw). contradiction.
    + destruct Hw as (_ & ->). exact Hst.
  - intros Hst Hkeep b' Hb'.
    destruct Hrow as [[Hnone _]|[H|(b0 & b2 & Hk & Hw & Hst2 & _)]];
      [congruence | congruence |].
    rewrite Hb' in Hk. injection Hk as <-. rewrite Hst2.
    destruct r; cbn [hands_to_save keeps_confirmed] in *; try contradiction.
    + destruct Hw as (Hw & _). contradiction.
    + destruct Hw as (_ & ->). reflexivity.
    + destruct Hw as (Hw & _). contradiction.
    + destruct Hw as (-> & _). reflexivity.
    + destruct Hw as (_ & ->). exact Hst.
  - intros user -> Hrole Hcust Hst (Hid & Hs & He & Hfc & v & total & Hv & Hct).
    cbn [handle]. unfold cancel, get_customer_booking.
    rewrite Hrole, Hpk, Hcust, Nat.eqb_refl. cbn [negb].
    apply String.eqb_neq in Hst. rewrite Hst.
    unfold save_and_respond.
    rewrite (save_Ok_intro fv w (Some pk) _ db v total Hid Hs He Hfc Hv Hct).
    split; [reflexivity|]. eexists. cbn [fst bookings with_bookings].
    split; [apply lookup_insert_eq | reflexivity].
  - intros user v -> Hrole Hveh Hown
      (Hid & Hs & He & Hfc & v0 & total & Hv & Hct).
    cbn [handle]. unfold reject, get_owner_booking.
    rewrite Hrole, Hpk, Hveh, Hown, Nat.eqb_refl. cbn [negb].
    unfold save_and_respond.
    rewrite (save_Ok_intro fv w (Some pk) _ db v0 total Hid Hs He Hfc Hv Hct).
    split; [reflexivity|]. eexists. cbn [fst bookings with_bookings].
    split; [apply lookup_insert_eq | reflexivity].
Qed.

End PriceAndStatus.

(** ** The booking views *)

Section Views.

Variable fv : Booking -> list verror.

(** What an accepted booking request has established. *)
Lemma perform_create_Ok_inv (w : env) (user : nat) (d : booking_data)
    (db db' : DB) (r : response) :
  perform_create fv w user d db = (db', Ok r) ->
  exists v b',
    r = Created (next_booking db) b'
    /\ has_role db user ROLE_CUSTOMER = true
    /\ vehicles db !! d_vehicle d = Some v
    /\ exists_row (fun _ => overlap_lookup (d_vehicle d) (d_start_at d)
                              (d_end_at d)) (bookings db) = false
    /\ db' = with_bookings (<[next_booking db := b']> (bookings db))
               (S (next_booking db)) db
    /\ valid_booking b'
    /\ status b' = STATUS_PENDING /\ customer b' = user
    /\ vehicle b' = d_vehicle d
    /\ start_at b' = d_start_at d /\ end_at b' = d_end_at d
    /\ pricing_unit b' = d_pricing_unit d
    /\ dropoff_location b' = d_dropoff_location d
    /\ pickup_location b'
       = (if String.eqb (d_pickup_location d) "" then vehicle_pickup_location v
          else d_pickup_location d)
    /\ delivery_fee b' = default (vehicle_delivery_fee v) (d_delivery_fee d)
    /\ calculate_total v b' = Ok (total_price b').
Proof.
  unfold perform_create.
  destruct (has_role db user ROLE_CUSTOMER) eqn:Hrole; cbn [negb];
    [|intros H; inversion H].
  destruct (vehicles db !! d_vehicle d) as [v|] eqn:Hv; [|intros H; inversion H].
  destruct (exists_row _ _) eqn:Hov; [intros H; inversion H|].
  destruct (save fv w None _ db) as [[[db1 k] b']|e] eqn:Hs;
    intros H; inversion H; subst; clear H.
  pose proof (save_Ok_db fv _ _ _ _ _ _ _ Hs) as Hdb.
  pose proof (save_Ok_valid fv _ _ _ _ _ _ _ Hs)
    as (Hval & (v' & Hv' & Hct) & _ & Ht & Hst & _).
  apply save_Ok_inv in Hs. cbv zeta in Hs.
  destruct Hs as (_ & _ & _ & v0 & total & _ & _ & _ & -> & _).
  destruct Ht as (Hc & Hveh & Hs1 & He1 & Hp & Hd & Hf & Hu).
  cbn [customer vehicle start_at end_at pickup_location dropoff_location
       delivery_fee pricing_unit status] in *.
  exists v, b'. split; [reflexivity|]. split; [reflexivity|].
  split; [reflexivity|]. split; [reflexivity|]. split; [exact Hdb|].
  split; [exact Hval|].
  repeat (split; [assumption|]).
  rewrite Hdb in Hv'. cbn [vehicles with_bookings] in Hv'.
  rewrite Hveh, Hv in Hv'. injection Hv' as <-. exact Hct.
Qed.

(** X5: a booking request that is answered with a created booking came from
    a customer, names an existing vehicle and a window that no pending or
    confirmed booking of that vehicle overlaps; the row is stored under the
    next key, pending, for that customer, with the vehicle's pickup location
    and delivery fee where the request gives none, and priced by
    [calculate_total] at the vehicle's rates. *)
Theorem perform_create_result (w : env) (user : nat) (d : booking_data)
    (db db' : DB) (r : response) :
  perform_create fv w user d db = (db', Ok r) ->
  exists v b',
    r = Created (next_booking db) b'
    /\ has_role db user ROLE_CUSTOMER = true
    /\ vehicles db !! d_vehicle d = Some v
    /\ exists_row (fun _ => overlap_lookup (d_vehicle d) (d_start_at d)
                              (d_end_at d)) (bookings db) = false
    /\ db' = with_bookings (<[next_booking db := b']> (bookings db))
               (S (next_booking db)) db
    /\ valid_booking b'
    /\ status b' = STATUS_PENDING /\ customer b' = user
    /\ vehicle b' = d_vehicle d
    /\ start_at b' = d_start_at d /\ end_at b' = d_end_at d
    /\ pricing_unit b' = d_pricing_unit d
    /\ dropoff_location b' = d_dropoff_location d
    /\ pickup_location b'
       = (if String.eqb (d_pickup_location d) "" then vehicle_pickup_location v
          else d_pickup_location d)
    /\ delivery_fee b' = default (vehicle_delivery_fee v) (d_delivery_fee d)
    /\ calculate_total v b' = Ok (total_price b').
Proof. exact (perform_create_Ok_inv w user d db db' r). Qed.

(** X6: a booking request for a window that a pending or confirmed booking
    of the vehicle overlaps is refused with [PermissionDenied], and the
    tables stay as they are. *)
Theorem perform_create_conflict (w : env) (user : nat) (d : booking_data)
    (db : DB) (pk : nat) (b : Booking) :
  has_role db user ROLE_CUSTOMER = true ->
  is_Some (vehicles db !! d_vehicle d) ->
  bookings db !! pk = Some b ->
  vehicle b = d_vehicle d -> active b ->
  micros (start_at b) < micros (d_end_at d) ->
  micros (d_start_at d) < micros (end_at b) ->
  perform_create fv w user d db = (db, Raise PermissionDenied).
Proof.
  intros Hrole [v Hv] Hpk Hveh Hact Hs He. unfold perform_create.
  rewrite Hrole, Hv. cbn [negb].
  assert (Hov : exists_row (fun _ => overlap_lookup (d_vehicle d) (d_start_at d)
                                       (d_end_at d)) (bookings db) = true).
  { apply exists_row_true. exists pk, b. split; [exact Hpk|].
    apply overlap_lookup_true. repeat split; [exact Hveh | exact Hact | lia | lia]. }
  now rewrite Hov.
Qed.

(** X7: a request that ends in an exception has changed no booking, no
    vehicle and no key counter of the bookings; unless it is a webhook (which
    may have recorded its payment) it has changed nothing at all. *)
Theorem failed_request_effect (w : env) (r : request) (db db' : DB) (e : exn) :
  handle fv w r db = (db', Raise e) ->
  bookings db' = bookings db /\ vehicles db' = vehicles db
  /\ next_booking db' = next_booking db
  /\ match r with
     | Webhook _ => True
     | _ => db' = db
     end.
Proof.
  assert (Hsr : forall k b resp db1 db2,
             save_and_respond fv w k b resp db1 = (db2, Raise e) -> db2 = db1).
  { intros k b resp db1 db2. unfold save_and_respond.
    destruct (save fv w _ _ _) as [[[db3 k'] b2]|e']; intros H; now inversion H. }
  assert (Hwr : forall d k p db1 db2,
             webhook_record fv w d k p db1 = (db2, Raise e) ->
             bookings db2 = bookings db1 /\ vehicles db2 = vehicles db1
             /\ next_booking db2 = next_booking db1).
  { intros d k p db1 db2. unfold webhook_record.
    destruct (String.eqb _ PAYMENT_SUCCESS); [|intros H; inversion H].
    destruct (bookings _ !! _) as [b0|].
    - intros H. apply Hsr in H. subst db2. auto.
    - intros H. inversion H. auto. }
  destruct r as [user d|user k|user k|user k|d|user vid v'|user k p|user k
                |user vid]; cbn [handle].
  - unfold perform_create.
    destruct (negb _); [intros H; inversion H; auto|].
    destruct (vehicles db !! d_vehicle d) as [v0|]; [|intros H; inversion H; auto].
    destruct (exists_row _ _); [intros H; inversion H; auto|].
    destruct (save fv w None _ db) as [[[db1 k'] b2]|e'];
      intros H; inversion H; auto.
  - unfold cancel.
    destruct (negb _); [intros H; inversion H; auto|].
    destruct (get_customer_booking db user k) as [b0|];
      [|intros H; inversion H; auto].
    destruct (String.eqb _ _); [intros H; inversion H|].
    intros H. apply Hsr in H. subst. auto.
  - unfold approve.
    destruct (negb _); [intros H; inversion H; auto|].
    destruct (get_owner_booking db user k) as [b0|];
      [|intros H; inversion H; auto].
    intros H. apply Hsr in H. subst. auto.
  - unfold reject.
    destruct (negb _); [intros H; inversion H; auto|].
    destruct (get_owner_booking db user k) as [b0|];
      [|intros H; inversion H; auto].
    intros H. apply Hsr in H. subst. auto.
  - unfold webhook.
    destruct (match truthy (w_reference_id d) with
              | Some r => get_payment db r
              | None => Ok None
              end) as [[[k p]|]|e']; [| |intros H; inversion H; auto].
    + intros H. apply Hwr in H. tauto.
    + destruct (w_booking_id d) as [bid|]; [|intros H; inversion H].
      destruct (bookings db !! bid) as [b0|]; [|intros H; inversion H].
      intros H. apply Hwr in H. cbn [bookings vehicles next_booking with_payments] in H.
      tauto.
  - unfold update_vehicle.
    destruct (vehicles db !! vid) as [v|]; [|intros H; inversion H; auto].
    destruct (negb (is_active v)); [intros H; inversion H; auto|].
    destruct (negb _); intros H; inversion H; auto.
  - unfold update_booking.
    destruct (negb _); [intros H; inversion H; auto|].
    destruct (get_customer_booking db user k) as [b0|];
      [|intros H; inversion H; auto].
    destruct (match p_vehicle p with Some _ => _ | None => false end);
      [intros H; inversion H; auto|].
    destruct (save fv w (Some k) _ db) as [[[db1 k'] b2]|e'];
      intros H; inversion H; auto.
  - unfold destroy_booking.
    destruct (negb _); [intros H; inversion H; auto|].
    destruct (get_customer_booking db user k) as [b0|];
      intros H; inversion H; auto.
  - unfold destroy_vehicle.
    destruct (vehicles db !! vid) as [v|]; [|intros H; inversion H; auto].
    destruct (negb (is_active v)); [intros H; inversion H; auto|].
    destruct (negb _); intros H; inversion H; auto.
Qed.

(** X8: a request that the permission classes or the queryset of its view
    do not let through (a booking request from a user who is no customer; a
    cancellation, update or deletion by someone who is not the booking's
    customer; an approval or rejection by someone who does not own the
    booking's vehicle; a change or deletion of a vehicle by someone who is
    not its owner) is refused and leaves the tables as they are. *)
Theorem unauthorised_request_refused (w : env) (r : request) (db : DB) :
  authorised db r = false ->
  handle fv w r db = (db, Raise PermissionDenied)
  \/ handle fv w r db = (db, Raise DoesNotExist).
Proof.
  destruct r as [user d|user k|user k|user k|d|user vid v'|user k p|user k
                |user vid]; cbn [handle authorised].
  - unfold perform_create. intros ->. now left.
  - unfold cancel. destruct (has_role db user ROLE_CUSTOMER); [|now left].
    destruct (get_customer_booking db user k); [discriminate | now right].
  - unfold approve. destruct (has_role db user ROLE_OWNER); [|now left].
    destruct (get_owner_booking db user k); [discriminate | now right].
  - unfold reject. destruct (has_role db user ROLE_OWNER); [|now left].
    destruct (get_owner_booking db user k); [discriminate | now right].
  - discriminate.
  - unfold update_vehicle. destruct (vehicles db !! vid) as [v|]; [|now right].
    destruct (is_active v); [|now right]. cbn [negb andb].
    intros ->. now left.
  - unfold update_booking. destruct (has_role db user ROLE_CUSTOMER); [|now left].
    destruct (get_customer_booking db user k); [discriminate | now right].
  - unfold destroy_booking. destruct (has_role db user ROLE_CUSTOMER); [|now left].
    destruct (get_customer_booking db user k); [discriminate | now right].
  - unfold destroy_vehicle. destruct (vehicles db !! vid) as [v|]; [|now right].
    destruct (is_active v); [|now right]. cbn [negb andb].
    intros ->. now left.
Qed.

(** X9: an approval by the owner of the booking's vehicle stores the booking
    as confirmed, and a rejection stores it as cancelled, whatever its status
    was, provided [save] accepts the instance; the identifier and the other
    fields of the booking but its price stay as they are, and the other
    bookings are untouched. *)
Theorem approve_reject_by_owner (w : env) (user pk : nat) (db : DB)
    (b : Booking) :
  has_role db user ROLE_OWNER = true ->
  get_owner_booking db user pk = Some b ->
  (saveable fv db (Some pk) (set_status STATUS_CONFIRMED b) ->
   exists db' b',
     approve fv w user pk db = (db', Ok (Detail 200 "Booking confirmed."))
     /\ bookings db' !! pk = Some b'
     /\ status b' = STATUS_CONFIRMED /\ same_terms b b'
     /\ booking_id b' = booking_id b
     /\ forall k, k <> pk -> bookings db' !! k = bookings db !! k)
  /\ (saveable fv db (Some pk) (set_status STATUS_CANCELLED b) ->
      exists db' b',
        reject fv w user pk db = (db', Ok (Detail 200 "Booking rejected."))
        /\ bookings db' !! pk = Some b'
        /\ status b' = STATUS_CANCELLED /\ same_terms b b'
        /\ booking_id b' = booking_id b
        /\ forall k, k <> pk -> bookings db' !! k = bookings db !! k).
Proof.
  intros Hrole Hget. unfold approve, reject. rewrite Hrole, Hget. cbn [negb].
  split; intros (Hid & Hs & He & Hfc & v & total & Hv & Hct);
    unfold save_and_respond;
    rewrite (save_Ok_intro fv w (Some pk) _ db v total Hid Hs He Hfc Hv Hct);
    eexists _, _; (split; [reflexivity|]); cbn [bookings with_bookings];
    (split; [apply lookup_insert_eq|]); (split; [reflexivity|]);
    (split; [repeat split|]); (split; [reflexivity|]);
    intros k Hk; now apply lookup_insert_ne.
Qed.

(** X29: a cancellation cannot be repeated: once a cancellation has been
    answered (with 200, or with 400 because the booking was cancelled
    already), every further cancellation of the booking by its customer is
    answered 400 "Booking already cancelled." and changes nothing. *)
Theorem cancel_twice (w w' : env) (user pk : nat) (db db' : DB) (r : response) :
  cancel fv w user pk db = (db', Ok r) ->
  cancel fv w' user pk db' = (db', Ok (Detail 400 "Booking already cancelled.")).
Proof.
  unfold cancel at 1.
  destruct (has_role db user ROLE_CUSTOMER) eqn:Hrole; cbn [negb];
    [|discriminate].
  destruct (get_customer_booking db user pk) as [b0|] eqn:Hget; [|discriminate].
  destruct (String.eqb_spec (status b0) STATUS_CANCELLED) as [Hst|Hst].
  - intros H. inversion H; subst db'. unfold cancel.
    rewrite Hrole, Hget, Hst. reflexivity.
  - unfold save_and_respond.
    destruct (save fv w (Some pk) _ db) as [[[db1 k] b2]|e] eqn:Hs;
      [|discriminate].
    intros H. inversion H; subst db1; clear H.
    pose proof (save_Ok_db fv _ _ _ _ _ _ _ Hs) as Hdb.
    pose proof (save_Ok_valid fv _ _ _ _ _ _ _ Hs)
      as (_ & _ & _ & (Hc & _) & Hst2 & _).
    apply save_Ok_inv in Hs. cbv zeta in Hs.
    destruct Hs as (_ & _ & _ & v & total & _ & _ & _ & -> & _).
    cbn [customer status set_status] in Hc, Hst2.
    assert (Hcust : (customer b0 =? user)%nat = true).
    { unfold get_customer_booking in Hget.
      destruct (bookings db !! pk) as [b1|]; [|discriminate].
      destruct (customer b1 =? user)%nat eqn:E; [|discriminate].
      now injection Hget as <-. }
    unfold cancel, has_role, get_customer_booking. rewrite Hdb.
    cbn [profiles bookings with_bookings]. rewrite lookup_insert_eq.
    unfold has_role in Hrole. rewrite Hrole. cbn [negb].
    rewrite Hc, Hcust, Hst2. reflexivity.
Qed.

End Views.

(** ** Payments: checkout and the webhook *)

Section PaymentViews.

Variable fv : Booking -> list verror.

Lemma str_nonempty (n : nat) : str n <> ""%string.
Proof.
  unfold str, NilZero.string_of_uint.
  destruct (Nat.to_uint n); cbn; discriminate.
Qed.

Lemma NoDup_all_eq {A} (l : list A) (a : A) :
  List.NoDup l -> In a l -> (forall y, In y l -> y = a) -> l = [a].
Proof.
  intros Hnd Hin Hall. destruct l as [|y l]; [destruct Hin|].
  assert (y = a) as -> by (apply Hall; now left).
  destruct l as [|z l]; [reflexivity|].
  assert (z = a) as -> by (apply Hall; right; now left).
  apply List.NoDup_cons_iff in Hnd. destruct Hnd as [Hn _].
  exfalso. apply Hn. now left.
Qed.

Lemma filter_rows_NoDup {A} (f : nat -> A -> bool) (m : gmap nat A) :
  List.NoDup (filter_rows f m).
Proof.
  unfold filter_rows. apply List.NoDup_filter, NoDup_ListNoDup,
    NoDup_map_to_list.
Qed.

Lemma filter_rows_In {A} (f : nat -> A -> bool) (m : gmap nat A) (k : nat)
    (x : A) :
  In (k, x) (filter_rows f m) <-> m !! k = Some x /\ f k x = true.
Proof.
  unfold filter_rows. rewrite filter_In. cbn [fst snd].
  now rewrite <- list_elem_of_In, elem_of_map_to_list.
Qed.

Lemma filter_rows_singleton {A} (f : nat -> A -> bool) (m : gmap nat A)
    (k : nat) (x : A) :
  m !! k = Some x -> f k x = true ->
  (forall k' x', m !! k' = Some x' -> f k' x' = true -> k' = k) ->
  filter_rows f m = [(k, x)].
Proof.
  intros Hk Hf Hall. apply NoDup_all_eq.
  - apply filter_rows_NoDup.
  - now apply (proj2 (filter_rows_In _ _ _ _)).
  - intros [k' x'] Hin. apply (proj1 (filter_rows_In _ _ _ _)) in Hin. destruct Hin as [Hk' Hf'].
    assert (k' = k) as -> by exact (Hall k' x' Hk' Hf'). congruence.
Qed.

(** X10: a webhook that names a status other than "success" records that
    status on a payment and changes no booking and no vehicle: the payment
    under the reference is updated, or, when no payment carries the
    reference, a new payment of the stored price is recorded for the booking
    that the body names by its key. *)
Theorem webhook_without_success (w : env) (d : webhook_data) (db : DB)
    (s : string) :
  truthy (w_status d) = Some s -> s <> PAYMENT_SUCCESS ->
  bookings (fst (webhook fv w d db)) = bookings db
  /\ vehicles (fst (webhook fv w d db)) = vehicles db
  /\ next_booking (fst (webhook fv w d db)) = next_booking db
  /\ (forall k p,
        match truthy (w_reference_id d) with
        | Some r => get_payment db r
        | None => Ok None
        end = Ok (Some (k, p)) ->
        webhook fv w d db
        = (with_payments
             (<[k := mkPayment (payment_booking p) (provider p)
                       (reference_id p) s (amount p)]> (payments db))
             (next_payment db) db,
           Ok (Detail 200 "Webhook processed.")))
  /\ (forall bid b,
        match truthy (w_reference_id d) with
        | Some r => get_payment db r
        | None => Ok None
        end = Ok None ->
        w_booking_id d = Some bid -> bid <> 0%nat ->
        bookings db !! bid = Some b ->
        webhook fv w d db
        = (with_payments
             (<[next_payment db :=
                  mkPayment bid "cashfree"
                    (default ""%string (truthy (w_reference_id d))) s
                    (total_price b)]> (payments db))
             (S (next_payment db)) db,
           Ok (Detail 200 "Webhook processed."))).
Proof.
  intros Hs Hne.
  assert (Hwr : forall k p db1,
             webhook_record fv w d k p db1
             = (with_payments
                  (<[k := mkPayment (payment_booking p) (provider p)
                            (reference_id p) s (amount p)]> (payments db1))
                  (next_payment db1) db1,
                Ok (Detail 200 "Webhook processed."))).
  { intros k p db1. unfold webhook_record. rewrite Hs.
    apply String.eqb_neq in Hne. now rewrite Hne. }
  unfold webhook.
  destruct (match truthy (w_reference_id d) with
            | Some r => get_payment db r
            | None => Ok None
            end) as [[[k p]|]|e'] eqn:Hg.
  - rewrite Hwr. do 3 (split; [reflexivity|]). split; [|discriminate].
    intros k0 p0 H. now inversion H.
  - destruct (w_booking_id d) as [bid|] eqn:Hbid.
    2:{ do 3 (split; [reflexivity|]). split; discriminate. }
    destruct (bookings db !! bid) as [b0|] eqn:Hb.
    2:{ do 3 (split; [reflexivity|]). split; [discriminate|].
        intros bid0 b _ H. inversion H; subst. congruence. }
    rewrite Hwr. do 3 (split; [reflexivity|]). split; [discriminate|].
    intros bid0 b _ H _ Hb0. inversion H; subst bid0.
    rewrite Hb in Hb0. injection Hb0 as <-.
    cbn [payment_booking provider reference_id amount payments next_payment
         with_payments bookings vehicles profiles next_booking].
    unfold with_payments. cbn [payments next_payment bookings vehicles profiles
                               next_booking].
    rewrite insert_insert_eq. now destruct (truthy (w_reference_id d)).
  - do 3 (split; [reflexivity|]). split; discriminate.
Qed.

(** X11: a webhook that reports "success" for a booking, under a reference
    that no payment carries, records a new payment of the price stored so
    far and stores the booking as confirmed, whatever its status was,
    provided [save] accepts the instance. *)
Theorem webhook_success_confirms (w : env) (d : webhook_data) (db : DB)
    (bid : nat) (b : Booking) :
  match truthy (w_reference_id d) with
  | Some r => get_payment db r
  | None => Ok None
  end = Ok None ->
  w_booking_id d = Some bid ->
  truthy (w_status d) = Some PAYMENT_SUCCESS ->
  bookings db !! bid = Some b ->
  saveable fv db (Some bid) (set_status STATUS_CONFIRMED b) ->
  exists db' b',
    webhook fv w d db = (db', Ok (Detail 200 "Webhook processed."))
    /\ bookings db' !! bid = Some b'
    /\ status b' = STATUS_CONFIRMED /\ same_terms b b'
    /\ (forall k, k <> bid -> bookings db' !! k = bookings db !! k)
    /\ payments db'
       = <[next_payment db :=
             mkPayment bid "cashfree" (default ""%string (truthy (w_reference_id d)))
               PAYMENT_SUCCESS (total_price b)]> (payments db)
    /\ next_payment db' = S (next_payment db).
Proof.
  intros Hg Hbid Hst Hb (Hid & Hs & He & Hfc & v & total & Hv & Hct).
  unfold webhook. rewrite Hg, Hbid, Hb. unfold webhook_record. rewrite Hst.
  cbn [payment_booking String.eqb Ascii.eqb Bool.eqb PAYMENT_SUCCESS].
  cbn [bookings with_payments]. rewrite Hb.
  unfold save_and_respond.
  match goal with
  | |- context [save fv w (Some bid) ?x ?db1] =>
      rewrite (save_Ok_intro fv w (Some bid) x db1 v total Hid Hs He Hfc Hv Hct)
  end.
  eexists _, _. split; [reflexivity|].
  cbn [bookings payments next_payment with_bookings with_payments
       payment_booking provider reference_id amount].
  split; [apply lookup_insert_eq|]. split; [reflexivity|].
  split; [repeat split|].
  split; [intros k Hk; now apply lookup_insert_ne|].
  split; [|reflexivity].
  rewrite insert_insert_eq. now destruct (truthy (w_reference_id d)).
Qed.

(** X12: checkout changes no booking and no vehicle, keeps the tables
    consistent, and answers 400 without writing when the booking is not
    pending. *)
Theorem checkout_keeps_bookings (user pk : nat) (db : DB) :
  bookings (fst (checkout user pk db)) = bookings db
  /\ vehicles (fst (checkout user pk db)) = vehicles db
  /\ next_booking (fst (checkout user pk db)) = next_booking db
  /\ (consistent db -> consistent (fst (checkout user pk db)))
  /\ (forall b, has_role db user ROLE_CUSTOMER = true ->
        get_customer_booking db user pk = Some b ->
        status b <> STATUS_PENDING ->
        checkout user pk db
        = (db, Ok (CheckoutDetail 400 "Booking is not pending."))).
Proof.
  unfold checkout.
  destruct (has_role db user ROLE_CUSTOMER); cbn [negb];
    [|do 3 (split; [reflexivity|]); split; [auto | discriminate]].
  destruct (get_customer_booking db user pk) as [b0|];
    [|do 3 (split; [reflexivity|]); split; [auto | discriminate]].
  destruct (String.eqb_spec (status b0) STATUS_PENDING) as [Hst|Hst]; cbn [negb].
  - cbn [fst bookings vehicles next_booking payments next_payment with_payments].
    do 3 (split; [reflexivity|]). split.
    + intros (Hrows & Hpay & Huniq). split; [exact Hrows|].
      split; [|exact Huniq]. cbn [payments next_payment with_payments].
      intros k p. rewrite insert_insert_eq.
      destruct (decide (k = next_payment db)) as [->|Hne]; [lia|].
      rewrite lookup_insert_ne by congruence. intros H.
      specialize (Hpay k p H). lia.
    + intros b _ Hb Hne. congruence.
  - do 3 (split; [reflexivity|]). split; [auto|]. reflexivity.
Qed.

(** X13: after the checkout of a pending booking, a webhook that reports
    "success" under the reference of the payment (the key of the payment as
    a string) finds that payment, marks it as paid and confirms the booking,
    provided no older payment carries that reference and [save] accepts the
    instance. *)
Theorem checkout_then_webhook (w : env) (user pk : nat) (db : DB)
    (b : Booking) :
  has_role db user ROLE_CUSTOMER = true ->
  get_customer_booking db user pk = Some b ->
  status b = STATUS_PENDING ->
  (forall k p, payments db !! k = Some p ->
               reference_id p <> str (next_payment db)) ->
  saveable fv db (Some pk) (set_status STATUS_CONFIRMED b) ->
  exists db1 p db2 b',
    checkout user pk db
    = (db1, Ok (CheckoutPayment (next_payment db) p
                  "Integrate Cashfree payment here."))
    /\ p = mkPayment pk "cashfree" (str (next_payment db)) PAYMENT_PENDING
             (total_price b)
    /\ payments db1 !! next_payment db = Some p
    /\ webhook fv w (mkWebhook (Some (reference_id p)) (Some PAYMENT_SUCCESS) None)
         db1
       = (db2, Ok (Detail 200 "Webhook processed."))
    /\ bookings db2 !! pk = Some b'
    /\ status b' = STATUS_CONFIRMED
    /\ payments db2
       = <[next_payment db :=
             mkPayment pk "cashfree" (str (next_payment db)) PAYMENT_SUCCESS
               (total_price b)]> (payments db)
    /\ next_payment db2 = S (next_payment db).
Proof.
  intros Hrole Hget Hst Hfresh (Hid & Hs & He & Hfc & v & total & Hv & Hct).
  pose proof (get_customer_booking_Some db user pk b Hget) as Hb.
  unfold checkout. rewrite Hrole, Hget, Hst. cbn [negb String.eqb].
  change (String.eqb STATUS_PENDING STATUS_PENDING) with true. cbn [negb].
  cbn [payments next_payment with_payments payment_booking provider
       payment_status amount].
  rewrite insert_insert_eq.
  set (k := next_payment db).
  set (p := mkPayment pk "cashfree" (str k) PAYMENT_PENDING (total_price b)).
  set (db1 := with_payments (<[k := p]> (payments db)) (S k)
                (with_payments (<[k := mkPayment pk "cashfree" ""
                                        PAYMENT_PENDING (total_price b)]>
                                  (payments db)) (S k) db)).
  assert (Hp1 : payments db1 = <[k := p]> (payments db)) by reflexivity.
  assert (Hget1 : get_payment db1 (str k) = Ok (Some (k, p))).
  { unfold get_payment.
    rewrite (filter_rows_singleton _ (payments db1) k p); [reflexivity| | |].
    - rewrite Hp1. apply lookup_insert_eq.
    - apply String.eqb_refl.
    - intros k' p' Hk' Hr. destruct (decide (k' = k)) as [->|Hne]; [reflexivity|].
      rewrite Hp1, lookup_insert_ne in Hk' by congruence.
      apply String.eqb_eq in Hr. now apply Hfresh in Hk'. }
  exists db1, p.
  unfold webhook. cbn [w_reference_id w_status w_booking_id reference_id p].
  assert (Ht : truthy (Some (str k)) = Some (str k)).
  { unfold truthy. pose proof (str_nonempty k) as Hn.
    apply String.eqb_neq in Hn. now rewrite Hn. }
  rewrite Ht, Hget1. unfold webhook_record.
  cbn [w_status truthy PAYMENT_SUCCESS String.eqb Ascii.eqb Bool.eqb].
  cbn [payment_booking p bookings with_payments db1]. rewrite Hb.
  unfold save_and_respond.
  match goal with
  | |- context [save fv w (Some pk) ?x ?db3] =>
      rewrite (save_Ok_intro fv w (Some pk) x db3 v total Hid Hs He Hfc Hv Hct)
  end.
  eexists _, _. split; [reflexivity|]. split; [reflexivity|].
  split; [rewrite Hp1; apply lookup_insert_eq|].
  split; [reflexivity|].
  cbn [bookings payments next_payment with_bookings with_payments].
  split; [apply lookup_insert_eq|]. split; [reflexivity|].
  split; [|reflexivity].
  rewrite Hp1, insert_insert_eq. reflexivity.
Qed.

End PaymentViews.

(** ** Quotes, availability and search *)

Section ReadViews.

Variable fv : Booking -> list verror.

Lemma get_payment_ambiguous (db : DB) (r : string) (k1 k2 : nat)
    (p1 p2 : Payment) :
  payments db !! k1 = Some p1 -> payments db !! k2 = Some p2 -> k1 <> k2 ->
  reference_id p1 = r -> reference_id p2 = r ->
  get_payment db r = Raise MultipleObjectsReturned.
Proof.
  intros H1 H2 Hne Hr1 Hr2. unfold get_payment.
  assert (Hin : forall k p, payments db !! k = Some p -> reference_id p = r ->
                  In (k, p) (filter_rows (fun _ p => String.eqb (reference_id p) r)
                               (payments db))).
  { intros k p Hk Hr. apply (proj2 (filter_rows_In _ _ _ _)). split; [exact Hk|].
    now apply String.eqb_eq. }
  pose proof (Hin k1 p1 H1 Hr1) as I1. pose proof (Hin k2 p2 H2 Hr2) as I2.
  destruct (filter_rows _ _) as [|a [|c l]]; [destruct I1| |reflexivity].
  destruct I1 as [E1|[]]. destruct I2 as [E2|[]]. congruence.
Qed.

(** X14: the reference that checkout gives to a payment is the key of the
    payment as a string; when an older payment carries the same reference (a
    webhook stores whatever reference it is sent), every webhook under that
    reference ends in [MultipleObjectsReturned] and changes nothing. *)
Theorem checkout_reference_clash (w : env) (user pk : nat) (db : DB)
    (b : Booking) (k0 : nat) (p0 : Payment) (d : webhook_data) :
  has_role db user ROLE_CUSTOMER = true ->
  get_customer_booking db user pk = Some b ->
  status b = STATUS_PENDING ->
  payments db !! k0 = Some p0 -> k0 <> next_payment db ->
  reference_id p0 = str (next_payment db) ->
  w_reference_id d = Some (str (next_payment db)) ->
  webhook fv w d (fst (checkout user pk db))
  = (fst (checkout user pk db), Raise MultipleObjectsReturned).
Proof.
  intros Hrole Hget Hst Hk0 Hne Hr0 Hd.
  unfold checkout. rewrite Hrole, Hget, Hst.
  change (String.eqb STATUS_PENDING STATUS_PENDING) with true.
  cbn [negb fst]. unfold webhook. rewrite Hd.
  assert (Ht : truthy (Some (str (next_payment db)))
               = Some (str (next_payment db))).
  { unfold truthy. pose proof (str_nonempty (next_payment db)) as Hn.
    apply String.eqb_neq in Hn. now rewrite Hn. }
  rewrite Ht.
  rewrite (get_payment_ambiguous _ (str (next_payment db)) k0 (next_payment db)
             p0 (mkPayment pk "cashfree" (str (next_payment db)) PAYMENT_PENDING
                   (total_price b))); [reflexivity| | |exact Hne|exact Hr0|reflexivity].
  - cbn [payments with_payments]. now rewrite !lookup_insert_ne by congruence.
  - cbn [payments with_payments]. apply lookup_insert_eq.
Qed.

(** X15: on a request that carries no search filter, a quote never writes.
    For a vehicle that is missing or inactive it ends in the not-found
    exception. For an active vehicle: a missing or empty parameter is
    answered 400 with the list of required parameters; otherwise a timestamp
    that is well formed but no valid date or time ends the request in the
    [ValueError] of [parse_datetime], which the view does not catch;
    otherwise a timestamp in no known format is answered 400 "Invalid
    datetime format."; and two parsed timestamps are priced by
    [calculate_total] with no fee, every failure of which, such as a window
    with one naive and one aware timestamp, is answered 400. *)
Theorem quote_read_only (vehicle_id : nat)
    (start_param end_param : datetime_param) (unit_param : option string)
    (db : DB) :
  fst (quote vehicle_id start_param end_param unit_param db) = db
  /\ ((forall v, vehicles db !! vehicle_id = Some v -> is_active v = false) ->
      snd (quote vehicle_id start_param end_param unit_param db)
      = Raise DoesNotExist)
  /\ (forall v,
        vehicles db !! vehicle_id = Some v -> is_active v = true ->
        (start_param = Absent \/ end_param = Absent
         \/ truthy unit_param = None ->
         snd (quote vehicle_id start_param end_param unit_param db)
         = Ok (Detail 400 "start_at, end_at, and pricing_unit are required."))
        /\ (start_param <> Absent -> end_param <> Absent ->
            truthy unit_param <> None ->
            start_param = Invalid \/ end_param = Invalid ->
            snd (quote vehicle_id start_param end_param unit_param db)
            = Raise ValueError)
        /\ (start_param <> Absent -> end_param <> Absent ->
            truthy unit_param <> None ->
            start_param <> Invalid -> end_param <> Invalid ->
            start_param = Malformed \/ end_param = Malformed ->
            snd (quote vehicle_id start_param end_param unit_param db)
            = Ok (Detail 400 "Invalid datetime format."))
        /\ (forall s e u,
              start_param = Parsed s -> end_param = Parsed e ->
              truthy unit_param = Some u ->
              snd (quote vehicle_id start_param end_param unit_param db)
              = match
                  calculate_total v
                    (mkBooking "" 0 vehicle_id s e "" "" (mkDec 0 (-2)) u
                       (mkDec 0 (-2)) STATUS_PENDING)
                with
                | Ok total => Ok (Quote vehicle_id total)
                | Raise _ => Ok (Detail 400 "Unable to calculate total.")
                end)
        /\ (forall s e u,
              start_param = Parsed s -> end_param = Parsed e ->
              truthy unit_param = Some u -> aware s <> aware e ->
              snd (quote vehicle_id start_param end_param unit_param db)
              = Ok (Detail 400 "Unable to calculate total."))).
Proof.
  unfold quote. destruct (vehicles db !! vehicle_id) as [v|] eqn:Hv.
  2:{ cbn. split; [reflexivity|]. split; [reflexivity | discriminate]. }
  destruct (is_active v) eqn:Ha; cbn [negb].
  2:{ cbn. split; [reflexivity|]. split; [reflexivity|].
      intros v0 H. injection H as <-. congruence. }
  split; [|split].
  - destruct (truthy unit_param), start_param, end_param; try reflexivity.
    cbn. now destruct (calculate_total v _).
  - intros H. specialize (H v eq_refl). congruence.
  - intros v0 H _. injection H as <-. split; [|split; [|split; [|split]]].
    + intros [-> | [-> | ->]]; [| |reflexivity].
      * now destruct (truthy unit_param).
      * now destruct (truthy unit_param), start_param.
    + intros Hs He Hu [-> | ->].
      * destruct (truthy unit_param); [|congruence]. now destruct end_param.
      * destruct (truthy unit_param); [|congruence].
        now destruct start_param.
    + intros Hs He Hu Hsi Hei [-> | ->].
      * destruct (truthy unit_param); [|congruence].
        now destruct end_param.
      * destruct (truthy unit_param); [|congruence].
        now destruct start_param.
    + intros s e u -> -> ->. cbn. now destruct (calculate_total v _).
    + intros s e u -> -> -> Hmix. cbn.
      unfold calculate_total, duration_hours, datetime_sub.
      cbn [start_at end_at].
      destruct (Bool.eqb (aware e) (aware s)) eqn:Heq; [|reflexivity].
      apply Bool.eqb_prop in Heq. congruence.
Qed.

Lemma quantize_shape (a : Decimal) (e : Z) (r : Decimal) :
  quantize a e = Ok r -> dexp r = e /\ ndigits (coef r) <= 28.
Proof.
  unfold quantize, prec. destruct (coef a =? 0).
  - intros H. injection H as <-. split; [reflexivity | now vm_compute].
  - destruct (28 <? ndigits (coef a) + dexp a - e); [discriminate|].
    destruct (Z.ltb_spec 28 (ndigits (coef (rescale a e)))) as [|Hn];
      [discriminate|].
    intros H. injection H as <-. split; [|exact Hn].
    unfold rescale. now destruct (e <=? dexp a).
Qed.

(** Adding no fee to a base price gives the base price back. *)
Lemma base_plus_zero (base t0 : Decimal) :
  dexp base = -2 -> ndigits (coef base) <= 28 ->
  quantize (add base (mkDec 0 (-2))) (-2) = Ok t0 -> t0 = base.
Proof.
  destruct base as [c e]. cbn [coef dexp]. intros -> Hn.
  unfold add, fix_, prec. cbn [coef dexp].
  rewrite Z.min_id, Z.sub_diag. change (10 ^ 0) with 1.
  rewrite Z.mul_1_r, Z.add_0_r.
  destruct (Z.leb_spec (ndigits c) 28) as [_|]; [|lia].
  unfold quantize, prec, rescale. cbn [coef dexp].
  destruct (Z.eqb_spec c 0) as [->|Hc]; [congruence|].
  destruct (Z.ltb_spec 28 (ndigits c + -2 - -2)) as [|_]; [lia|].
  cbn [Z.leb Z.compare Z.sub Z.opp Z.add Pos.compare Pos.compare_cont coef].
  change (-2 <=? -2) with true. cbv iota. cbn [coef].
  change (-2 - -2) with 0. change (10 ^ 0) with 1. rewrite Z.mul_1_r.
  destruct (Z.ltb_spec 28 (ndigits c)) as [|_]; [lia | congruence].
Qed.

(** The price with a delivery fee is the price without one plus the fee. *)
Lemma calculate_total_fee (v : Vehicle) (b0 b : Booking) (t0 : Decimal) :
  start_at b = start_at b0 -> end_at b = end_at b0 ->
  pricing_unit b = pricing_unit b0 ->
  delivery_fee b0 = mkDec 0 (-2) -> money (delivery_fee b) ->
  calculate_total v b0 = Ok t0 -> 0 <= coef t0 < 10 ^ 27 ->
  calculate_total v b
  = Ok (mkDec (coef t0 + coef (delivery_fee b)) (-2)).
Proof.
  intros Hs He Hu Hf0 Mf.
  assert (Htail : forall x,
             match quantize x (-2) with
             | Ok base => quantize (add base (delivery_fee b0)) (-2)
             | Raise e => Raise e
             end = Ok t0 ->
             0 <= coef t0 < 10 ^ 27 ->
             match quantize x (-2) with
             | Ok base => quantize (add base (delivery_fee b)) (-2)
             | Raise e => Raise e
             end = Ok (mkDec (coef t0 + coef (delivery_fee b)) (-2))).
  { intros x.
    destruct (quantize x (-2)) as [base|] eqn:Hq; [|discriminate].
    apply quantize_shape in Hq. destruct Hq as [Hd Hn].
    rewrite Hf0. intros H Ht. apply base_plus_zero in H; [|assumption..].
    subst t0. destruct base as [c e]. cbn [coef dexp] in *. subst e.
    destruct (money_value _ Mf) as [Ef _]. rewrite Ef.
    apply total_of_base; [exact Ht | apply Mf]. }
  assert (Hh : duration_hours b = duration_hours b0)
    by (unfold duration_hours; now rewrite Hs, He).
  unfold calculate_total. rewrite Hh, Hu. unfold mbind, result_bind.
  destruct (duration_hours b0) as [hours|]; [|discriminate].
  destruct (String.eqb (pricing_unit b0) UNIT_HOURLY); [apply Htail|].
  destruct (String.eqb (pricing_unit b0) UNIT_DAILY).
  - destruct (div hours (mkDec 24 0)) as [d|]; [|discriminate].
    destruct (quantize d (-2)) as [days|]; [|discriminate]. apply Htail.
  - destruct (div hours (mkDec (24 * 7) 0)) as [d|]; [|discriminate].
    destruct (quantize d (-2)) as [weeks|]; [|discriminate]. apply Htail.
Qed.

(** X16: the price stored when a booking is created is the quote for the
    same vehicle, window and pricing unit plus the delivery fee of the
    booking: the quote is computed without a fee. *)
Theorem created_price_is_quote_plus_fee (w : env) (user : nat)
    (d : booking_data) (db db' : DB) (k : nat) (b' : Booking) (vid : nat)
    (t0 : Decimal) :
  perform_create fv w user d db = (db', Ok (Created k b')) ->
  snd (quote (d_vehicle d) (Parsed (d_start_at d)) (Parsed (d_end_at d))
         (Some (d_pricing_unit d)) db) = Ok (Quote vid t0) ->
  0 <= coef t0 < 10 ^ 27 -> money (delivery_fee b') ->
  total_price b' = mkDec (coef t0 + coef (delivery_fee b')) (-2).
Proof.
  intros Hc Hq Ht Mf.
  apply perform_create_Ok_inv in Hc.
  destruct Hc as (v & b2 & Hr & _ & Hv & _ & _ & _ & _ & _ & _ & Hs & He & Hu
                  & _ & _ & _ & Hct).
  inversion Hr; subst k b2; clear Hr.
  unfold quote in Hq. rewrite Hv in Hq.
  destruct (is_active v); cbn [negb] in Hq; [|discriminate].
  destruct (truthy (Some (d_pricing_unit d))) as [u|] eqn:Hu'; [|discriminate].
  assert (u = d_pricing_unit d) as ->.
  { unfold truthy in Hu'. destruct (String.eqb _ ""); congruence. }
  cbn [present andb parse_datetime] in Hq.
  match type of Hq with
  | context [calculate_total v ?x] =>
      destruct (calculate_total v x) as [t|] eqn:Hct0; [|discriminate]
  end.
  cbn [snd] in Hq. inversion Hq; subst; clear Hq.
  match type of Hct0 with
  | calculate_total v ?x = _ =>
      pose proof (calculate_total_fee v x b' t0 Hs He Hu eq_refl Mf Hct0 Ht)
        as H
  end.
  congruence.
Qed.

End ReadViews.

(** ** Booked slots and the search filter *)

Section Slots.

Lemma insert_by_start_In (x y : nat * Booking) (l : list (nat * Booking)) :
  In y (insert_by_start x l) <-> y = x \/ In y l.
Proof.
  induction l as [|z l IH]; cbn [insert_by_start].
  - cbn. intuition.
  - destruct (_ <=? _); cbn [In]; [intuition|]. rewrite IH. intuition.
Qed.

Lemma insert_by_start_length (x : nat * Booking) (l : list (nat * Booking)) :
  length (insert_by_start x l) = S (length l).
Proof.
  induction l as [|z l IH]; cbn [insert_by_start]; [reflexivity|].
  destruct (_ <=? _); cbn [length]; [reflexivity | now rewrite IH].
Qed.

Lemma insert_by_start_sorted (x : nat * Booking) (l : list (nat * Booking)) :
  StronglySorted by_start l -> StronglySorted by_start (insert_by_start x l).
Proof.
  induction l as [|z l IH]; cbn [insert_by_start]; intros Hs.
  - constructor; [constructor | constructor].
  - apply StronglySorted_inv in Hs. destruct Hs as [Hl Hz].
    destruct (Z.leb_spec (micros (start_at (snd x))) (micros (start_at (snd z))))
      as [Hle|Hgt].
    + constructor; [constructor; assumption|].
      constructor; [exact Hle|].
      rewrite List.Forall_forall in Hz |- *. intros y Hy.
      specialize (Hz y Hy). unfold by_start in *. lia.
    + constructor; [apply IH, Hl|].
      rewrite List.Forall_forall in Hz |- *. intros y Hy.
      apply (proj1 (insert_by_start_In _ _ _)) in Hy. destruct Hy as [->|Hy].
      * unfold by_start. lia.
      * exact (Hz y Hy).
Qed.

Lemma order_by_start_In (y : nat * Booking) (l : list (nat * Booking)) :
  In y (order_by_start l) <-> In y l.
Proof.
  induction l as [|x l IH]; cbn [order_by_start fold_right]; [tauto|].
  fold (order_by_start l). rewrite insert_by_start_In, IH. cbn. intuition.
Qed.

Lemma order_by_start_length (l : list (nat * Booking)) :
  length (order_by_start l) = length l.
Proof.
  induction l as [|x l IH]; cbn [order_by_start fold_right]; [reflexivity|].
  fold (order_by_start l). now rewrite insert_by_start_length, IH.
Qed.

Lemma order_by_start_sorted (l : list (nat * Booking)) :
  StronglySorted by_start (order_by_start l).
Proof.
  induction l as [|x l IH]; cbn [order_by_start fold_right]; [constructor|].
  now apply insert_by_start_sorted.
Qed.

(** X17: for an active vehicle and a window, the availability endpoint
    lists, without writing, one slot for every pending or confirmed booking
    of the vehicle that overlaps the window, and nothing else, in the order
    of their start. *)
Theorem availability_lists_conflicts (vid : nat) (s e : datetime) (db : DB)
    (v : Vehicle) :
  vehicles db !! vid = Some v -> is_active v = true ->
  exists slots,
    availability vid (Parsed s) (Parsed e) db = (db, Ok (BookedSlots vid slots))
    /\ (forall slot,
          In slot slots <->
          exists pk b, bookings db !! pk = Some b
                       /\ overlap_lookup vid s e b = true
                       /\ slot = (start_at b, end_at b, status b))
    /\ length slots
       = length (filter_rows (fun _ => overlap_lookup vid s e) (bookings db))
    /\ StronglySorted
         (fun x y => micros (fst (fst x)) <= micros (fst (fst y))) slots.
Proof.
  intros Hv Ha. unfold availability. rewrite Hv, Ha.
  cbn [negb present andb parse_datetime].
  eexists. split; [reflexivity|]. split; [|split].
  - intros slot. rewrite in_map_iff. split.
    + intros ([pk b] & <- & Hin).
      apply (proj1 (order_by_start_In _ _)) in Hin.
      apply (proj1 (filter_rows_In _ _ _ _)) in Hin. destruct Hin as [Hpk Hf].
      exists pk, b. auto.
    + intros (pk & b & Hpk & Hf & ->). exists (pk, b). split; [reflexivity|].
      apply (proj2 (order_by_start_In _ _)), (proj2 (filter_rows_In _ _ _ _)).
      auto.
  - now rewrite length_map, order_by_start_length.
  - set (rows := order_by_start _).
    pose proof (order_by_start_sorted
                  (filter_rows (fun _ => overlap_lookup vid s e) (bookings db)))
      as Hs.
    fold rows in Hs. clearbody rows.
    induction Hs as [|x l Hl IH Hx]; cbn [map]; constructor; [exact IH|].
    rewrite List.Forall_forall in Hx |- *. intros y Hy.
    apply in_map_iff in Hy. destruct Hy as (z & <- & Hz).
    exact (Hx z Hz).
Qed.

Lemma conflict_ids_In (vid : nat) (s e : datetime) (db : DB) :
  existsb (Nat.eqb vid) (conflict_ids s e db)
  = exists_row (fun _ => overlap_lookup vid s e) (bookings db).
Proof.
  apply eq_true_iff_eq.
  rewrite existsb_exists, exists_row_true. unfold conflict_ids. split.
  - intros (x & Hin & Hx). apply Nat.eqb_eq in Hx. subst x.
    apply in_map_iff in Hin. destruct Hin as ([pk b] & Hveh & Hin).
    apply (proj1 (filter_rows_In _ _ _ _)) in Hin. destruct Hin as [Hpk Hf].
    exists pk, b. split; [exact Hpk|]. unfold overlap_lookup.
    cbn [snd] in Hveh. rewrite Hveh, Nat.eqb_refl.
    now rewrite <- !andb_assoc in *.
  - intros (pk & b & Hpk & Hf). unfold overlap_lookup in Hf.
    rewrite <- !andb_assoc in Hf. apply andb_true_iff in Hf.
    destruct Hf as [Hveh Hf]. apply Nat.eqb_eq in Hveh.
    exists vid. split; [|apply Nat.eqb_refl].
    apply in_map_iff. exists (pk, b). split; [exact Hveh|].
    apply (proj2 (filter_rows_In _ _ _ _)). split; [exact Hpk|].
    now rewrite <- !andb_assoc.
Qed.

(** X18: the search with [available_only] set, the [is_booked] flag of
    the serializer and the conflict check of a booking request agree: a
    vehicle stays in the search result exactly when no pending or confirmed
    booking of it overlaps the window, in which case its [is_booked] is false
    and a booking request for the window is not refused as a conflict;
    without the flag, or without both timestamps, the search result is
    unfiltered. *)
Theorem search_agrees_with_conflict_check (s e : datetime) (flag : string)
    (db : DB) (queryset : list (nat * Vehicle)) :
  (In flag ["1"; "true"; "yes"]%string ->
   forall vid v,
     In (vid, v) (exclude_unavailable (Some s) (Some e) (Some flag) db queryset)
     <-> In (vid, v) queryset
         /\ exists_row (fun _ => overlap_lookup vid s e) (bookings db) = false)
  /\ (forall vid, get_is_booked vid (Some s) (Some e) db
                  = exists_row (fun _ => overlap_lookup vid s e) (bookings db))
  /\ (~ In flag ["1"; "true"; "yes"]%string ->
      exclude_unavailable (Some s) (Some e) (Some flag) db queryset = queryset)
  /\ (forall sp ep,
        exclude_unavailable sp ep None db queryset = queryset
        /\ exclude_unavailable None ep (Some flag) db queryset = queryset
        /\ exclude_unavailable sp None (Some flag) db queryset = queryset).
Proof.
  split; [|split; [|split]].
  - intros Hflag vid v. unfold exclude_unavailable.
    apply in_choices_true in Hflag. rewrite Hflag.
    rewrite filter_In. cbn [fst]. rewrite conflict_ids_In.
    now rewrite negb_true_iff.
  - reflexivity.
  - intros Hflag. unfold exclude_unavailable.
    destruct (in_choices flag _) eqn:Hc; [|reflexivity].
    apply in_choices_true in Hc. contradiction.
  - intros sp ep. unfold exclude_unavailable.
    repeat split; destruct sp; try destruct ep; reflexivity.
Qed.

End Slots.

(** ** Identifiers and repeated saves *)

Section SaveAgain.

Variable fv : Booking -> list verror.

(** X19: when another row already carries the identifier (the one of the
    instance, or the one generated for an instance without), [save] refuses
    with a validation error and writes nothing; the error names
    [booking_id] as not unique unless a field validator has already
    complained about that field. *)
Theorem save_rejects_duplicate_id (w : env) (pk : option nat) (b : Booking)
    (db : DB) (k : nat) (r : Booking) :
  aware (start_at b) = true -> aware (end_at b) = true ->
  bookings db !! k = Some r -> Some k <> pk ->
  booking_id r = (if String.eqb (booking_id b) "" then generate_id w
                  else booking_id b) ->
  exists errs,
    save fv w pk b db = Raise (ValidationError errs)
    /\ (existsb is_booking_id_error
          (clean_fields fv db
             (if String.eqb (booking_id b) ""
              then set_booking_id (generate_id w) b else b)) = false ->
        In (NotUnique "booking_id") errs).
Proof.
  intros Hs He Hk Hpk Hid. unfold save, is_naive. rewrite Hs, He. cbn [negb orb].
  set (b1 := if String.eqb (booking_id b) "" then set_booking_id (generate_id w) b
             else b).
  assert (Hid1 : booking_id r = booking_id b1)
    by (unfold b1; rewrite Hid; now destruct (String.eqb _ _)).
  assert (Hu : validate_unique db pk b1 = [NotUnique "booking_id"]).
  { unfold validate_unique.
    rewrite (proj2 (exists_row_true _ (bookings db))); [reflexivity|].
    exists k, r. split; [exact Hk|].
    rewrite Hid1, String.eqb_refl, bool_decide_eq_false_2 by exact Hpk.
    reflexivity. }
  assert (Ha1 : aware (start_at b1) = aware (end_at b1)).
  { unfold b1. destruct (String.eqb _ _); cbn; congruence. }
  unfold full_clean. rewrite Hu.
  destruct (Z.lt_ge_cases (micros (start_at b1)) (micros (end_at b1)))
    as [Hlt|Hge].
  - rewrite (clean_accepts b1 Ha1 Hlt).
    destruct (existsb is_booking_id_error (clean_fields fv db b1)) eqn:Hex.
    + rewrite app_nil_r.
      destruct (clean_fields fv db b1) as [|x l] eqn:Hf; [discriminate|].
      cbn. eexists. split; [reflexivity | discriminate].
    + destruct (clean_fields fv db b1 ++ _) as [|x l] eqn:Happ.
      * apply app_eq_nil in Happ. destruct Happ; discriminate.
      * cbn. eexists. split; [reflexivity|]. intros _. rewrite <- Happ.
        apply in_or_app. right. now left.
  - rewrite (clean_rejects b1 Ha1 Hge). cbn. eexists. split; [reflexivity|].
    intros ->. apply in_or_app. right. right. now left.
Qed.

(** X20: saving again the instance that [save] has just returned changes
    nothing, whatever the clock and the random draws: the identifier is
    kept, the validation passes again and the same price comes out
    (provided the field validators accept the instance with its new
    price). *)
Theorem save_again_changes_nothing (w w' : env) (pk : option nat)
    (b : Booking) (db db' : DB) (k : nat) (b' : Booking) :
  save fv w pk b db = Ok (db', k, b') ->
  fv b' = [] ->
  save fv w' (Some k) b' db' = Ok (db', k, b').
Proof.
  intros H Hfv.
  pose proof (save_Ok_db fv w pk b db db' k b' H) as Hdb.
  pose proof (save_Ok_valid fv w pk b db db' k b' H)
    as ((Hid & Hs & He & Hlt & Hunit & Hst) & (v & Hv & Hct) & Hu & _).
  assert (Hbk : bookings db' = <[k := b']> (bookings db)) by now rewrite Hdb.
  assert (Hfc : full_clean fv db' (Some k) b' = Ok tt).
  { apply full_clean_Ok_intro.
    - apply clean_accepts; [congruence | exact Hlt].
    - unfold clean_fields, validate_choice. rewrite Hv, Hfv.
      apply in_choices_true in Hunit. apply in_choices_true in Hst.
      rewrite Hunit, Hst.
      assert (pricing_unit b' <> ""%string)
        by (intros E; rewrite E in Hunit; discriminate).
      assert (status b' <> ""%string)
        by (intros E; rewrite E in Hst; discriminate).
      now rewrite (proj2 (String.eqb_neq _ _)), (proj2 (String.eqb_neq _ _)).
    - apply validate_unique_nil. intros k0 r Hk0 Hr. f_equal.
      exact (Hu k0 r Hk0 Hr). }
  rewrite (save_Ok_intro fv w' (Some k) b' db' v (total_price b') Hid Hs He Hfc
             Hv Hct).
  assert (Hb' : set_total_price (total_price b') b' = b') by now destruct b'.
  rewrite Hb'. f_equal. f_equal. f_equal.
  rewrite Hdb at 3. rewrite Hbk, insert_insert_eq. rewrite Hdb. reflexivity.
Qed.

End SaveAgain.

(** ** Consequences of the pricing rule *)

Section PricingExtras.

Lemma round_half_even_mono (n n' d : Z) :
  0 < d -> n <= n' -> round_half_even n d <= round_half_even n' d.
Proof.
  intros Hd Hle. destruct (Z.eq_dec n n') as [->|Hne]; [lia|].
  pose proof (round_half_even_near n d Hd).
  pose proof (round_half_even_near n' d Hd). nia.
Qed.

Lemma round_half_even_small (s d : Z) :
  0 < d -> 0 <= s -> 2 * s <= d -> round_half_even s d = 0.
Proof.
  intros Hd Hs Hle. unfold round_half_even.
  rewrite Z.div_small, Z.mod_small by lia.
  destruct (Z.ltb_spec (2 * s) d); [reflexivity|].
  destruct (Z.ltb_spec d (2 * s)); [lia | reflexivity].
Qed.

(** X21: whole units are priced exactly: [n] hours at the hourly rate,
    [n] days at the daily rate and [n] weeks at the weekly rate cost [n]
    times the rate plus the delivery fee. *)
Theorem whole_units_price (v : Vehicle) (b : Booking) (n unit_seconds : Z) :
  aware (start_at b) = aware (end_at b) ->
  micros (end_at b) - micros (start_at b) = n * unit_seconds * 10 ^ 6 ->
  0 < n -> n * unit_seconds <= MAX_SECONDS ->
  money (hourly_rate v) -> money (daily_rate v) -> money (weekly_rate v) ->
  money (delivery_fee b) ->
  (pricing_unit b = UNIT_HOURLY -> unit_seconds = 3600 ->
   calculate_total v b
   = Ok (mkDec (n * coef (hourly_rate v) + coef (delivery_fee b)) (-2)))
  /\ (pricing_unit b = UNIT_DAILY -> unit_seconds = 24 * 3600 ->
      calculate_total v b
      = Ok (mkDec (n * coef (daily_rate v) + coef (delivery_fee b)) (-2)))
  /\ (pricing_unit b = UNIT_WEEKLY -> unit_seconds = 7 * 24 * 3600 ->
      calculate_total v b
      = Ok (mkDec (n * coef (weekly_rate v) + coef (delivery_fee b)) (-2))).
Proof.
  intros Ha Hd Hn Hmax Mh Md Mw Mf.
  assert (Hcents : unit_seconds = 3600 \/ unit_seconds = 24 * 3600
                   \/ unit_seconds = 7 * 24 * 3600 ->
                   0 < n * unit_seconds <= MAX_SECONDS) by lia.
  split; [|split]; intros Hu ->.
  - destruct (calculate_total_cents v b (n * 3600) Ha Hd ltac:(lia) Mh Md Mw Mf)
      as (H & _ & _).
    rewrite (H Hu); [|left; exists (n * 400); lia].
    replace (n * 3600 * coef (hourly_rate v))
      with (n * coef (hourly_rate v) * 3600) by lia.
    now rewrite round_half_even_exact.
  - destruct (calculate_total_cents v b (n * (24 * 3600)) Ha Hd ltac:(lia)
                Mh Md Mw Mf) as (_ & H & _).
    rewrite (H Hu).
    replace (n * (24 * 3600)) with (100 * n * 864) by lia.
    rewrite round_half_even_exact by lia.
    replace (100 * n * coef (daily_rate v))
      with (n * coef (daily_rate v) * 100) by lia.
    now rewrite round_half_even_exact.
  - destruct (calculate_total_cents v b (n * (7 * 24 * 3600)) Ha Hd ltac:(lia)
                Mh Md Mw Mf) as (_ & _ & H).
    rewrite (H Hu).
    replace (n * (7 * 24 * 3600)) with (100 * n * 6048) by lia.
    rewrite round_half_even_exact by lia.
    replace (100 * n * coef (weekly_rate v))
      with (n * coef (weekly_rate v) * 100) by lia.
    now rewrite round_half_even_exact.
Qed.

(** X22: the days and weeks of a window are rounded to two places before
    they are multiplied by the rate, so a short window costs the delivery
    fee alone: up to 432 seconds at the daily rate, up to 3024 seconds at the
    weekly rate, whatever the rate. *)
Theorem short_window_costs_fee (v : Vehicle) (b : Booking) (s : Z) :
  aware (start_at b) = aware (end_at b) ->
  micros (end_at b) - micros (start_at b) = s * 10 ^ 6 ->
  0 < s ->
  money (hourly_rate v) -> money (daily_rate v) -> money (weekly_rate v) ->
  money (delivery_fee b) ->
  (pricing_unit b = UNIT_DAILY -> s <= 432 ->
   calculate_total v b = Ok (delivery_fee b))
  /\ (pricing_unit b = UNIT_WEEKLY -> s <= 3024 ->
      calculate_total v b = Ok (delivery_fee b)).
Proof.
  intros Ha Hd Hs Mh Md Mw Mf.
  destruct (money_value _ Mf) as [Ef _].
  split; intros Hu Hle.
  - destruct (calculate_total_cents v b s Ha Hd ltac:(unfold MAX_SECONDS; lia)
                Mh Md Mw Mf) as (_ & H & _).
    rewrite (H Hu), (round_half_even_small s 864) by lia.
    rewrite Z.mul_0_l. change (round_half_even 0 100) with 0.
    now rewrite Z.add_0_l, <- Ef.
  - destruct (calculate_total_cents v b s Ha Hd ltac:(unfold MAX_SECONDS; lia)
                Mh Md Mw Mf) as (_ & _ & H).
    rewrite (H Hu), (round_half_even_small s 6048) by lia.
    rewrite Z.mul_0_l. change (round_half_even 0 100) with 0.
    now rewrite Z.add_0_l, <- Ef.
Qed.

(** X23: at the daily and at the weekly rate a longer window never costs
    less: for two windows of whole seconds priced with the same rates and
    fee, the price of the shorter one is at most the price of the longer
    one. *)
Theorem longer_window_costs_no_less (v : Vehicle) (b1 b2 : Booking)
    (s1 s2 : Z) :
  aware (start_at b1) = aware (end_at b1) ->
  aware (start_at b2) = aware (end_at b2) ->
  micros (end_at b1) - micros (start_at b1) = s1 * 10 ^ 6 ->
  micros (end_at b2) - micros (start_at b2) = s2 * 10 ^ 6 ->
  0 < s1 <= s2 -> s2 <= MAX_SECONDS ->
  money (hourly_rate v) -> money (daily_rate v) -> money (weekly_rate v) ->
  money (delivery_fee b1) -> delivery_fee b2 = delivery_fee b1 ->
  pricing_unit b2 = pricing_unit b1 ->
  pricing_unit b1 = UNIT_DAILY \/ pricing_unit b1 = UNIT_WEEKLY ->
  exists t1 t2,
    calculate_total v b1 = Ok t1 /\ calculate_total v b2 = Ok t2
    /\ dexp t1 = -2 /\ dexp t2 = -2 /\ coef t1 <= coef t2.
Proof.
  intros Ha1 Ha2 Hd1 Hd2 Hs Hmax Mh Md Mw Mf Hfee Hunit Hu.
  assert (Mf2 : money (delivery_fee b2)) by now rewrite Hfee.
  destruct (calculate_total_cents v b1 s1 Ha1 Hd1 ltac:(lia) Mh Md Mw Mf)
    as (_ & D1 & W1).
  destruct (calculate_total_cents v b2 s2 Ha2 Hd2 ltac:(lia) Mh Md Mw Mf2)
    as (_ & D2 & W2).
  assert (Hmono : forall n rc, 0 < n -> 0 <= rc ->
            round_half_even (round_half_even s1 n * rc) 100
            <= round_half_even (round_half_even s2 n * rc) 100).
  { intros n rc Hn Hrc. apply round_half_even_mono; [lia|].
    pose proof (round_half_even_mono s1 s2 n Hn ltac:(lia)). nia. }
  destruct Hu as [Hu|Hu].
  - rewrite (D1 Hu), (D2 ltac:(congruence)). eexists _, _.
    do 4 (split; [reflexivity|]). cbn [coef]. rewrite Hfee.
    pose proof (Hmono 864 (coef (daily_rate v)) ltac:(lia) ltac:(apply Md)).
    lia.
  - rewrite (W1 Hu), (W2 ltac:(congruence)). eexists _, _.
    do 4 (split; [reflexivity|]). cbn [coef]. rewrite Hfee.
    pose proof (Hmono 6048 (coef (weekly_rate v)) ltac:(lia) ltac:(apply Mw)).
    lia.
Qed.

(** X24: for a window of [s] whole seconds, [duration_hours] returns a
    decimal of at most 28 digits within one part in 10^27 of [s / 3600], and
    exactly [s / 3600] when [s] is a multiple of nine seconds (the hours
    then have finitely many decimals). *)
Theorem duration_hours_accuracy (b : Booking) (s : Z) :
  aware (start_at b) = aware (end_at b) ->
  micros (end_at b) - micros (start_at b) = s * 10 ^ 6 ->
  0 < s <= MAX_SECONDS ->
  exists h,
    duration_hours b = Ok h
    /\ 0 < coef h < 10 ^ 28
    /\ (Qabs (value h - inject_Z s * (1 # 3600)) <= value h * ULP)%Q
    /\ ((9 | s) -> (value h == inject_Z s * (1 # 3600))%Q).
Proof.
  intros Ha Hd Hs. rewrite (window_hours b s Ha Hd Hs).
  destruct (hours_value s Hs) as (ch & eh & Hdiv & Hch & H1 & H2 & Hex).
  exists (mkDec ch eh). split; [exact Hdiv|]. split; [exact Hch|].
  split; [|exact Hex].
  apply Qabs_Qle_condition. split; [|exact H1].
  set (x := value (mkDec ch eh)) in *. set (y := (inject_Z s * (1 # 3600))%Q) in *.
  set (u := (x * ULP)%Q) in *. clearbody x y u. lra.
Qed.

(** The exceptions of [calculate_total] over decimals whose exponents stay
    inside the limits of the context: [TypeError], when one timestamp is
    naive and the other aware, and the [InvalidOperation] of a [quantize]
    that runs out of the 28 digits. *)
Lemma calculate_total_raises (v : Vehicle) (b : Booking) :
  (aware (start_at b) <> aware (end_at b) ->
   calculate_total v b = Raise TypeError)
  /\ (forall e, calculate_total v b = Raise e ->
        (e = TypeError /\ aware (start_at b) <> aware (end_at b))
        \/ e = InvalidOperation).
Proof.
  assert (Hq : forall x e r, quantize x e = Raise r -> r = InvalidOperation).
  { intros x e r. unfold quantize. destruct (coef x =? 0); [discriminate|].
    destruct (prec <? _); [congruence|].
    destruct (prec <? _); [congruence | discriminate]. }
  assert (Hdiv : forall x n r, n <> 0 -> div x (mkDec n 0) <> Raise r).
  { intros x n r Hn. unfold div. cbn [coef].
    destruct (Z.eqb_spec n 0); [contradiction|].
    destruct (coef x =? 0); [discriminate|].
    destruct (_ =? 0); discriminate. }
  split.
  - intros Hne. unfold calculate_total, duration_hours, datetime_sub.
    destruct (Bool.eqb (aware (end_at b)) (aware (start_at b))) eqn:Heq;
      [|reflexivity].
    apply Bool.eqb_prop in Heq. congruence.
  - intros e. unfold calculate_total, duration_hours, datetime_sub.
    destruct (Bool.eqb (aware (end_at b)) (aware (start_at b))) eqn:Heq.
    2:{ cbn. intros H. injection H as <-. left. split; [reflexivity|].
        intros E. rewrite E, Bool.eqb_reflx in Heq. discriminate. }
    unfold mbind, result_bind.
    destruct (div _ (mkDec 3600 0)) as [hours|r] eqn:Hh;
      [|now apply Hdiv in Hh].
    assert (Htail : forall x,
               match quantize x (-2) with
               | Ok base => quantize (add base (delivery_fee b)) (-2)
               | Raise e => Raise e
               end = Raise e -> e = InvalidOperation).
    { intros x. destruct (quantize x (-2)) as [base|r] eqn:H1.
      - apply Hq.
      - intros H. injection H as <-. exact (Hq _ _ _ H1). }
    destruct (String.eqb (pricing_unit b) UNIT_HOURLY).
    { intros H. right. exact (Htail _ H). }
    destruct (String.eqb (pricing_unit b) UNIT_DAILY).
    + destruct (div hours (mkDec 24 0)) as [d|r] eqn:Hd;
        [|now apply Hdiv in Hd].
      destruct (quantize d (-2)) as [days|r] eqn:H1.
      * intros H. right. exact (Htail _ H).
      * intros H. injection H as <-. right. exact (Hq _ _ _ H1).
    + destruct (div hours (mkDec (24 * 7) 0)) as [d|r] eqn:Hd;
        [|now apply Hdiv in Hd].
      destruct (quantize d (-2)) as [weeks|r] eqn:H1.
      * intros H. right. exact (Htail _ H).
      * intros H. injection H as <-. right. exact (Hq _ _ _ H1).
Qed.


(** X25: [calculate_total] raises [TypeError] exactly when one timestamp is
    naive and the other aware (the subtraction of the two datetimes, before
    anything is priced), and it never divides by zero: its divisors are the
    constants 3600, 24 and 168. *)
Theorem calculate_total_type_error (v : Vehicle) (b : Booking) :
  (aware (start_at b) <> aware (end_at b) ->
   calculate_total v b = Raise TypeError)
  /\ (calculate_total v b = Raise TypeError ->
      aware (start_at b) <> aware (end_at b))
  /\ calculate_total v b <> Raise DivisionByZero.
Proof.
  destruct (calculate_total_raises v b) as [H1 H2].
  split; [exact H1|]. split.
  - intros H. destruct (H2 _ H) as [[_ Hm]|E]; [exact Hm | discriminate].
  - intros H. destruct (H2 _ H) as [[E _]|E]; discriminate.
Qed.

(** X28: the price in whole hundredths.  For a window of [s] whole seconds
    and rates and fee in hundredths, the hourly price is [s * rate / 3600]
    rounded half-even, the daily price is [days * rate / 100] rounded
    half-even for [days] the hundredths of a day in the window, [s / 864]
    rounded half-even, and the weekly price likewise with [s / 6048]; the
    delivery fee is added to each.  For the hourly price this holds when the
    window is a multiple of nine seconds or the product is not halfway
    between two hundredths. *)
Theorem price_in_hundredths (v : Vehicle) (b : Booking) (s : Z) :
  aware (start_at b) = aware (end_at b) ->
  micros (end_at b) - micros (start_at b) = s * 10 ^ 6 ->
  0 < s <= MAX_SECONDS ->
  money (hourly_rate v) -> money (daily_rate v) -> money (weekly_rate v) ->
  money (delivery_fee b) ->
  (pricing_unit b = UNIT_HOURLY ->
   (9 | s) \/ (s * coef (hourly_rate v)) mod 3600 <> 1800 ->
   calculate_total v b
   = Ok (mkDec (round_half_even (s * coef (hourly_rate v)) 3600
                + coef (delivery_fee b)) (-2)))
  /\ (pricing_unit b = UNIT_DAILY ->
      calculate_total v b
      = Ok (mkDec (round_half_even
                     (round_half_even s 864 * coef (daily_rate v)) 100
                   + coef (delivery_fee b)) (-2)))
  /\ (pricing_unit b = UNIT_WEEKLY ->
      calculate_total v b
      = Ok (mkDec (round_half_even
                     (round_half_even s 6048 * coef (weekly_rate v)) 100
                   + coef (delivery_fee b)) (-2))).
Proof. exact (calculate_total_cents v b s). Qed.

End PricingExtras.

(** ** Collisions of identifiers *)

Section Collisions.

Lemma append_inj_length (s1 s2 t1 t2 : string) :
  String.length s1 = String.length s2 ->
  (s1 ++ t1)%string = (s2 ++ t2)%string -> s1 = s2 /\ t1 = t2.
Proof.
  revert s2. induction s1 as [|c s1 IH]; intros [|c2 s2] Hl H;
    try discriminate; cbn in *.
  - auto.
  - injection H as -> H. injection Hl as Hl.
    destruct (IH s2 Hl H) as [-> ->]. auto.
Qed.

Lemma digit_char_inj (a b : Z) :
  digit_char a = digit_char b -> a mod 10 = b mod 10.
Proof.
  unfold digit_char. intros H.
  pose proof (Z.mod_pos_bound a 10 ltac:(lia)).
  pose proof (Z.mod_pos_bound b 10 ltac:(lia)).
  apply (f_equal nat_of_ascii) in H.
  rewrite !nat_ascii_embedding in H by lia. lia.
Qed.

Lemma zero_padded_inj (width : nat) (n m : Z) :
  0 <= n < 10 ^ Z.of_nat width -> 0 <= m < 10 ^ Z.of_nat width ->
  zero_padded width n = zero_padded width m -> n = m.
Proof.
  revert n m. induction width as [|w IH]; intros n m Hn Hm H.
  - change (10 ^ Z.of_nat 0) with 1 in *. lia.
  - rewrite Nat2Z.inj_succ, Z.pow_succ_r in Hn, Hm by lia.
    cbn [zero_padded] in H.
    apply append_inj_length in H; [|now rewrite !zero_padded_length].
    destruct H as [Hhi Hlo]. injection Hlo as Hlo.
    apply digit_char_inj in Hlo.
    apply IH in Hhi;
      [|split; [apply Z.div_pos; lia | apply Z.div_lt_upper_bound; lia]..].
    rewrite (Z.div_mod n 10), (Z.div_mod m 10) by lia. lia.
Qed.

Lemma strftime_inj (t1 t2 : clock) :
  clock_in_range t1 -> clock_in_range t2 ->
  strftime_YmdHMS t1 = strftime_YmdHMS t2 -> t1 = t2.
Proof.
  intros (Y1 & M1 & D1 & H1 & I1 & S1) (Y2 & M2 & D2 & H2 & I2 & S2).
  unfold strftime_YmdHMS. intros H.
  apply append_inj_length in H; [|now rewrite !zero_padded_length].
  destruct H as [Hy H].
  apply append_inj_length in H; [|now rewrite !zero_padded_length].
  destruct H as [Hm H].
  apply append_inj_length in H; [|now rewrite !zero_padded_length].
  destruct H as [Hd H].
  apply append_inj_length in H; [|now rewrite !zero_padded_length].
  destruct H as [Hh H].
  apply append_inj_length in H; [|now rewrite !zero_padded_length].
  destruct H as [Hi Hs].
  apply zero_padded_inj in Hy, Hm, Hd, Hh, Hi, Hs; try assumption.
  destruct t1, t2. cbn in *. congruence.
Qed.

Lemma ID_ALPHABET_NoDup : List.NoDup ID_ALPHABET.
Proof.
  assert (H : nodup ascii_dec ID_ALPHABET = ID_ALPHABET)
    by (vm_compute; reflexivity).
  rewrite <- H. apply List.NoDup_nodup.
Qed.

Lemma random_choices_eq (k : nat) (g1 g2 : nat -> nat) :
  random_choices ID_ALPHABET k g1 = random_choices ID_ALPHABET k g2 <->
  forall i, (i < k)%nat -> (g1 i mod 36 = g2 i mod 36)%nat.
Proof.
  unfold random_choices. change (length ID_ALPHABET) with 36%nat. split.
  - intros H i Hi.
    apply (proj1 (List.NoDup_nth ID_ALPHABET "A"%char) ID_ALPHABET_NoDup).
    + change (length ID_ALPHABET) with 36%nat. apply Nat.mod_upper_bound. lia.
    + change (length ID_ALPHABET) with 36%nat. apply Nat.mod_upper_bound. lia.
    + apply (proj1 List.map_ext_in_iff H), in_seq. lia.
  - intros H. apply List.map_ext_in. intros i Hi. apply in_seq in Hi.
    rewrite H by lia. reflexivity.
Qed.

(** X26: two identifiers that [save] generates coincide exactly when they
    are generated in the same second and the five random draws pick the same
    characters; bookings created in different seconds never collide. *)
Theorem generate_id_collision (w1 w2 : env) :
  clock_in_range (now w1) -> clock_in_range (now w2) ->
  generate_id w1 = generate_id w2 <->
  now w1 = now w2
  /\ forall i, (i < 5)%nat -> (draw w1 i mod 36 = draw w2 i mod 36)%nat.
Proof.
  intros H1 H2. unfold generate_id. split.
  - intros H.
    apply (append_inj_length "BK" "BK") in H; [|reflexivity].
    destruct H as [_ H].
    apply append_inj_length in H; [|now rewrite !strftime_length].
    destruct H as [Ht Hr]. split; [now apply strftime_inj|].
    apply random_choices_eq.
    apply (f_equal list_ascii_of_string) in Hr.
    now rewrite !list_ascii_of_string_of_list_ascii in Hr.
  - intros [Ht Hr]. rewrite Ht.
    now rewrite (proj2 (random_choices_eq 5 (draw w1) (draw w2)) Hr).
Qed.

End Collisions.

(** ** The double-booking invariant *)

Section Reactivation.

Variable fv : Booking -> list verror.


End Reactivation.

(** ** The further properties at work on the sample data *)

Lemma sample_db_consistent : consistent sample_db.
Proof.
  split; [|split].
  - intros k b H. change (bookings sample_db) with (∅ : gmap nat Booking) in H.
    rewrite lookup_empty in H. discriminate.
  - intros k p H. change (payments sample_db) with (∅ : gmap nat Payment) in H.
    rewrite lookup_empty in H. discriminate.
  - intros i j a b H. change (bookings sample_db) with (∅ : gmap nat Booking) in H.
    rewrite lookup_empty in H. discriminate.
Qed.

Lemma ten_hours_valid (st : string) :
  In st STATUS_CHOICES -> valid_booking (ten_hours st).
Proof.
  intros Hst. split; [discriminate|]. split; [reflexivity|].
  split; [reflexivity|]. split; [reflexivity|]. split; [cbn; auto | exact Hst].
Qed.

Lemma stored_db_consistent (st : string) :
  In st STATUS_CHOICES -> consistent (stored_db (ten_hours st)).
Proof.
  intros Hst. split; [|split].
  - intros k b H.
    change (bookings (stored_db (ten_hours st)))
      with ({[ 1%nat := ten_hours st ]} : gmap nat Booking) in H.
    apply lookup_singleton_Some in H. destruct H as [<- <-].
    split; [cbn; lia|]. split; [now apply ten_hours_valid|].
    exists sample_vehicle. reflexivity.
  - intros k p H.
    change (payments (stored_db (ten_hours st))) with (∅ : gmap nat Payment) in H.
    rewrite lookup_empty in H. discriminate.
  - intros i j a b Hi Hj _.
    change (bookings (stored_db (ten_hours st)))
      with ({[ 1%nat := ten_hours st ]} : gmap nat Booking) in Hi, Hj.
    apply lookup_singleton_Some in Hi, Hj. destruct Hi, Hj. congruence.
Qed.

Lemma stored_db_in_sync (st : string) : all_in_sync (stored_db (ten_hours st)).
Proof.
  intros k b H.
  change (bookings (stored_db (ten_hours st)))
    with ({[ 1%nat := ten_hours st ]} : gmap nat Booking) in H.
  apply lookup_singleton_Some in H. destruct H as [<- <-].
  exists sample_vehicle. split; [reflexivity | vm_compute; reflexivity].
Qed.


Lemma save_writes_valid_booking_witness :
  let b := set_booking_id "" (sample_booking 0 10 UNIT_HOURLY STATUS_PENDING) in
  let b' := ten_hours STATUS_PENDING in
  bookings (stored_db b') !! 1%nat = Some b'
  /\ valid_booking b'
  /\ price_in_sync (stored_db b') b'
  /\ (forall k' r, bookings (stored_db b') !! k' = Some r ->
        booking_id r = booking_id b' -> k' = 1%nat)
  /\ same_terms b b' /\ status b' = status b
  /\ (booking_id b <> ""%string -> booking_id b' = booking_id b).
Proof.
  intros b b'.
  apply (save_writes_valid_booking no_field_errors (sample_env 7) None b
           sample_db (stored_db b') 1%nat b').
  vm_compute. reflexivity.
Defined.

Lemma run_consistent_witness :
  consistent (run no_field_errors double_booking_trace sample_db).
Proof.
  apply (run_consistent no_field_errors double_booking_trace sample_db).
  exact sample_db_consistent.
Defined.

Lemma run_keeps_terms_witness :
  exists b',
    bookings (run no_field_errors status_trace
                (stored_db (ten_hours STATUS_PENDING))) !! 1%nat = Some b'
    /\ same_terms (ten_hours STATUS_PENDING) b'
    /\ booking_id b' = booking_id (ten_hours STATUS_PENDING).
Proof.
  apply (run_keeps_terms no_field_errors status_trace
           (stored_db (ten_hours STATUS_PENDING)) 1%nat
           (ten_hours STATUS_PENDING)).
  - apply stored_db_consistent. cbn. auto.
  - reflexivity.
  - repeat constructor.
Defined.

Lemma run_prices_in_sync_witness :
  all_in_sync (run no_field_errors status_trace
                 (stored_db (ten_hours STATUS_PENDING))).
Proof.
  apply (run_prices_in_sync no_field_errors status_trace
           (stored_db (ten_hours STATUS_PENDING))).
  - apply stored_db_in_sync.
  - repeat constructor.
Defined.

Lemma perform_create_result_witness :
  let d := sample_data 0 10 UNIT_HOURLY in
  exists v b',
    Created 1 (ten_hours STATUS_PENDING) = Created (next_booking sample_db) b'
    /\ has_role sample_db 20 ROLE_CUSTOMER = true
    /\ vehicles sample_db !! d_vehicle d = Some v
    /\ exists_row (fun _ => overlap_lookup (d_vehicle d) (d_start_at d)
                              (d_end_at d)) (bookings sample_db) = false
    /\ stored_db (ten_hours STATUS_PENDING)
       = with_bookings (<[next_booking sample_db := b']> (bookings sample_db))
           (S (next_booking sample_db)) sample_db
    /\ valid_booking b'
    /\ status b' = STATUS_PENDING /\ customer b' = 20%nat
    /\ vehicle b' = d_vehicle d
    /\ start_at b' = d_start_at d /\ end_at b' = d_end_at d
    /\ pricing_unit b' = d_pricing_unit d
    /\ dropoff_location b' = d_dropoff_location d
    /\ pickup_location b'
       = (if String.eqb (d_pickup_location d) "" then vehicle_pickup_location v
          else d_pickup_location d)
    /\ delivery_fee b' = default (vehicle_delivery_fee v) (d_delivery_fee d)
    /\ calculate_total v b' = Ok (total_price b').
Proof.
  intros d.
  apply (perform_create_result no_field_errors (sample_env 7) 20 d sample_db
           (stored_db (ten_hours STATUS_PENDING))
           (Created 1 (ten_hours STATUS_PENDING))).
  vm_compute. reflexivity.
Defined.

Lemma perform_create_conflict_witness :
  perform_create no_field_errors (sample_env 9) 20
    (sample_data 5 15 UNIT_HOURLY) (stored_db (ten_hours STATUS_PENDING))
  = (stored_db (ten_hours STATUS_PENDING), Raise PermissionDenied).
Proof.
  apply (perform_create_conflict no_field_errors (sample_env 9) 20
           (sample_data 5 15 UNIT_HOURLY) (stored_db (ten_hours STATUS_PENDING))
           1%nat (ten_hours STATUS_PENDING)).
  - reflexivity.
  - exists sample_vehicle. reflexivity.
  - reflexivity.
  - reflexivity.
  - left. reflexivity.
  - vm_compute. reflexivity.
  - vm_compute. reflexivity.
Defined.

Lemma failed_request_effect_witness :
  let db := stored_db (sample_booking 0 168 "monthly" STATUS_PENDING) in
  let r := Webhook (mkWebhook None (Some PAYMENT_SUCCESS) (Some 1%nat)) in
  let db' := fst (handle no_field_errors (sample_env 8) r db) in
  bookings db' = bookings db /\ vehicles db' = vehicles db
  /\ next_booking db' = next_booking db /\ True.
Proof.
  intros db r db'.
  apply (failed_request_effect no_field_errors (sample_env 8) r db db'
           (ValidationError [InvalidChoice "pricing_unit"])).
  vm_compute. reflexivity.
Defined.

Lemma unauthorised_request_refused_witness :
  let db := stored_db (ten_hours STATUS_PENDING) in
  handle no_field_errors (sample_env 8) (Approve 20 1) db
  = (db, Raise PermissionDenied)
  \/ handle no_field_errors (sample_env 8) (Approve 20 1) db
     = (db, Raise DoesNotExist).
Proof.
  intros db.
  apply (unauthorised_request_refused no_field_errors (sample_env 8)
           (Approve 20 1) db).
  reflexivity.
Defined.

Lemma approve_reject_by_owner_witness :
  let db := stored_db (ten_hours STATUS_PENDING) in
  let b := ten_hours STATUS_PENDING in
  (exists db' b',
     approve no_field_errors (sample_env 8) 10 1 db
     = (db', Ok (Detail 200 "Booking confirmed."))
     /\ bookings db' !! 1%nat = Some b'
     /\ status b' = STATUS_CONFIRMED /\ same_terms b b'
     /\ booking_id b' = booking_id b
     /\ forall k, k <> 1%nat -> bookings db' !! k = bookings db !! k)
  /\ (exists db' b',
        reject no_field_errors (sample_env 8) 10 1 db
        = (db', Ok (Detail 200 "Booking rejected."))
        /\ bookings db' !! 1%nat = Some b'
        /\ status b' = STATUS_CANCELLED /\ same_terms b b'
        /\ booking_id b' = booking_id b
        /\ forall k, k <> 1%nat -> bookings db' !! k = bookings db !! k).
Proof.
  intros db b.
  destruct (approve_reject_by_owner no_field_errors (sample_env 8) 10 1 db b)
    as [Ha Hr]; [reflexivity | reflexivity |].
  split.
  - apply Ha. apply (ten_hours_saveable STATUS_CONFIRMED). cbn. auto.
  - apply Hr. apply (ten_hours_saveable STATUS_CANCELLED). cbn. auto.
Defined.

Lemma webhook_without_success_witness :
  let db := stored_db (ten_hours STATUS_PENDING) in
  let d := mkWebhook None (Some PAYMENT_FAILED) (Some 1%nat) in
  bookings (fst (webhook no_field_errors (sample_env 8) d db)) = bookings db
  /\ webhook no_field_errors (sample_env 8) d db
     = (with_payments
          (<[1%nat := mkPayment 1 "cashfree" "" PAYMENT_FAILED
                        (mkDec 100000 (-2))]> (payments db)) 2 db,
        Ok (Detail 200 "Webhook processed.")).
Proof.
  intros db d.
  destruct (webhook_without_success no_field_errors (sample_env 8) d db
              PAYMENT_FAILED) as (Hb & _ & _ & _ & Hnew);
    [reflexivity | discriminate |].
  split; [exact Hb|].
  apply (Hnew 1%nat (ten_hours STATUS_PENDING));
    [reflexivity | reflexivity | discriminate | reflexivity].
Defined.

Lemma webhook_success_confirms_witness :
  let db := stored_db (ten_hours STATUS_PENDING) in
  let b := ten_hours STATUS_PENDING in
  let d := mkWebhook None (Some PAYMENT_SUCCESS) (Some 1%nat) in
  exists db' b',
    webhook no_field_errors (sample_env 8) d db
    = (db', Ok (Detail 200 "Webhook processed."))
    /\ bookings db' !! 1%nat = Some b'
    /\ status b' = STATUS_CONFIRMED /\ same_terms b b'
    /\ (forall k, k <> 1%nat -> bookings db' !! k = bookings db !! k)
    /\ payments db'
       = <[next_payment db :=
             mkPayment 1 "cashfree" (default ""%string (truthy (w_reference_id d)))
               PAYMENT_SUCCESS (total_price b)]> (payments db)
    /\ next_payment db' = S (next_payment db).
Proof.
  intros db b d.
  apply (webhook_success_confirms no_field_errors (sample_env 8) d db 1%nat b).
  - reflexivity.
  - reflexivity.
  - reflexivity.
  - reflexivity.
  - apply (ten_hours_saveable STATUS_CONFIRMED). cbn. auto.
Defined.

Lemma checkout_then_webhook_witness :
  let db := stored_db (ten_hours STATUS_PENDING) in
  let b := ten_hours STATUS_PENDING in
  exists db1 p db2 b',
    checkout 20 1 db
    = (db1, Ok (CheckoutPayment (next_payment db) p
                  "Integrate Cashfree payment here."))
    /\ p = mkPayment 1 "cashfree" (str (next_payment db)) PAYMENT_PENDING
             (total_price b)
    /\ payments db1 !! next_payment db = Some p
    /\ webhook no_field_errors (sample_env 9)
         (mkWebhook (Some (reference_id p)) (Some PAYMENT_SUCCESS) None) db1
       = (db2, Ok (Detail 200 "Webhook processed."))
    /\ bookings db2 !! 1%nat = Some b'
    /\ status b' = STATUS_CONFIRMED
    /\ payments db2
       = <[next_payment db :=
             mkPayment 1 "cashfree" (str (next_payment db)) PAYMENT_SUCCESS
               (total_price b)]> (payments db)
    /\ next_payment db2 = S (next_payment db).
Proof.
  intros db b.
  apply (checkout_then_webhook no_field_errors (sample_env 9) 20 1 db b).
  - reflexivity.
  - reflexivity.
  - reflexivity.
  - intros k p H. change (payments db) with (∅ : gmap nat Payment) in H.
    rewrite lookup_empty in H. discriminate.
  - apply (ten_hours_saveable STATUS_CONFIRMED). cbn. auto.
Defined.

Lemma checkout_reference_clash_witness :
  let d := mkWebhook (Some "2"%string) (Some PAYMENT_SUCCESS) None in
  webhook no_field_errors (sample_env 9) d (fst (checkout 20 1 clash_db))
  = (fst (checkout 20 1 clash_db), Raise MultipleObjectsReturned).
Proof.
  intros d.
  apply (checkout_reference_clash no_field_errors (sample_env 9) 20 1 clash_db
           (ten_hours STATUS_PENDING) 1%nat
           (mkPayment 1 "cashfree" "2" PAYMENT_PENDING (mkDec 100000 (-2))) d).
  - reflexivity.
  - reflexivity.
  - reflexivity.
  - reflexivity.
  - cbn. lia.
  - reflexivity.
  - reflexivity.
Defined.

Lemma created_price_is_quote_plus_fee_witness :
  total_price (ten_hours STATUS_PENDING)
  = mkDec (coef (mkDec 100000 (-2)) + coef (delivery_fee (ten_hours STATUS_PENDING)))
      (-2).
Proof.
  apply (created_price_is_quote_plus_fee no_field_errors (sample_env 7) 20
           (sample_data 0 10 UNIT_HOURLY) sample_db
           (stored_db (ten_hours STATUS_PENDING)) 1%nat
           (ten_hours STATUS_PENDING) 1%nat (mkDec 100000 (-2))).
  - vm_compute. reflexivity.
  - vm_compute. reflexivity.
  - cbn. lia.
  - split; [reflexivity | cbn; lia].
Defined.

Lemma availability_lists_conflicts_witness :
  let db := stored_db (ten_hours STATUS_PENDING) in
  let s := hour_mark 5 in
  let e := hour_mark 15 in
  exists slots,
    availability 1 (Parsed s) (Parsed e) db = (db, Ok (BookedSlots 1 slots))
    /\ (forall slot,
          In slot slots <->
          exists pk b, bookings db !! pk = Some b
                       /\ overlap_lookup 1 s e b = true
                       /\ slot = (start_at b, end_at b, status b))
    /\ length slots
       = length (filter_rows (fun _ => overlap_lookup 1 s e) (bookings db))
    /\ StronglySorted
         (fun x y => micros (fst (fst x)) <= micros (fst (fst y))) slots.
Proof.
  intros db s e.
  apply (availability_lists_conflicts 1 s e db sample_vehicle); reflexivity.
Defined.

Lemma save_rejects_duplicate_id_witness :
  let b := sample_booking 20 30 UNIT_HOURLY STATUS_PENDING in
  let db := stored_db (ten_hours STATUS_PENDING) in
  exists errs,
    save no_field_errors (sample_env 9) None b db = Raise (ValidationError errs)
    /\ (existsb (is_booking_id_error)
          (clean_fields no_field_errors db
             (if String.eqb (booking_id b) ""
              then set_booking_id (generate_id (sample_env 9)) b else b)) = false ->
        In (NotUnique "booking_id") errs).
Proof.
  intros b db.
  apply (save_rejects_duplicate_id no_field_errors (sample_env 9) None b db
           1%nat (ten_hours STATUS_PENDING)).
  - reflexivity.
  - reflexivity.
  - reflexivity.
  - discriminate.
  - reflexivity.
Defined.

Lemma save_again_changes_nothing_witness :
  save no_field_errors (sample_env 30) (Some 1%nat) (ten_hours STATUS_PENDING)
    (stored_db (ten_hours STATUS_PENDING))
  = Ok (stored_db (ten_hours STATUS_PENDING), 1%nat, ten_hours STATUS_PENDING).
Proof.
  apply (save_again_changes_nothing no_field_errors (sample_env 7)
           (sample_env 30) None
           (set_booking_id "" (sample_booking 0 10 UNIT_HOURLY STATUS_PENDING))
           sample_db (stored_db (ten_hours STATUS_PENDING)) 1%nat
           (ten_hours STATUS_PENDING)).
  - vm_compute. reflexivity.
  - reflexivity.
Defined.

Lemma whole_units_price_witness :
  calculate_total (rated_vehicle 8550)
    (timed_booking (3 * 3600 * 10 ^ 6) UNIT_HOURLY)
  = Ok (mkDec (3 * coef (mkDec 8550 (-2)) + coef (mkDec 0 (-2))) (-2))
  /\ calculate_total (rated_vehicle 8550)
       (timed_booking (2 * (24 * 3600) * 10 ^ 6) UNIT_DAILY)
     = Ok (mkDec (2 * coef (mkDec 8550 (-2)) + coef (mkDec 0 (-2))) (-2)).
Proof.
  assert (M : forall c, 0 <= c < 10 ^ 10 -> money (mkDec c (-2)))
    by (intros c Hc; split; [reflexivity | exact Hc]).
  split.
  - refine (proj1 (whole_units_price (rated_vehicle 8550)
                     (timed_booking (3 * 3600 * 10 ^ 6) UNIT_HOURLY) 3 3600
                     _ _ _ _ _ _ _ _) _ _);
      try reflexivity; try (apply M; cbn; lia); unfold MAX_SECONDS; lia.
  - refine (proj1 (proj2 (whole_units_price (rated_vehicle 8550)
                            (timed_booking (2 * (24 * 3600) * 10 ^ 6) UNIT_DAILY)
                            2 (24 * 3600) _ _ _ _ _ _ _ _)) _ _);
      try reflexivity; try (apply M; cbn; lia); unfold MAX_SECONDS; lia.
Defined.

Lemma short_window_costs_fee_witness :
  calculate_total (rated_vehicle 100000) (timed_booking (432 * 10 ^ 6) UNIT_DAILY)
  = Ok (mkDec 0 (-2))
  /\ calculate_total (rated_vehicle 100000)
       (timed_booking (3024 * 10 ^ 6) UNIT_WEEKLY)
     = Ok (mkDec 0 (-2)).
Proof.
  assert (M : forall c, 0 <= c < 10 ^ 10 -> money (mkDec c (-2)))
    by (intros c Hc; split; [reflexivity | exact Hc]).
  split.
  - refine (proj1 (short_window_costs_fee (rated_vehicle 100000)
                     (timed_booking (432 * 10 ^ 6) UNIT_DAILY) 432
                     _ _ _ _ _ _ _) _ _);
      try reflexivity; try (apply M; cbn; lia); lia.
  - refine (proj2 (short_window_costs_fee (rated_vehicle 100000)
                     (timed_booking (3024 * 10 ^ 6) UNIT_WEEKLY) 3024
                     _ _ _ _ _ _ _) _ _);
      try reflexivity; try (apply M; cbn; lia); lia.
Defined.

Lemma longer_window_costs_no_less_witness :
  exists t1 t2,
    calculate_total (rated_vehicle 100000)
      (timed_booking (3600 * 10 ^ 6) UNIT_DAILY) = Ok t1
    /\ calculate_total (rated_vehicle 100000)
         (timed_booking (7200 * 10 ^ 6) UNIT_DAILY) = Ok t2
    /\ dexp t1 = -2 /\ dexp t2 = -2 /\ coef t1 <= coef t2.
Proof.
  apply (longer_window_costs_no_less (rated_vehicle 100000)
           (timed_booking (3600 * 10 ^ 6) UNIT_DAILY)
           (timed_booking (7200 * 10 ^ 6) UNIT_DAILY) 3600 7200);
    try reflexivity; try (split; [reflexivity | cbn; lia]);
    try (unfold MAX_SECONDS; lia).
  left. reflexivity.
Defined.

Lemma duration_hours_accuracy_witness :
  exists h,
    duration_hours (timed_booking (7 * 10 ^ 6) UNIT_HOURLY) = Ok h
    /\ 0 < coef h < 10 ^ 28
    /\ (Qabs (value h - inject_Z 7 * (1 # 3600)) <= value h * ULP)%Q
    /\ ((9 | 7) -> (value h == inject_Z 7 * (1 # 3600))%Q).
Proof.
  apply (duration_hours_accuracy (timed_booking (7 * 10 ^ 6) UNIT_HOURLY) 7).
  - reflexivity.
  - reflexivity.
  - unfold MAX_SECONDS. lia.
Defined.

Lemma generate_id_collision_witness :
  generate_id (sample_env 7) = generate_id (sample_env 8) <->
  now (sample_env 7) = now (sample_env 8)
  /\ forall i, (i < 5)%nat ->
       (draw (sample_env 7) i mod 36 = draw (sample_env 8) i mod 36)%nat.
Proof.
  apply (generate_id_collision (sample_env 7) (sample_env 8));
    unfold clock_in_range; cbn; lia.
Defined.


Lemma price_in_hundredths_witness :
  calculate_total (rated_vehicle 8550) (timed_booking (7 * 10 ^ 6) UNIT_HOURLY)
  = Ok (mkDec (round_half_even (7 * coef (mkDec 8550 (-2))) 3600
               + coef (mkDec 0 (-2))) (-2)).
Proof.
  assert (M : forall c, 0 <= c < 10 ^ 10 -> money (mkDec c (-2)))
    by (intros c Hc; split; [reflexivity | exact Hc]).
  refine (proj1 (price_in_hundredths (rated_vehicle 8550)
                   (timed_booking (7 * 10 ^ 6) UNIT_HOURLY) 7 _ _ _ _ _ _ _)
            _ _);
    try reflexivity; try (apply M; cbn; lia);
    try (unfold MAX_SECONDS; lia).
  right. vm_compute. discriminate.
Defined.

Lemma cancel_twice_witness :
  let db' := fst (cancel no_field_errors (sample_env 8) 20 1
                    (stored_db (ten_hours STATUS_PENDING))) in
  cancel no_field_errors (sample_env 9) 20 1 db'
  = (db', Ok (Detail 400 "Booking already cancelled.")).
Proof.
  intros db'.
  apply (cancel_twice no_field_errors (sample_env 8) (sample_env 9) 20 1
           (stored_db (ten_hours STATUS_PENDING)) db'
           (Detail 200 "Booking cancelled.")).
  vm_compute. reflexivity.
Defined.

Lemma total_price_recomputed_on_save_witness :
  let db := stored_db (ten_hours STATUS_PENDING) in
  let db' := fst (handle no_field_errors (sample_env 8) (Cancel 20 1) db) in
  (exists b', bookings db' !! 1%nat = Some b' /\ price_in_sync db' b')
  /\ (forall b', bookings db' !! 1%nat = Some b' ->
                 total_price b' = total_price (ten_hours STATUS_PENDING)).
Proof.
  intros db db'.
  destruct (total_price_recomputed_on_save no_field_errors)
    as (_ & Hsaved & _ & _ & Hkept).
  split.
  - apply (Hsaved (sample_env 8) (Cancel 20 1) db
             (Detail 200 "Booking cancelled.") 1%nat);
      [vm_compute; reflexivity|].
    split; [reflexivity|]. exists (ten_hours STATUS_PENDING).
    split; [reflexivity | discriminate].
  - intros b'.
    apply (Hkept (sample_env 8) (Cancel 20 1) db 1%nat
             (ten_hours STATUS_PENDING) b').
    + reflexivity.
    + simpl. lia.
    + exists sample_vehicle. split; vm_compute; reflexivity.
    + discriminate.
Defined.

Lemma terminal_state_transitions_witness :
  let db := stored_db (ten_hours STATUS_CONFIRMED) in
  let db' := fst (handle no_field_errors (sample_env 8) (Reject 10 1) db) in
  (bookings db' !! 1%nat = None ->
   deletes_row (Reject 10 1) 1 (ten_hours STATUS_CONFIRMED))
  /\ exists b', bookings db' !! 1%nat = Some b'
                /\ status b' = STATUS_CANCELLED.
Proof.
  intros db db'.
  destruct (terminal_state_transitions no_field_errors (sample_env 8)
              (Reject 10 1) db 1%nat (ten_hours STATUS_CONFIRMED))
    as (Hgone & _ & _ & _ & Hreject); [reflexivity | simpl; lia |].
  split; [exact Hgone|].
  apply (Hreject 10%nat sample_vehicle);
    [reflexivity | reflexivity | reflexivity | reflexivity |].
  split; [discriminate|]. split; [reflexivity|]. split; [reflexivity|].
  split; [vm_compute; reflexivity|].
  exists sample_vehicle, (mkDec 100000 (-2)). split; vm_compute; reflexivity.
Defined.
